(** * azureSMTPwithOAuth: the SMTP session engine of [smtp.go]

    A shallow embedding of [smtp.go] (session loop, address checks, MIME
    walk, Graph submission with retry, OAuth2 token cache) and the
    properties of it that the specification states.

    Go strings are byte sequences: they are modelled as [string] (a list
    of 8-bit [ascii]).  Go [int] and [int64] values are modelled as [Z];
    where the source can overflow 64 bits the wrap-around is written out
    with [wrap64].  Lengths and indexes of strings stay far below 2^63 and
    are plain [Z]. *)

From stdpp Require Import gmap strings.
From Stdlib Require Import ZArith Lia Bool List Ascii String DecimalString.
Import ListNotations.

Local Open Scope string_scope.
Local Open Scope list_scope.
Local Open Scope Z_scope.

(** ** Go string primitives used by [smtp.go] *)

Module GoStrings.

Definition len (s : string) : Z := Z.of_nat (String.length s).

(** [s[lo:hi]] *)
Definition slice (s : string) (lo hi : Z) : string :=
  String.substring (Z.to_nat lo) (Z.to_nat (hi - lo)) s.

(** [strings.HasPrefix(s, p)] *)
Definition HasPrefix (s p : string) : bool := String.prefix p s.

(** [strings.Index(s, substr)]: first byte index of [substr], or -1. *)
Fixpoint Index (s substr : string) : Z :=
  if String.prefix substr s then 0
  else match s with
       | EmptyString => -1
       | String _ s' => let i := Index s' substr in
                        if i <? 0 then -1 else i + 1
       end.

(** [strings.LastIndex(s, substr)]: last byte index of [substr], or -1. *)
Fixpoint LastIndex (s substr : string) : Z :=
  match s with
  | EmptyString => if String.prefix substr s then 0 else -1
  | String _ s' => let i := LastIndex s' substr in
                   if 0 <=? i then i + 1
                   else if String.prefix substr s then 0 else -1
  end.

(** [strings.Contains(s, substr)] *)
Definition Contains (s substr : string) : bool := 0 <=? Index s substr.

(** [strings.HasSuffix(s, suffix)] *)
Definition HasSuffix (s suffix : string) : bool :=
  let n := String.length s in
  let m := String.length suffix in
  (m <=? n)%nat && String.eqb (String.substring (n - m) m s) suffix.

Definition byte_in (c : ascii) (cutset : string) : bool :=
  existsb (Ascii.eqb c) (list_ascii_of_string cutset).

(** [strings.TrimRight(s, cutset)] for a cutset of single bytes. *)
Fixpoint TrimRight (s cutset : string) : string :=
  match s with
  | EmptyString => EmptyString
  | String c s' =>
      match TrimRight s' cutset with
      | EmptyString => if byte_in c cutset then EmptyString
                       else String c EmptyString
      | t => String c t
      end
  end.

Definition bytes (l : list nat) : string :=
  string_of_list_ascii (map ascii_of_nat l).

Definition CR : string := bytes [13%nat].
Definition LF : string := bytes [10%nat].
Definition CRLF : string := bytes [13%nat; 10%nat].

(** The white space of [unicode.IsSpace], as UTF-8 byte sequences: the six
    ASCII ones (tab, LF, VT, FF, CR, space), U+0085, U+00A0, U+1680,
    U+2000..U+200A, U+2028, U+2029, U+202F, U+205F and U+3000.  The lead
    byte of such an encoding is never a continuation byte of another rune,
    so matching the encodings on bytes agrees with Go's rune-by-rune
    decoding, from the left and from the right. *)
Definition unicodeSpaces : list string :=
  (map (fun k => bytes [k]) [9; 10; 11; 12; 13; 32]
   ++ [bytes [194; 133]; bytes [194; 160]; bytes [225; 154; 128]]
   ++ map (fun k => bytes [226; 128; k])
        [128; 129; 130; 131; 132; 133; 134; 135; 136; 137; 138]
   ++ [bytes [226; 128; 168]; bytes [226; 128; 169]; bytes [226; 128; 175];
       bytes [226; 129; 159]; bytes [227; 128; 128]])%nat%list.

Fixpoint revs (s : string) : string :=
  match s with
  | EmptyString => EmptyString
  | String c s' => String.append (revs s') (String c EmptyString)
  end.

(** The number of bytes of the member of [ws] that [s] starts with, or 0. *)
Definition widthIn (ws : list string) (s : string) : nat :=
  match List.find (fun w => String.prefix w s) ws with
  | Some w => String.length w
  | None => 0
  end.

(** Removes the leading members of [ws]; [skip] counts the bytes still to
    drop of the member being removed. *)
Fixpoint trimLeftIn (ws : list string) (skip : nat) (s : string) : string :=
  match skip, s with
  | S k, String _ s' => trimLeftIn ws k s'
  | S _, EmptyString => EmptyString
  | O, EmptyString => EmptyString
  | O, String _ s' =>
      match widthIn ws s with
      | O => s
      | S k => trimLeftIn ws k s'
      end
  end.

(** [strings.TrimSpace(s)]: leading, then trailing white space removed. *)
Definition TrimSpace (s : string) : string :=
  let l := trimLeftIn unicodeSpaces 0 s in
  revs (trimLeftIn (map revs unicodeSpaces) 0 (revs l)).

(** [strings.Fields(s)]: the maximal runs of non-white-space bytes. *)
Fixpoint fieldsFrom (skip : nat) (cur : string) (s : string) : list string :=
  match s with
  | EmptyString => if String.eqb cur EmptyString then [] else [cur]
  | String c s' =>
      match skip with
      | S k => fieldsFrom k cur s'
      | O =>
          match widthIn unicodeSpaces s with
          | O => fieldsFrom 0 (String.append cur (String c EmptyString)) s'
          | S k => (if String.eqb cur EmptyString then [] else [cur])
                   ++ fieldsFrom k EmptyString s'
          end
      end
  end.

Definition Fields (s : string) : list string := fieldsFrom 0 EmptyString s.

(** [strings.SplitN(s, sep, 2)] *)
Definition SplitN2 (s sep : string) : list string :=
  let i := Index s sep in
  if i <? 0 then [s]
  else [slice s 0 i; slice s (i + len sep) (len s)].

(** [strings.ReplaceAll(s, old, new)] for a non-empty [old]. *)
Fixpoint replaceFrom (skip : nat) (old new s : string) : string :=
  match s with
  | EmptyString => EmptyString
  | String c s' =>
      match skip with
      | S k => replaceFrom k old new s'
      | O => if String.prefix old s
             then String.append new
                    (replaceFrom (String.length old - 1) old new s')
             else String c (replaceFrom 0 old new s')
      end
  end.

Definition ReplaceAll (s old new : string) : string := replaceFrom 0 old new s.

Definition isByte (c : ascii) (n : nat) : bool := Nat.eqb (nat_of_ascii c) n.

Definition upperByte (c : ascii) : ascii :=
  let n := nat_of_ascii c in
  if (97 <=? n)%nat && (n <=? 122)%nat then ascii_of_nat (n - 32) else c.

Definition lowerByte (c : ascii) : ascii :=
  let n := nat_of_ascii c in
  if (65 <=? n)%nat && (n <=? 90)%nat then ascii_of_nat (n + 32) else c.

(** [strings.ToUpper(s)], as far as a comparison of the result with ASCII
    text can tell: ASCII letters are upper-cased, and so are the two other
    runes whose upper case is ASCII, U+0131 (bytes C4 B1, to [I]) and
    U+017F (bytes C5 BF, to [S]).  Every other non-ASCII rune maps to
    non-ASCII bytes in Go and is left as it is here, so [HasPrefix],
    [Contains] and equality against ASCII text agree with Go. *)
Fixpoint ToUpper (s : string) : string :=
  match s with
  | EmptyString => EmptyString
  | String c s' =>
      match s' with
      | String d s'' =>
          if isByte c 196 && isByte d 177 then String "I" (ToUpper s'')
          else if isByte c 197 && isByte d 191 then String "S" (ToUpper s'')
          else String (upperByte c) (ToUpper s')
      | EmptyString => String (upperByte c) EmptyString
      end
  end.

(** [strings.ToLower(s)], in the same sense: besides the ASCII letters,
    U+0130 (bytes C4 B0) lowers to [i] and U+212A (bytes E2 84 AA) to [k]. *)
Fixpoint ToLower (s : string) : string :=
  match s with
  | EmptyString => EmptyString
  | String c s' =>
      match s' with
      | String d s'' =>
          if isByte c 196 && isByte d 176 then String "i" (ToLower s'')
          else
            match s'' with
            | String e s3 =>
                if isByte c 226 && isByte d 132 && isByte e 170
                then String "k" (ToLower s3)
                else String (lowerByte c) (ToLower s')
            | EmptyString => String (lowerByte c) (ToLower s')
            end
      | EmptyString => String (lowerByte c) EmptyString
      end
  end.

(** [%d] of an integer. *)
Definition itoa (n : Z) : string := NilZero.string_of_int (Z.to_int n).

End GoStrings.
Import GoStrings.

(** ** Addresses ([smtp.go], [isValidEmail] and [extractAddress]) *)

(** isValidEmail performs basic email validation *)
Definition isValidEmail (email : string) : bool :=
  if (len email >? 254) || (len email =? 0) then false
  else
    let atIdx := LastIndex email "@" in
    if (atIdx <=? 0) || (atIdx >=? len email - 1) then false
    else
      let local := slice email 0 atIdx in
      let domain := slice email (atIdx + 1) (len email) in
      if (len local >? 64) || (len domain >? 253) then false
      else if negb (Contains domain ".") then false
      else true.

(** extractAddress extracts the email address from SMTP command line *)
Definition extractAddress (line : string) : string :=
  let start := Index line "<" in
  let end_ := Index line ">" in
  if negb (start =? -1) && negb (end_ =? -1) && (end_ >? start)
  then slice line (start + 1) end_
  else
    match SplitN2 line ":" with
    | [_; after] => TrimSpace after
    | _ => ""
    end.

(** ** Integers, durations and instants *)

(** Two's-complement wrap-around of [int64] (and of [int], 64 bits wide on
    the platforms the relay is released for). *)
Definition wrap64 (z : Z) : Z := (z + 2 ^ 63) mod 2 ^ 64 - 2 ^ 63.

(** [time.Duration] counts nanoseconds in an [int64]. *)
Definition Millisecond : Z := 1000000.
Definition Second : Z := 1000000000.

(** A [time.Time] is modelled as its nanoseconds since the epoch. *)
Definition Time : Type := Z.

(** ** Configuration ([tConfig]): the fields [smtp.go] reads *)

Record tConfig := {
  FallbackSMTPuser : string;
  FallbackSMTPpass : string;
  MaxMessageSize : Z;
  StrictAttachments : bool;
  RetryAttempts : Z;
  RetryInitialDelay : Z
}.

(** ** Readers and HTTP responses *)

(** What [io.ReadAll] makes of a reader: its bytes, or the read error. *)
Record Reader := { content : string; readErr : option string }.

Definition ReadAll (r : Reader) : string + string :=
  match readErr r with
  | Some e => inr e
  | None => inl (content r)
  end.

Definition readerOf (s : string) : Reader :=
  {| content := s; readErr := None |}.

Record Response := { StatusCode : Z; Body : Reader }.

(** ** The retry executor ([RetryConfig], [doWithRetry]) *)

Record RetryConfig := {
  MaxAttempts : Z;
  InitialBackoff : Z;
  MaxBackoff : Z;
  RetryableStatus : list Z
}.

(** getRetryConfig returns retry configuration based on config settings *)
Definition getRetryConfig (config : tConfig) : RetryConfig :=
  {| MaxAttempts := RetryAttempts config;
     InitialBackoff := wrap64 (RetryInitialDelay config * Millisecond);
     MaxBackoff := 10 * Second;
     RetryableStatus := [429; 500; 502; 503; 504] |}.

(** isRetryableStatus checks if HTTP status code should trigger a retry *)
Fixpoint isRetryableStatus (status : Z) (retryable : list Z) : bool :=
  match retryable with
  | [] => false
  | s :: rest => if status =? s then true else isRetryableStatus status rest
  end.

(** What the network does at one attempt: whether the context is done
    while the executor waits before the attempt ([ctx.Err()] then), whether
    the request can be rebuilt, and what [client.Do] returns. *)
Inductive DoResult :=
| DoErr (e : string)
| DoResp (r : Response).

Record Attempt := {
  ctxDone : option string;
  newRequestErr : option string;
  doResult : DoResult
}.

Inductive RetryResult :=
| RetryPanic
| RetryReturn (resp : option Response) (err : option string).

(** The backoff before attempt [attempt] (> 0), before jitter. *)
Definition backoffOf (cfg : RetryConfig) (attempt : Z) : Z :=
  let backoff := wrap64 (InitialBackoff cfg * wrap64 (2 ^ (attempt - 1))) in
  if backoff >? MaxBackoff cfg then MaxBackoff cfg else backoff.

(** The loop of [doWithRetry], with [n] iterations left.  [rand.Int63n]
    panics on an argument that is not positive; the jitter it returns only
    lengthens the wait. *)
Fixpoint retryLoop (cfg : RetryConfig) (upstream : Z -> Attempt) (n : nat)
    (attempt : Z) (resp : option Response) (lastErr : option string)
    : RetryResult :=
  match n with
  | O => RetryReturn resp lastErr
  | S n' =>
      let a := upstream attempt in
      let send :=
        match newRequestErr a with
        | Some e => RetryReturn None (Some ("failed to create request: " +:+ e))
        | None =>
            match doResult a with
            | DoErr e => retryLoop cfg upstream n' (attempt + 1) None (Some e)
            | DoResp r =>
                if negb (isRetryableStatus (StatusCode r) (RetryableStatus cfg))
                then RetryReturn (Some r) None
                else retryLoop cfg upstream n' (attempt + 1) (Some r)
                       (Some ("retryable status: " +:+ itoa (StatusCode r)))
            end
        end in
      if attempt >? 0 then
        if Z.quot (backoffOf cfg attempt) 4 <=? 0 then RetryPanic
        else match ctxDone a with
             | Some e => RetryReturn None (Some e)
             | None => send
             end
      else send
  end.

(** doWithRetry executes HTTP request with exponential backoff retry *)
Definition doWithRetry (upstream : Z -> Attempt) (cfg : RetryConfig)
    : RetryResult :=
  retryLoop cfg upstream (Z.to_nat (MaxAttempts cfg)) 0 None None.

(** ** The Graph submitter ([sendMailGraphAPI]) *)

(** Attachment represents a parsed email attachment *)
Record Attachment := {
  Filename : string;
  ContentType : string;
  Content : string
}.

(** The arguments of [sendMailGraphAPI], from which it builds the URL and
    the JSON document. *)
Record GraphMessage := {
  gToken : string;
  gSender : string;
  gMailFrom : string;
  gRcptTo : list string;
  gSubject : string;
  gBody : string;
  gIsHTML : bool;
  gAttachments : list Attachment
}.

(** What the Graph endpoint does with one submission: whether the first
    request can be built from the URL, and the attempts. *)
Record GraphUpstream := {
  requestErr : option string;
  attempts : Z -> Attempt
}.

Inductive SendResult :=
| SendOk
| SendErr (e : string)
| SendPanic.

(** sendMailGraphAPI sends the email via Microsoft Graph API /sendMail with
    retry logic.  [json.Marshal] cannot fail on the document, which holds
    strings, booleans and slices of them only.  A nil response with a nil
    error ([MaxAttempts] below 1) panics at [resp.Body]. *)
Definition sendMailGraphAPI (config : tConfig) (up : GraphUpstream)
    : SendResult :=
  match requestErr up with
  | Some e => SendErr ("failed to create request: " +:+ e)
  | None =>
      match doWithRetry (attempts up) (getRetryConfig config) with
      | RetryPanic => SendPanic
      | RetryReturn _ (Some e) =>
          SendErr ("Graph API call failed after retries: " +:+ e)
      | RetryReturn None None => SendPanic
      | RetryReturn (Some resp) None =>
          if StatusCode resp >=? 300 then
            match ReadAll (Body resp) with
            | inr readErr =>
                SendErr ("Graph API error (status " +:+ itoa (StatusCode resp)
                         +:+ ", failed to read body: " +:+ readErr +:+ ")")
            | inl b =>
                SendErr ("Graph API error (status " +:+ itoa (StatusCode resp)
                         +:+ "): " +:+ b)
            end
          else SendOk
      end
  end.

(** ** Go library functions and upstream services

    The parsers and codecs of the Go standard library that [smtp.go] calls
    are parameters of the model, as are the two HTTPS endpoints: every
    theorem below holds whatever they compute. *)

(** [mail.Header] and [textproto.MIMEHeader]: canonical key to values. *)
Definition Header : Type := gmap string (list string).

(** [h.Get(key)]: the first value of [key], or the empty string. *)
Definition Get (h : Header) (key : string) : string :=
  match h !! key with
  | Some (v :: _) => v
  | _ => ""
  end.

(** A part as [mr.NextPart()] returns it. *)
Record Part := { PartHeader : Header; PartBody : Reader }.

(** One call of [mr.NextPart()]; the end of the list is [io.EOF]. *)
Inductive NextPart :=
| PartOk (p : Part)
| PartErr (e : string).

(** The struct the token response is unmarshalled into. *)
Record tokenResult := {
  AccessToken : string;
  ExpiresIn : Z;
  Error : string;
  ErrorDesc : string
}.

Record GoLib := {
  (** [base64.StdEncoding.DecodeString] *)
  DecodeString : string -> string + string;
  (** [base64.StdEncoding.EncodeToString] *)
  EncodeToString : string -> string;
  (** [io.ReadAll(base64.NewDecoder(base64.StdEncoding, r))] *)
  base64ReadAll : Reader -> string + string;
  (** [io.ReadAll(quotedprintable.NewReader(r))] *)
  quotedprintableReadAll : Reader -> string + string;
  (** [mail.ReadMessage]: header and body, or the error *)
  ReadMessage : string -> Header * Reader + string;
  (** [DecodeHeader] of a [mime.WordDecoder]; [None] on error *)
  DecodeHeader : string -> option string;
  (** [mime.ParseMediaType]; [None] when its error is not nil *)
  ParseMediaType : string -> option (string * gmap string string);
  (** the calls of [NextPart] on [multipart.NewReader(body, boundary)] *)
  multipartParts : Reader -> string -> list NextPart;
  (** [FileName] of a [multipart.Part] *)
  FileName : Part -> string;
  (** the [%q] verb of [fmt] *)
  Quote : string -> string;
  (** [json.Unmarshal] into the token result, or the error *)
  Unmarshal : string -> tokenResult + string
}.

(** What the token endpoint does with one request. *)
Inductive TokenHTTP :=
| TokenRequestErr (e : string)
| TokenDoErr (e : string)
| TokenReadErr (e : string)
| TokenBody (body : string).

Record Env := {
  config : tConfig;
  lib : GoLib;
  tokenEndpoint : string -> string -> TokenHTTP;
  graphEndpoint : GraphMessage -> GraphUpstream
}.

(** ** The token cache ([TokenCache], [getCachedOAuth2Token]) *)

Record cachedToken := { token : string; expiresAt : Time }.

(** The shared state a session acts on: the [sync.Map] of tokens and the
    clock [time.Now()] reads. *)
Record World := {
  TokenCache : gmap string cachedToken;
  Now : Time
}.

(** getOAuth2TokenWithExpiry returns token and expiry (in seconds) *)
Definition getOAuth2TokenWithExpiry (env : Env) (username password : string)
    : string * Z + string :=
  match tokenEndpoint env username password with
  | TokenRequestErr e => inr ("failed to create token request: " +:+ e)
  | TokenDoErr e => inr ("token request failed: " +:+ e)
  | TokenReadErr e => inr ("failed to read token response: " +:+ e)
  | TokenBody body =>
      match Unmarshal (lib env) body with
      | inr e =>
          inr ("failed to parse token response: " +:+ e +:+ ", body: " +:+ body)
      | inl result =>
          if negb (String.eqb (Error result) "") then
            inr ("OAuth2 error: " +:+ Error result +:+ " - " +:+ ErrorDesc result)
          else if String.eqb (AccessToken result) "" then
            inr ("no access token in response, body: " +:+ body)
          else inl (AccessToken result, ExpiresIn result)
      end
  end.

(** [time.Duration(expiresIn-60) * time.Second] *)
Definition cacheLifetime (expiresIn : Z) : Z :=
  wrap64 (wrap64 (expiresIn - 60) * Second).

(** The cache lookup of [getCachedOAuth2Token]: a token that has not
    expired. *)
Definition cachedValid (w : World) (username : string) : option string :=
  match TokenCache w !! username with
  | Some tok => if Now w <? expiresAt tok then Some (token tok) else None
  | None => None
  end.

(** getCachedOAuth2Token returns a cached token or fetches a new one if
    expired.  A session runs the function of [tokenFetchGroup.Do] itself
    when no other session is fetching for the same user, which is the case
    modelled here. *)
Definition getCachedOAuth2Token (env : Env) (w : World)
    (username password : string) : (string + string) * World :=
  match cachedValid w username with
  | Some t => (inl t, w)
  | None =>
      match cachedValid w username with
      | Some t => (inl t, w)
      | None =>
          match getOAuth2TokenWithExpiry env username password with
          | inr err => (inr err, w)
          | inl (tok, expiresIn) =>
              (inl tok,
               {| TokenCache :=
                    <[username := {| token := tok;
                                     expiresAt := Now w + cacheLifetime expiresIn |}]>
                      (TokenCache w);
                  Now := Now w |})
          end
      end
  end.

(** ** The message normalizer ([parseSubjectBodyAndAttachments]) *)

Definition decodeMessage (l : GoLib) (c : string) (r : Reader)
    : string + string :=
  let res :=
    if String.eqb c "base64" then base64ReadAll l r
    else if String.eqb c "quoted-printable" then quotedprintableReadAll l r
    else ReadAll r in
  match res with
  | inr e => inr ("failed to read part: " +:+ e)
  | inl content => inl content
  end.

Record Parsed := {
  pSubject : string;
  pBody : string;
  pIsHTML : bool;
  pAttachments : list Attachment
}.

Definition maxParts : Z := 100.

(** The file name of an attachment part: [p.FileName()], else the [name]
    parameter of its Content-Type. *)
Definition attachmentFilename (l : GoLib) (p : Part) : string :=
  let filename := FileName l p in
  if String.eqb filename "" then
    match ParseMediaType l (Get (PartHeader p) "Content-Type") with
    | Some (_, params) =>
        match params !! "name" with
        | Some n => if negb (String.eqb n "") then n else filename
        | None => filename
        end
    | None => filename
    end
  else filename.

(** The loop over [mr.NextPart()] of [parseSubjectBodyAndAttachments]: the
    body, the HTML flag and the attachments, or the error returned. *)
Fixpoint walkParts (l : GoLib) (strict : bool) (parts : list NextPart)
    (partCount : Z) (body : string) (isHTML : bool)
    (attachments : list Attachment)
    : string * bool * list Attachment + string :=
  match parts with
  | [] => inl (body, isHTML, attachments)
  | PartErr _ :: _ => inl (body, isHTML, attachments)
  | PartOk p :: rest =>
      let partCount := partCount + 1 in
      if partCount >? maxParts then inl (body, isHTML, attachments)
      else if HasPrefix (Get (PartHeader p) "Content-Disposition") "attachment"
      then
        let filename := attachmentFilename l p in
        let ctype :=
          let ctype := Get (PartHeader p) "Content-Type" in
          if String.eqb ctype "" then "application/octet-stream" else ctype in
        let attCTE :=
          ToLower (Get (PartHeader p) "Content-Transfer-Encoding") in
        match decodeMessage l attCTE (PartBody p) with
        | inr err =>
            if strict then
              inr ("failed to decode attachment " +:+ Quote l filename
                   +:+ ": " +:+ err)
            else walkParts l strict rest partCount body isHTML attachments
        | inl dataContent =>
            if String.eqb filename "" || String.eqb ctype ""
               || (len dataContent =? 0)
            then walkParts l strict rest partCount body isHTML attachments
            else walkParts l strict rest partCount body isHTML
                   (attachments ++
                    [{| Filename := filename;
                        ContentType := ctype;
                        Content := EncodeToString l dataContent |}])
        end
      else
        let cte := ToLower (Get (PartHeader p) "Content-Transfer-Encoding") in
        match decodeMessage l cte (PartBody p) with
        | inr _ => walkParts l strict rest partCount body isHTML attachments
        | inl dataContent =>
            let isHTML :=
              if Contains (ToLower (Get (PartHeader p) "Content-Type")) "html"
              then true else isHTML in
            walkParts l strict rest partCount dataContent isHTML attachments
        end
  end.

(** parseSubjectBodyAndAttachments parses the subject, body, and
    attachments from a raw SMTP message *)
Definition parseSubjectBodyAndAttachments (l : GoLib) (strict : bool)
    (msg : string) : Parsed + string :=
  let msg := if negb (HasSuffix msg LF) then msg +:+ LF else msg in
  match ReadMessage l msg with
  | inr err => inr ("mail.ReadMessage failed: " +:+ err)
  | inl (header, mbody) =>
      let subjectRaw := Get header "Subject" in
      let subject :=
        match DecodeHeader l subjectRaw with
        | Some subject => subject
        | None => subjectRaw
        end in
      let ct := Get header "Content-Type" in
      let cte := ToLower (Get header "Content-Transfer-Encoding") in
      let isHTML := Contains (ToLower ct) "html" in
      let fallback :=
        match decodeMessage l cte mbody with
        | inr err => inr ("failed to decode message body: " +:+ err)
        | inl dataContent =>
            inl {| pSubject := subject; pBody := dataContent;
                   pIsHTML := isHTML; pAttachments := [] |}
        end in
      match ParseMediaType l ct with
      | Some (mediaType, params) =>
          if HasPrefix mediaType "multipart/" then
            let boundary := default "" (params !! "boundary") in
            match walkParts l strict (multipartParts l mbody boundary)
                    0 "" isHTML [] with
            | inr err => inr err
            | inl (body, isHTML, attachments) =>
                inl {| pSubject := subject; pBody := body;
                       pIsHTML := isHTML; pAttachments := attachments |}
            end
          else fallback
      | None => fallback
      end
  end.

(** ** The SMTP session ([handleSMTPConnection]) *)

(** The variables of the handler. *)
Record Session := {
  username : string;
  password : string;
  authenticated : bool;
  mailFrom : string;
  rcptTo : list string
}.

Definition setUsername (st : Session) (u : string) : Session :=
  {| username := u; password := password st;
     authenticated := authenticated st;
     mailFrom := mailFrom st; rcptTo := rcptTo st |}.

Definition setPassword (st : Session) (p : string) : Session :=
  {| username := username st; password := p;
     authenticated := authenticated st;
     mailFrom := mailFrom st; rcptTo := rcptTo st |}.

Definition setAuthenticated (st : Session) : Session :=
  {| username := username st; password := password st;
     authenticated := true;
     mailFrom := mailFrom st; rcptTo := rcptTo st |}.

Definition setMailFrom (st : Session) (a : string) : Session :=
  {| username := username st; password := password st;
     authenticated := authenticated st;
     mailFrom := a; rcptTo := rcptTo st |}.

Definition addRcpt (st : Session) (a : string) : Session :=
  {| username := username st; password := password st;
     authenticated := authenticated st;
     mailFrom := mailFrom st; rcptTo := rcptTo st ++ [a] |}.

(** [mailFrom = ""; rcptTo = nil] *)
Definition resetEnvelope (st : Session) : Session :=
  {| username := username st; password := password st;
     authenticated := authenticated st;
     mailFrom := ""; rcptTo := [] |}.

(** One [reader.ReadString('\n')]: a line with its terminator, a timeout,
    or another error.  The end of the list is the end of the stream, an
    error that is not a timeout. *)
Inductive ReadEvent :=
| Line (s : string)
| ReadTimeout
| ReadFailure.

Definition ReadString (input : list ReadEvent)
    : ReadEvent * list ReadEvent :=
  match input with
  | [] => (ReadFailure, [])
  | e :: rest => (e, rest)
  end.

(** How one turn of the command loop ends: [continue], [return], or a
    panic, which the deferred function of the handler recovers. *)
Inductive Next := Continue | Return | Panicked.

(** One turn of the command loop: the replies written, how it ends, and
    the session, the input left unread and the world it leaves. *)
Record Step := {
  replies : list string;
  next : Next;
  session : Session;
  unread : list ReadEvent;
  world : World
}.

Definition reply (text : string) : string := text +:+ CRLF.

(** The loop that reads the message after the 354 prompt. *)
Inductive DataResult :=
| DataReadErr (rest : list ReadEvent)
| DataDone (dataBuffer : string) (rest : list ReadEvent)
| DataTooLarge (messageSize : Z) (rest : list ReadEvent).

Fixpoint readData (max : Z) (input : list ReadEvent) (messageSize : Z)
    (dataBuffer : string) : DataResult :=
  match input with
  | [] => DataReadErr []
  | Line dataLine :: rest =>
      if String.eqb (TrimSpace dataLine) "." then DataDone dataBuffer rest
      else
        let messageSize := wrap64 (messageSize + len dataLine) in
        if messageSize >? max then DataTooLarge messageSize rest
        else readData max rest messageSize (dataBuffer +:+ dataLine)
  | _ :: rest => DataReadErr rest
  end.

(** Drain remaining data to keep connection in sync *)
Fixpoint drain (input : list ReadEvent) : list ReadEvent :=
  match input with
  | [] => []
  | Line drainLine :: rest =>
      if String.eqb (TrimSpace drainLine) "." then rest else drain rest
  | _ :: rest => rest
  end.

(** The commands after the label [continueLoop]: QUIT, RSET, NOOP, and the
    502 default.  [pre] holds the replies already written in this turn. *)
Definition continueLoop (pre : list string) (line : string) (st : Session)
    (rest : list ReadEvent) (w : World) : Step :=
  if HasPrefix (ToUpper line) "QUIT" then
    {| replies := pre ++ [reply "221 2.0.0 Bye"]; next := Return;
       session := st; unread := rest; world := w |}
  else if HasPrefix (ToUpper line) "RSET" then
    {| replies := pre ++ [reply "250 2.0.0 Ok"]; next := Continue;
       session := resetEnvelope st; unread := rest; world := w |}
  else if HasPrefix (ToUpper line) "NOOP" then
    {| replies := pre ++ [reply "250 2.0.0 Ok"]; next := Continue;
       session := st; unread := rest; world := w |}
  else
    {| replies := pre ++ [reply "502 5.5.2 Command not implemented"];
       next := Continue; session := st; unread := rest; world := w |}.

(** Reconstruct message and normalize line endings for MIME parsing *)
Definition normalizeLineEndings (msg : string) : string :=
  ReplaceAll (ReplaceAll (ReplaceAll msg CRLF LF) CR LF) LF CRLF.

Definition prompt354 : string := reply "354 End data with <CR><LF>.<CR><LF>".

(** The arguments the DATA branch passes to [sendMailGraphAPI]. *)
Definition submission (st : Session) (tok : string) (parsed : Parsed)
    : GraphMessage :=
  {| gToken := tok; gSender := username st;
     gMailFrom := mailFrom st; gRcptTo := rcptTo st;
     gSubject := pSubject parsed; gBody := pBody parsed;
     gIsHTML := pIsHTML parsed;
     gAttachments := pAttachments parsed |}.

(** The DATA branch after the terminator: parse, get a token, submit. *)
Definition deliver (env : Env) (w : World) (st : Session)
    (dataBuffer : string) (rest : list ReadEvent) : Step :=
  let msg := normalizeLineEndings dataBuffer in
  match parseSubjectBodyAndAttachments (lib env)
          (StrictAttachments (config env)) msg with
  | inr parseErr =>
      {| replies := [prompt354;
                     reply ("550 5.6.0 Message parsing failed: " +:+ parseErr)];
         next := Return; session := st; unread := rest; world := w |}
  | inl parsed =>
      match getCachedOAuth2Token env w (username st) (password st) with
      | (inr _, w') =>
          {| replies := [prompt354;
                         reply "451 4.7.0 Temporary authentication failure"];
             next := Return; session := st; unread := rest; world := w' |}
      | (inl tok, w') =>
          match sendMailGraphAPI (config env)
                  (graphEndpoint env (submission st tok parsed)) with
          | SendErr err =>
              {| replies := [prompt354;
                             reply ("550 5.7.0 Delivery failed: " +:+ err)];
                 next := Return; session := st; unread := rest; world := w' |}
          | SendPanic =>
              {| replies := [prompt354]; next := Panicked;
                 session := st; unread := rest; world := w' |}
          | SendOk =>
              {| replies := [prompt354; reply "250 2.0.0 Ok: queued as graphapi"];
                 next := Continue; session := resetEnvelope st;
                 unread := rest; world := w' |}
          end
      end
  end.

(** The DATA branch. *)
Definition dataCommand (env : Env) (w : World) (st : Session)
    (line : string) (rest : list ReadEvent) : Step :=
  if (Z.of_nat (List.length (rcptTo st)) =? 0) then
    {| replies := [reply "503 5.5.1 No recipients specified"];
       next := Continue; session := st; unread := rest; world := w |}
  else
    match readData (MaxMessageSize (config env)) rest 0 "" with
    | DataReadErr rest' =>
        {| replies := [prompt354]; next := Return;
           session := st; unread := rest'; world := w |}
    | DataTooLarge _ rest' =>
        continueLoop
          [prompt354;
           reply ("552 5.3.4 Message too large (max "
                  +:+ itoa (MaxMessageSize (config env)) +:+ " bytes)")]
          line (resetEnvelope st) (drain rest') w
    | DataDone dataBuffer rest' => deliver env w st dataBuffer rest'
    end.

(** decodeBase64WithError decodes base64 and returns error instead of
    empty string *)
Definition decodeBase64WithError (l : GoLib) (s : string)
    : string * option string :=
  match DecodeString l s with
  | inr e => ("", Some ("base64 decode failed: " +:+ e))
  | inl decoded => (decoded, None)
  end.

(** The end of the AUTH LOGIN branch, once both values are decoded: the
    fallback credentials, then the token request that validates them. *)
Definition authVerify (env : Env) (w : World) (st : Session)
    (pre : list string) (rest : list ReadEvent) : Step :=
  let missing := String.eqb (username st) "" || String.eqb (password st) "" in
  if missing && (String.eqb (FallbackSMTPuser (config env)) ""
                 || String.eqb (FallbackSMTPpass (config env)) "")
  then
    {| replies := pre ++ [reply "535 5.7.8 Authentication credentials invalid"];
       next := Return; session := st; unread := rest; world := w |}
  else
    let st :=
      if missing
      then setPassword (setUsername st (FallbackSMTPuser (config env)))
             (FallbackSMTPpass (config env))
      else st in
    match getCachedOAuth2Token env w (username st) (password st) with
    | (inr _, w') =>
        {| replies := pre ++ [reply "535 5.7.8 Authentication failed"];
           next := Return; session := st; unread := rest; world := w' |}
    | (inl _, w') =>
        {| replies := pre ++ [reply "235 2.7.0 Authentication successful"];
           next := Continue; session := setAuthenticated st;
           unread := rest; world := w' |}
    end.

(** The password exchange of AUTH LOGIN, after the user name is decoded. *)
Definition authPassword (env : Env) (w : World) (st : Session)
    (pre : list string) (rest : list ReadEvent) : Step :=
  let pre := pre ++ [reply "334 UGFzc3dvcmQ6"] in
  match ReadString rest with
  | (Line passB64, rest) =>
      match decodeBase64WithError (lib env) (TrimSpace passB64) with
      | (p, Some _) =>
          {| replies := pre ++ [reply "501 5.5.4 Invalid base64 encoding"];
             next := Continue; session := setPassword st p;
             unread := rest; world := w |}
      | (p, None) => authVerify env w (setPassword st p) pre rest
      end
  | (_, rest) =>
      {| replies :=
           pre ++ [reply "421 4.7.0 Connection error during authentication"];
         next := Return; session := st; unread := rest; world := w |}
  end.

(** The user name of AUTH LOGIN, given inline or read after a prompt. *)
Definition authUsername (env : Env) (w : World) (st : Session)
    (pre : list string) (userB64 : string) (rest : list ReadEvent) : Step :=
  match decodeBase64WithError (lib env) (TrimSpace userB64) with
  | (u, Some _) =>
      {| replies := pre ++ [reply "501 5.5.4 Invalid base64 encoding"];
         next := Continue; session := setUsername st u;
         unread := rest; world := w |}
  | (u, None) => authPassword env w (setUsername st u) pre rest
  end.

(** The AUTH LOGIN branch. *)
Definition authLogin (env : Env) (w : World) (st : Session)
    (line : string) (rest : list ReadEvent) : Step :=
  match Fields line with
  | [_; _; userB64] => authUsername env w st [] userB64 rest
  | _ =>
      let pre := [reply "334 VXNlcm5hbWU6"] in
      match ReadString rest with
      | (Line userB64, rest) => authUsername env w st pre userB64 rest
      | (_, rest) =>
          {| replies :=
               pre ++ [reply "421 4.7.0 Connection error during authentication"];
             next := Return; session := st; unread := rest; world := w |}
      end
  end.

(** One turn of the command loop on a line that was read. *)
Definition handleCommand (env : Env) (w : World) (st : Session)
    (line : string) (rest : list ReadEvent) : Step :=
  let continue_ (out : list string) (st : Session) :=
    {| replies := out; next := Continue; session := st;
       unread := rest; world := w |} in
  if len line >? 512 then continue_ [reply "500 5.5.1 Line too long"] st
  else
    let line := TrimRight line CRLF in
    if String.eqb line "" then continue_ [] st
    else if HasPrefix (ToUpper line) "EHLO" || HasPrefix (ToUpper line) "HELO"
    then continue_ ["250-smtpRelay" +:+ CRLF +:+ "250 AUTH LOGIN" +:+ CRLF] st
    else if HasPrefix (ToUpper line) "AUTH LOGIN"
    then authLogin env w st line rest
    else if negb (authenticated st)
    then continue_ [reply "530 5.7.0 Authentication required"] st
    else if HasPrefix (ToUpper line) "MAIL FROM:" then
      let st := setMailFrom st (extractAddress line) in
      if String.eqb (mailFrom st) ""
      then continue_ [reply "501 5.1.7 Invalid sender address"] st
      else continue_ [reply "250 2.1.0 Ok"] st
    else if HasPrefix (ToUpper line) "RCPT TO:" then
      let addr := extractAddress line in
      if String.eqb addr "" || negb (isValidEmail addr)
      then continue_ [reply "553 5.1.3 Invalid recipient address"] st
      else continue_ [reply "250 2.1.5 Ok"] (addRcpt st addr)
    else if HasPrefix (ToUpper line) "DATA"
    then dataCommand env w st line rest
    else continueLoop [] line st rest w.

(** What a connection saw: everything written to it, whether the handler
    returned or recovered from a panic (the connection is closed in both
    cases), and the world it leaves. *)
Record Run := {
  written : list string;
  panicked : bool;
  after : World
}.

(** The command loop; [fuel] bounds the number of turns. *)
Fixpoint commandLoop (env : Env) (fuel : nat) (w : World) (st : Session)
    (input : list ReadEvent) : option Run :=
  match fuel with
  | O => None
  | S fuel' =>
      match ReadString input with
      | (ReadTimeout, _) =>
          Some {| written := [reply "421 4.4.2 Connection timeout"];
                  panicked := false; after := w |}
      | (ReadFailure, _) =>
          Some {| written := [reply "421 4.7.0 Service not available"];
                  panicked := false; after := w |}
      | (Line line, rest) =>
          let s := handleCommand env w st line rest in
          match next s with
          | Return =>
              Some {| written := replies s; panicked := false;
                      after := world s |}
          | Panicked =>
              Some {| written := replies s; panicked := true;
                      after := world s |}
          | Continue =>
              match commandLoop env fuel' (world s) (session s) (unread s) with
              | Some r =>
                  Some {| written := replies s ++ written r;
                          panicked := panicked r; after := after r |}
              | None => None
              end
          end
      end
  end.

Definition newSession : Session :=
  {| username := ""; password := ""; authenticated := false;
     mailFrom := ""; rcptTo := [] |}.

(** handleSMTPConnection handles a single SMTP connection.  Every turn
    that continues has read a line, so one turn more than the number of
    read events is enough. *)
Definition handleSMTPConnection (env : Env) (w : World)
    (input : list ReadEvent) : option Run :=
  match commandLoop env (S (List.length input)) w newSession input with
  | Some r =>
      Some {| written := reply "220 SMTP Relay Ready" :: written r;
              panicked := panicked r; after := after r |}
  | None => None
  end.

(** ** Environments to run the model in *)

Module Examples.

(** A library in which every parser and decoder reports an error. *)
Definition failingLib : GoLib :=
  {| DecodeString := fun _ => inr "illegal base64 data at input byte 0";
     EncodeToString := fun s => s;
     base64ReadAll := fun _ => inr "illegal base64 data at input byte 0";
     quotedprintableReadAll :=
       fun _ => inr "quotedprintable: invalid bytes after =";
     ReadMessage := fun _ => inr "malformed MIME header line";
     DecodeHeader := fun _ => None;
     ParseMediaType := fun _ => None;
     multipartParts := fun _ _ => [];
     FileName := fun _ => "";
     Quote := fun s => s;
     Unmarshal := fun _ => inr "unexpected end of JSON input" |}.

Definition unreachable : Attempt :=
  {| ctxDone := None; newRequestErr := None;
     doResult := DoErr "dial tcp: connection refused" |}.

Definition defaults : tConfig :=
  {| FallbackSMTPuser := ""; FallbackSMTPpass := "";
     MaxMessageSize := 26214400; StrictAttachments := false;
     RetryAttempts := 3; RetryInitialDelay := 500 |}.

(** The relay cut off from the network, with the default configuration. *)
Definition offline : Env :=
  {| config := defaults;
     lib := failingLib;
     tokenEndpoint := fun _ _ => TokenDoErr "dial tcp: connection refused";
     graphEndpoint :=
       fun _ => {| requestErr := None; attempts := fun _ => unreachable |} |}.

(** A library double that takes a message as a text without header lines,
    and the token response as one that grants [tok] for [expires]
    seconds, or nothing when the body is the empty object. *)
Definition scriptedLib (expires : Z) : GoLib :=
  {| DecodeString := fun _ => inr "illegal base64 data at input byte 0";
     EncodeToString := fun s => s;
     base64ReadAll := fun _ => inr "illegal base64 data at input byte 0";
     quotedprintableReadAll :=
       fun _ => inr "quotedprintable: invalid bytes after =";
     ReadMessage := fun msg => inl (∅, readerOf msg);
     DecodeHeader := fun s => Some s;
     ParseMediaType := fun _ => None;
     multipartParts := fun _ _ => [];
     FileName := fun _ => "";
     Quote := fun s => s;
     Unmarshal :=
       fun body =>
         inl {| AccessToken := if String.eqb body "{}" then "" else "tok";
                ExpiresIn := expires; Error := ""; ErrorDesc := "" |} |}.

(** An environment in which the token endpoint answers [tokenBody] and
    Graph answers every attempt with [status] and [body]. *)
Definition scripted (max expires : Z) (tokenBody : string)
    (status : Z) (body : string) : Env :=
  {| config :=
       {| FallbackSMTPuser := ""; FallbackSMTPpass := "";
          MaxMessageSize := max; StrictAttachments := false;
          RetryAttempts := 3; RetryInitialDelay := 500 |};
     lib := scriptedLib expires;
     tokenEndpoint := fun _ _ => TokenBody tokenBody;
     graphEndpoint :=
       fun _ =>
         {| requestErr := None;
            attempts :=
              fun _ =>
                {| ctxDone := None; newRequestErr := None;
                   doResult :=
                     DoResp {| StatusCode := status;
                               Body := readerOf body |} |} |} |}.

Definition cold : World := {| TokenCache := ∅; Now := 1700000000 * Second |}.

(** A session after a successful AUTH LOGIN of [user@ex.com]. *)
Definition authed : Session :=
  {| username := "user@ex.com"; password := "secret";
     authenticated := true; mailFrom := ""; rcptTo := [] |}.

Definition lines (l : list string) : list ReadEvent :=
  map (fun s => Line (s +:+ CRLF)) l.

End Examples.
Import Examples.

(** ** An environment in which clients can log in *)

Module Login.

(** The value of a character of the standard base64 alphabet. *)
Definition sextet (c : ascii) : option Z :=
  let n := Z.of_nat (nat_of_ascii c) in
  if (65 <=? n) && (n <=? 90) then Some (n - 65)
  else if (97 <=? n) && (n <=? 122) then Some (n - 71)
  else if (48 <=? n) && (n <=? 57) then Some (n + 4)
  else if n =? 43 then Some 62
  else if n =? 47 then Some 63
  else None.

Definition byteOf (n : Z) : ascii := ascii_of_nat (Z.to_nat (n mod 256)).

(** Padded base64 text, four characters at a time. *)
Fixpoint decodeQuads (l : list ascii) : option (list ascii) :=
  match l with
  | [] => Some []
  | a :: b :: c :: d :: rest =>
      match sextet a, sextet b with
      | Some x, Some y =>
          if Ascii.eqb d "=" then
            match rest with
            | [] =>
                if Ascii.eqb c "=" then Some [byteOf (x * 4 + y / 16)]
                else
                  match sextet c with
                  | Some z =>
                      Some [byteOf (x * 4 + y / 16);
                            byteOf (y * 16 + z / 4)]
                  | None => None
                  end
            | _ => None
            end
          else
            match sextet c, sextet d, decodeQuads rest with
            | Some z, Some v, Some more =>
                Some (byteOf (x * 4 + y / 16) :: byteOf (y * 16 + z / 4)
                      :: byteOf (z * 64 + v) :: more)
            | _, _, _ => None
            end
      | _, _ => None
      end
  | _ => None
  end.

Definition base64Decode (s : string) : string + string :=
  match decodeQuads (list_ascii_of_string s) with
  | Some bytes => inl (string_of_list_ascii bytes)
  | None => inr "illegal base64 data"
  end.

(** The library double of [scriptedLib] with base64 decoded. *)
Definition decodingLib : GoLib :=
  {| DecodeString := base64Decode;
     EncodeToString := EncodeToString (scriptedLib 3600);
     base64ReadAll := base64ReadAll (scriptedLib 3600);
     quotedprintableReadAll := quotedprintableReadAll (scriptedLib 3600);
     ReadMessage := ReadMessage (scriptedLib 3600);
     DecodeHeader := DecodeHeader (scriptedLib 3600);
     ParseMediaType := ParseMediaType (scriptedLib 3600);
     multipartParts := multipartParts (scriptedLib 3600);
     FileName := FileName (scriptedLib 3600);
     Quote := Quote (scriptedLib 3600);
     Unmarshal := Unmarshal (scriptedLib 3600) |}.

(** The token endpoint grants a token to the user [granted] with the
    password [secret] and answers an OAuth error to anyone else; Graph
    accepts every submission.  [fbUser] and [fbPass] are the fallback
    credentials. *)
Definition open (granted secret fbUser fbPass : string) : Env :=
  {| config :=
       {| FallbackSMTPuser := fbUser; FallbackSMTPpass := fbPass;
          MaxMessageSize := 26214400; StrictAttachments := false;
          RetryAttempts := 3; RetryInitialDelay := 500 |};
     lib := decodingLib;
     tokenEndpoint :=
       fun user pass =>
         if String.eqb user granted && String.eqb pass secret
         then TokenBody "{..}"
         else TokenDoErr "invalid_grant";
     graphEndpoint :=
       fun _ =>
         {| requestErr := None;
            attempts :=
              fun _ =>
                {| ctxDone := None; newRequestErr := None;
                   doResult := DoResp {| StatusCode := 202;
                                         Body := readerOf "" |} |} |} |}.

End Login.

(** ** Notions used in the statements *)

(** [raw], as read from the connection, passes the length check and,
    without its line terminator, begins with [verb] in any letter case. *)
Definition isCommand (raw verb : string) : bool :=
  negb (len raw >? 512) && HasPrefix (ToUpper (TrimRight raw CRLF)) verb.

(** Two texts that differ at a position both have. *)
Fixpoint clash (p v : string) : bool :=
  match p, v with
  | String a p', String c v' => if Ascii.eqb a c then clash p' v' else true
  | _, _ => false
  end.

(** The lines of a transmission, none of which is the terminator. *)
Definition noTerminator (ls : list string) : bool :=
  forallb (fun l => negb (String.eqb (TrimSpace l) ".")) ls.

Definition joined (ls : list string) : string := String.concat "" ls.

Definition isPanicked (n : Next) : bool :=
  match n with
  | Panicked => true
  | _ => false
  end.

Definition queued : string := reply "250 2.0.0 Ok: queued as graphapi".

Definition occurs (c : ascii) (s : string) : Prop :=
  In c (list_ascii_of_string s).

Definition one (c : ascii) : string := String c EmptyString.



(** The 550 reply to a Graph response of status [status] with body
    [body]. *)
Definition deliveryFailed (status : Z) (body : string) : string :=
  reply ("550 5.7.0 Delivery failed: Graph API error (status "
         +:+ itoa status +:+ "): " +:+ body).

Module Nested.

(** The text of a multipart body with one part, an attachment [a.txt]. *)
Definition innerText : string :=
  "--inner" +:+ CRLF
  +:+ "Content-Type: text/plain; name=a.txt" +:+ CRLF
  +:+ "Content-Disposition: attachment; filename=a.txt" +:+ CRLF
  +:+ "Content-Transfer-Encoding: base64" +:+ CRLF
  +:+ CRLF
  +:+ "aGVsbG8=" +:+ CRLF
  +:+ "--inner--" +:+ CRLF.

(** The only part of an outer multipart/mixed message: a multipart/mixed
    part that holds the attachment. *)
Definition innerPart : Part :=
  {| PartHeader := {[ "Content-Type" := ["multipart/mixed; boundary=inner"] ]};
     PartBody := readerOf innerText |}.

End Nested.

(** ** The cleanup of the token cache ([StartTokenCacheCleanup]) *)

(** One tick of the cleanup goroutine at the instant [now]: [Range] visits
    the entries, an entry that [now] is after is deleted and counted.  The
    result is the cache left and the number of deleted entries. *)
Definition cleanupTick (now : Time) (cache : gmap string cachedToken)
    : gmap string cachedToken * Z :=
  map_fold
    (fun key tok acc =>
       if now >? expiresAt tok then (delete key (fst acc), snd acc + 1)
       else acc)
    (cache, 0) cache.

(** ** The configuration loader ([loadConfig]) *)

Module Loader.

(** [tConfig] and [tOAuth2Config] with all their fields, named by their
    YAML keys. *)
Record tOAuth2Config := {
  client_id : string;
  client_secret : string;
  tenant_id : string;
  scopes : list string
}.

Record tConfigFile := {
  log : string;
  log_level : string;
  listen_addr : string;
  oauth2_config : tOAuth2Config;
  fallback_smtp_user : string;
  fallback_smtp_pass : string;
  save_to_sent : bool;
  max_message_size : Z;
  max_connections : Z;
  connection_timeout : Z;
  strict_attachments : bool;
  retry_attempts : Z;
  retry_initial_delay : Z
}.

(** Set sensible defaults for stability configuration *)
Definition setDefaults (c : tConfigFile) : tConfigFile :=
  {| log := log c; log_level := log_level c; listen_addr := listen_addr c;
     oauth2_config := oauth2_config c;
     fallback_smtp_user := fallback_smtp_user c;
     fallback_smtp_pass := fallback_smtp_pass c;
     save_to_sent := save_to_sent c;
     max_message_size :=
       if max_message_size c =? 0 then 25 * 1024 * 1024
       else max_message_size c;
     max_connections :=
       if max_connections c =? 0 then 100 else max_connections c;
     connection_timeout :=
       if connection_timeout c =? 0 then 300 else connection_timeout c;
     strict_attachments := strict_attachments c;
     retry_attempts := if retry_attempts c <? 1 then 3 else retry_attempts c;
     retry_initial_delay :=
       if retry_initial_delay c =? 0 then 500 else retry_initial_delay c |}.

(** [loadConfig]: the file as [os.ReadFile] returns it, [yaml.Unmarshal]
    and [decryptConfigStrings] are given; the result is the configuration
    the program then runs with, or the error. *)
Definition loadConfig (file : string + string)
    (unmarshal : string -> tConfigFile + string)
    (decryptConfigStrings : tConfigFile -> tConfigFile)
    : tConfigFile + string :=
  match file with
  | inr err => inr err
  | inl data =>
      match unmarshal data with
      | inr err => inr err
      | inl c => inl (setDefaults (decryptConfigStrings c))
      end
  end.

(** The fields of the loaded configuration that [smtp.go] reads. *)
Definition forSMTP (c : tConfigFile) : tConfig :=
  {| FallbackSMTPuser := fallback_smtp_user c;
     FallbackSMTPpass := fallback_smtp_pass c;
     MaxMessageSize := max_message_size c;
     StrictAttachments := strict_attachments c;
     RetryAttempts := retry_attempts c;
     RetryInitialDelay := retry_initial_delay c |}.

End Loader.

(** ** Further notions used in the statements *)

(** The sessions a connection can be in: the new one, and those a turn of
    the command loop that continues leaves, whatever the shared cache holds
    at that turn. *)
Inductive reachable (env : Env) : Session -> Prop :=
| reachable_new : reachable env newSession
| reachable_turn (st : Session) (w : World) (line : string)
    (rest : list ReadEvent) :
    reachable env st ->
    next (handleCommand env w st line rest) = Continue ->
    reachable env (session (handleCommand env w st line rest)).

(** A text with every line break, be it CR LF, a CR alone or an LF alone,
    written as CR LF. *)
Fixpoint crlfLines (s : string) : string :=
  match s with
  | EmptyString => EmptyString
  | String c s' =>
      if Ascii.eqb c "013" then
        match s' with
        | String d s'' =>
            if Ascii.eqb d "010" then CRLF +:+ crlfLines s''
            else CRLF +:+ crlfLines s'
        | EmptyString => CRLF
        end
      else if Ascii.eqb c "010" then CRLF +:+ crlfLines s'
      else String c (crlfLines s')
  end.

(** What the walk makes of one part that decodes: the attachment it
    appends, if any. *)
Definition attachmentOf (l : GoLib) (p : Part) : option Attachment :=
  if HasPrefix (Get (PartHeader p) "Content-Disposition") "attachment" then
    match decodeMessage l
            (ToLower (Get (PartHeader p) "Content-Transfer-Encoding"))
            (PartBody p) with
    | inl dataContent =>
        let ctype :=
          if String.eqb (Get (PartHeader p) "Content-Type") ""
          then "application/octet-stream"
          else Get (PartHeader p) "Content-Type" in
        if String.eqb (attachmentFilename l p) "" || (len dataContent =? 0)
        then None
        else Some {| Filename := attachmentFilename l p;
                     ContentType := ctype;
                     Content := EncodeToString l dataContent |}
    | inr _ => None
    end
  else None.

(** The body a part gives, if it is not an attachment and decodes, and
    whether its Content-Type mentions html. *)
Definition bodyOf (l : GoLib) (p : Part) : option (string * bool) :=
  if HasPrefix (Get (PartHeader p) "Content-Disposition") "attachment"
  then None
  else
    match decodeMessage l
            (ToLower (Get (PartHeader p) "Content-Transfer-Encoding"))
            (PartBody p) with
    | inl dataContent =>
        Some (dataContent,
              Contains (ToLower (Get (PartHeader p) "Content-Type")) "html")
    | inr _ => None
    end.

(** The body of the last part that gives one, or [body]. *)
Definition lastBody (l : GoLib) (body : string) (ps : list Part) : string :=
  fold_left (fun b p => match bodyOf l p with
                        | Some (content, _) => content
                        | None => b
                        end) ps body.

(** Whether a part that gives a body mentions html. *)
Definition anyHTML (l : GoLib) (ps : list Part) : bool :=
  existsb (fun p => match bodyOf l p with
                    | Some (_, html) => html
                    | None => false
                    end) ps.

(** The parts the walk handles when [room] more parts fit under the cap:
    those [NextPart] returns before its first failure, and at most [room]
    of them. *)
Fixpoint partsRead (parts : list NextPart) (room : nat) : list Part :=
  match parts with
  | PartOk p :: rest =>
      match room with
      | S k => p :: partsRead rest k
      | O => []
      end
  | _ => []
  end.

(** The error of strict mode at a part: that of an attachment whose
    content does not decode. *)
Definition decodeFailure (l : GoLib) (p : Part) : option string :=
  if HasPrefix (Get (PartHeader p) "Content-Disposition") "attachment" then
    match decodeMessage l
            (ToLower (Get (PartHeader p) "Content-Transfer-Encoding"))
            (PartBody p) with
    | inr err =>
        Some ("failed to decode attachment "
              +:+ Quote l (attachmentFilename l p) +:+ ": " +:+ err)
    | inl _ => None
    end
  else None.

Fixpoint firstFailure (l : GoLib) (ps : list Part) : option string :=
  match ps with
  | [] => None
  | p :: ps' =>
      match decodeFailure l p with
      | Some e => Some e
      | None => firstFailure l ps'
      end
  end.

(** The response and the error the executor keeps of an attempt it does
    not return at. *)
Definition keptResponse (a : Attempt) : option Response :=
  match doResult a with
  | DoErr _ => None
  | DoResp r => Some r
  end.

Definition keptError (a : Attempt) : string :=
  match doResult a with
  | DoErr e => e
  | DoResp r => "retryable status: " +:+ itoa (StatusCode r)
  end.

(** Attempt [b] is made and asks for another one: the wait before it is
    neither a panic of the jitter nor cut by the context, the request is
    built, and the network fails or answers a retryable status. *)
Definition goesOn (cfg : RetryConfig) (up : Z -> Attempt) (b : Z) : bool :=
  (negb (b >? 0)
   || (negb (Z.quot (backoffOf cfg b) 4 <=? 0)
       && match ctxDone (up b) with Some _ => false | None => true end))
  && match newRequestErr (up b) with Some _ => false | None => true end
  && match doResult (up b) with
     | DoErr _ => true
     | DoResp r => isRetryableStatus (StatusCode r) (RetryableStatus cfg)
     end.

(** No entry of the cache holds an empty token. *)
Definition noEmptyToken (cache : gmap string cachedToken) : Prop :=
  forall user entry, cache !! user = Some entry -> token entry <> "".

(** The number of entries of the cache that [now] is after. *)
Definition expiredEntries (now : Time) (cache : gmap string cachedToken)
    : nat :=
  size (base.filter
          (fun kv : string * cachedToken => expiresAt (snd kv) < now) cache).

Definition ok235 : string := reply "235 2.7.0 Authentication successful".

(** What a step of the AUTH LOGIN branch leaves of a session: the envelope
    as it was, and the authenticated flag as it was unless a token was
    obtained for the credentials the session then holds. *)
Definition authEffect (env : Env) (w : World) (st : Session) (s : Step)
    : Prop :=
  mailFrom (session s) = mailFrom st
  /\ rcptTo (session s) = rcptTo st
  /\ (authenticated (session s) = authenticated st
      \/ (authenticated (session s) = true
          /\ next s = Continue
          /\ exists tok pre,
               fst (getCachedOAuth2Token env w (username (session s))
                      (password (session s))) = inl tok
               /\ replies s = pre ++ [ok235])).

(** * Properties *)

(** ** The unit tests of the repository for the address functions *)

Example TestIsValidEmail_Valid :
  forallb isValidEmail
    ["user@example.com"; "a@b.co"; "user.name+tag@domain.org"] = true.
Proof. reflexivity. Qed.

Example TestIsValidEmail_Invalid :
  existsb isValidEmail
    [""; "@example.com"; "user@"; "user@domain"; "user";
     "aaaaaaaaaaaaaaaaaaaaaaaaaaaaaaaaaaaaaaaaaaaaaaaaaaaaaaaaaaaaaaaaa"
     +:+ "@example.com"] = false.
Proof. reflexivity. Qed.

Example TestExtractAddress_AngleBrackets :
  extractAddress "MAIL FROM:<user@example.com>" = "user@example.com".
Proof. reflexivity. Qed.

Example TestExtractAddress_AngleBracketsWithParams :
  extractAddress "MAIL FROM:<user@example.com> SIZE=12345"
  = "user@example.com".
Proof. reflexivity. Qed.

Example TestExtractAddress_FallbackSimple :
  extractAddress "MAIL FROM: user@example.com" = "user@example.com".
Proof. reflexivity. Qed.

Example TestExtractAddress_Empty : extractAddress "MAIL FROM:<>" = "".
Proof. reflexivity. Qed.

(** ** Strings *)

Lemma prefix_app (p s : string) :
  String.prefix p s = true -> exists t, s = p +:+ t.
Proof.
  revert s. induction p as [|a p IH]; intros s H.
  - exists s. reflexivity.
  - destruct s as [|c s]; simpl in H; [discriminate|].
    destruct (ascii_dec a c) as [->|]; [|discriminate].
    destruct (IH s H) as [t ->]. exists t. reflexivity.
Qed.

Lemma prefix_of_app (p t : string) : String.prefix p (p +:+ t) = true.
Proof.
  induction p as [|a p IH]; simpl.
  - destruct t; reflexivity.
  - destruct (ascii_dec a a); [exact IH|congruence].
Qed.

Lemma length_app (a c : string) :
  String.length (a +:+ c) = (String.length a + String.length c)%nat.
Proof. induction a as [|x a IH]; simpl; [reflexivity|now rewrite IH]. Qed.

Lemma len_app (a c : string) : len (a +:+ c) = len a + len c.
Proof. unfold len. rewrite length_app. lia. Qed.

Lemma len_nonneg (s : string) : 0 <= len s.
Proof. unfold len. lia. Qed.

(** ** The command dispatch *)

Lemma isCommand_inv (raw verb : string) :
  isCommand raw verb = true ->
  (len raw >? 512) = false /\
  exists t, ToUpper (TrimRight raw CRLF) = verb +:+ t.
Proof.
  unfold isCommand, HasPrefix. intros H.
  apply andb_true_iff in H as [H1 H2].
  apply negb_true_iff in H1. split; [exact H1|].
  apply prefix_app. exact H2.
Qed.

Lemma ToUpper_nonempty (l t : string) (a : ascii) (v : string) :
  ToUpper l = String a v +:+ t -> String.eqb l "" = false.
Proof. destruct l; simpl; [discriminate|reflexivity]. Qed.

Lemma prefix_clash (p v t : string) :
  clash p v = true -> String.prefix p (v +:+ t) = false.
Proof.
  revert v. induction p as [|a p IH]; intros [|c v] H; simpl in H;
    try discriminate.
  simpl. destruct (ascii_dec a c) as [->|]; [|reflexivity].
  rewrite Ascii.eqb_refl in H. apply IH, H.
Qed.

(** Unfolds one turn of the loop on a line known to be a command [verb],
    and decides the prefix tests that [verb] settles. *)
Ltac dispatch H :=
  let Hlen := fresh "Hlen" in
  let t := fresh "t" in
  let Hup := fresh "Hup" in
  let Hne := fresh "Hne" in
  destruct (isCommand_inv _ _ H) as [Hlen [t Hup]];
  pose proof (ToUpper_nonempty _ _ _ _ Hup) as Hne;
  unfold handleCommand, continueLoop; rewrite Hlen, Hne;
  unfold HasPrefix; rewrite Hup;
  repeat
    match goal with
    | |- context [String.prefix ?p (?v +:+ t)] =>
        first [ rewrite (prefix_of_app v t)
              | rewrite (prefix_clash p v t eq_refl) ]
    end;
  cbn [orb andb negb].

(** ** AUTH LOGIN *)

(** X17.  The AUTH LOGIN exchange with prompts: when both lines decode to values
    that are not empty and a token is obtained for them, the client is
    authenticated under the decoded user name, and the envelope is as it
    was. *)
Lemma auth_login_authenticates (env : Env) (w : World) (st : Session)
    (rest : list ReadEvent) (userB64 passB64 user pass tok : string)
    (w' : World) :
  DecodeString (lib env) (TrimSpace userB64) = inl user ->
  DecodeString (lib env) (TrimSpace passB64) = inl pass ->
  user <> "" ->
  pass <> "" ->
  getCachedOAuth2Token env w user pass = (inl tok, w') ->
  handleCommand env w st ("AUTH LOGIN" +:+ CRLF)
    (Line userB64 :: Line passB64 :: rest)
  = {| replies := [reply "334 VXNlcm5hbWU6"; reply "334 UGFzc3dvcmQ6";
                   reply "235 2.7.0 Authentication successful"];
       next := Continue;
       session := {| username := user; password := pass;
                     authenticated := true;
                     mailFrom := mailFrom st; rcptTo := rcptTo st |};
       unread := rest; world := w' |}.
Proof.
  intros Hu Hp Hune Hpne Htok.
  assert (H : isCommand ("AUTH LOGIN" +:+ CRLF) "AUTH LOGIN" = true)
    by reflexivity.
  dispatch H.
  change (TrimRight ("AUTH LOGIN" +:+ CRLF) CRLF) with "AUTH LOGIN".
  unfold authLogin. change (Fields "AUTH LOGIN") with ["AUTH"; "LOGIN"].
  cbn [ReadString]. unfold authUsername, decodeBase64WithError.
  rewrite Hu. unfold authPassword. cbn [ReadString].
  unfold decodeBase64WithError. rewrite Hp. unfold authVerify.
  cbn [username password setUsername setPassword].
  destruct (String.eqb_spec user ""); [contradiction|].
  destruct (String.eqb_spec pass ""); [contradiction|].
  cbn [orb andb].
  change (username (setPassword (setUsername st user) pass)) with user.
  change (password (setPassword (setUsername st user) pass)) with pass.
  rewrite Htok. reflexivity.
Qed.

(** ** The DATA phase *)

Lemma gtb_false (x y : Z) : x <= y -> (x >? y) = false.
Proof. intros H. rewrite Z.gtb_ltb. apply Z.ltb_ge, H. Qed.

Lemma gtb_true (x y : Z) : y < x -> (x >? y) = true.
Proof. intros H. rewrite Z.gtb_ltb. apply Z.ltb_lt, H. Qed.

Lemma wrap64_small (z : Z) : 0 <= z < 2 ^ 63 -> wrap64 z = z.
Proof.
  intros H. unfold wrap64.
  rewrite Z.mod_small; lia.
Qed.

Lemma app_cons (x : ascii) (a c : string) :
  String x a +:+ c = String x (a +:+ c).
Proof. reflexivity. Qed.

Lemma app_assoc_s (a c d : string) : (a +:+ c) +:+ d = a +:+ c +:+ d.
Proof.
  induction a as [|x a IH]; [reflexivity|].
  rewrite !app_cons. now rewrite IH.
Qed.

Lemma app_empty_r (a : string) : a +:+ "" = a.
Proof.
  induction a as [|x a IH]; [reflexivity|].
  rewrite app_cons. now rewrite IH.
Qed.

Lemma joined_cons (l : string) (ls : list string) :
  joined (l :: ls) = l +:+ joined ls.
Proof.
  unfold joined. destruct ls as [|l' ls]; simpl.
  - now rewrite app_empty_r.
  - reflexivity.
Qed.

Lemma readData_verbatim (max : Z) (ls : list string) :
  forall (term : string) (rest : list ReadEvent) (size : Z) (buf : string),
    noTerminator ls = true ->
    String.eqb (TrimSpace term) "." = true ->
    0 <= size ->
    size + len (joined ls) <= max ->
    max < 2 ^ 63 ->
    readData max (map Line ls ++ Line term :: rest) size buf
    = DataDone (buf +:+ joined ls) rest.
Proof.
  induction ls as [|l ls IH]; intros term rest size buf Hno Hterm Hsize Hfit Hmax.
  - simpl. rewrite Hterm. now rewrite app_empty_r.
  - simpl in Hno. apply andb_true_iff in Hno as [Hl Hno].
    apply negb_true_iff in Hl.
    rewrite joined_cons, len_app in Hfit.
    pose proof (len_nonneg l). pose proof (len_nonneg (joined ls)).
    rewrite joined_cons, <- app_assoc_s.
    cbn [map app readData]. rewrite Hl.
    rewrite wrap64_small by lia.
    rewrite gtb_false by lia.
    apply IH; auto; lia.
Qed.

(** C1 (the code keeps the dots).  In the DATA phase the handler appends
    every received line to the message buffer exactly as it was read: for a
    transmission whose lines are not the terminator and fit the size limit,
    the buffer at the terminator is the concatenation of the lines.  A line
    that begins with a dot keeps it, so a dot-stuffed transmission does not
    give the text the client stuffed. *)
Theorem data_buffer_is_the_lines_as_read :
  forall (max : Z) (ls : list string) (term : string) (rest : list ReadEvent),
    noTerminator ls = true ->
    String.eqb (TrimSpace term) "." = true ->
    len (joined ls) <= max ->
    max < 2 ^ 63 ->
    readData max (map Line ls ++ Line term :: rest) 0 ""
    = DataDone (joined ls) rest.
Proof.
  intros max ls term rest Hno Hterm Hfit Hmax.
  apply (readData_verbatim max ls term rest 0 ""); auto; lia.
Qed.

(** The dot-stuffed line of the specification's third scenario reaches the
    buffer with both dots. *)
Lemma data_buffer_keeps_the_stuffed_dot :
  noTerminator ["..example.com is a domain" +:+ CRLF] = true /\
  String.eqb (TrimSpace ("." +:+ CRLF)) "." = true /\
  len (joined ["..example.com is a domain" +:+ CRLF]) <= 26214400 /\
  26214400 < 2 ^ 63 /\
  readData 26214400
    (map Line ["..example.com is a domain" +:+ CRLF] ++ [Line ("." +:+ CRLF)])
    0 ""
  = DataDone (joined ["..example.com is a domain" +:+ CRLF]) [].
Proof.
  split; [reflexivity|]. split; [reflexivity|].
  split; [vm_compute; discriminate|]. split; [reflexivity|].
  apply data_buffer_is_the_lines_as_read;
    [reflexivity | reflexivity | vm_compute; discriminate | reflexivity].
Defined.

(** ** DATA: when it is accepted *)

Lemma rcptTo_empty (st : Session) :
  (Z.of_nat (List.length (rcptTo st)) =? 0) = true <-> rcptTo st = [].
Proof.
  destruct (rcptTo st) as [|r l]; simpl; split; intros H;
    try reflexivity; try discriminate.
Qed.

Lemma rcptTo_nonempty (st : Session) :
  rcptTo st <> [] -> (Z.of_nat (List.length (rcptTo st)) =? 0) = false.
Proof.
  intros H. destruct (Z.of_nat (List.length (rcptTo st)) =? 0) eqn:E;
    [|reflexivity].
  apply rcptTo_empty in E. contradiction.
Qed.

(** Every way the DATA branch goes on after the recipients check begins
    with the 354 prompt. *)
Lemma deliver_prompts (env : Env) (w : World) (st : Session)
    (buf : string) (rest : list ReadEvent) :
  exists more, replies (deliver env w st buf rest) = prompt354 :: more.
Proof.
  unfold deliver.
  destruct (parseSubjectBodyAndAttachments _ _ _); [|eexists; reflexivity].
  destruct (getCachedOAuth2Token _ _ _ _) as [[tok|e] w'];
    [|eexists; reflexivity].
  destruct (sendMailGraphAPI _ _); eexists; reflexivity.
Qed.

Lemma continueLoop_replies (pre : list string) (line : string)
    (st : Session) (rest : list ReadEvent) (w : World) :
  exists last, replies (continueLoop pre line st rest w) = pre ++ [last].
Proof.
  unfold continueLoop.
  repeat match goal with |- context [if ?c then _ else _] => destruct c end;
    eexists; reflexivity.
Qed.

Lemma dataCommand_prompts (env : Env) (w : World) (st : Session)
    (line : string) (rest : list ReadEvent) :
  rcptTo st <> [] ->
  exists more, replies (dataCommand env w st line rest) = prompt354 :: more.
Proof.
  intros Hr. unfold dataCommand. rewrite (rcptTo_nonempty st Hr).
  destruct (readData _ _ _ _) as [r|buf r|size r].
  - eexists; reflexivity.
  - apply deliver_prompts.
  - destruct (continueLoop_replies
                [prompt354;
                 reply ("552 5.3.4 Message too large (max "
                        +:+ itoa (MaxMessageSize (config env)) +:+ " bytes)")]
                line (resetEnvelope st) (drain r) w) as [last ->].
    eexists; reflexivity.
Qed.

(** ** DATA: what the data loop reads *)

Lemma readData_unread (max : Z) (input : list ReadEvent) :
  forall (size : Z) (buf : string),
    match readData max input size buf with
    | DataReadErr r | DataDone _ r | DataTooLarge _ r =>
        (List.length r <= List.length input)%nat
    end.
Proof.
  induction input as [|[l| |] input IH]; intros size buf; cbn [readData];
    try (cbn; lia).
  destruct (String.eqb (TrimSpace l) "."); [cbn; lia|].
  destruct (wrap64 (size + len l) >? max); [cbn; lia|].
  specialize (IH (wrap64 (size + len l)) (buf +:+ l)).
  destruct (readData max input _ _); cbn [List.length]; lia.
Qed.

Lemma drain_unread (input : list ReadEvent) :
  (List.length (drain input) <= List.length input)%nat.
Proof.
  induction input as [|[l| |] input IH]; cbn [drain List.length]; try lia.
  destruct (String.eqb (TrimSpace l) "."); lia.
Qed.

Lemma drain_to_terminator (ls : list string) (term : string)
    (rest : list ReadEvent) :
  noTerminator ls = true ->
  String.eqb (TrimSpace term) "." = true ->
  drain (map Line ls ++ Line term :: rest) = rest.
Proof.
  intros Hno Hterm. induction ls as [|l ls IH]; cbn [map app drain].
  - now rewrite Hterm.
  - cbn [noTerminator forallb] in Hno. apply andb_true_iff in Hno as [Hl Hno].
    apply negb_true_iff in Hl. rewrite Hl. apply IH, Hno.
Qed.

(** The data loop reads a transmission up to its terminator: it ends there
    with the lines it appended, or at the line that crosses the size
    limit, and the drain then reads up to the terminator. *)
Lemma readData_to_terminator (max : Z) (ls : list string) :
  forall (term : string) (rest : list ReadEvent) (size : Z) (buf : string),
    noTerminator ls = true ->
    String.eqb (TrimSpace term) "." = true ->
    0 <= size ->
    size + len (joined ls) < 2 ^ 63 ->
    readData max (map Line ls ++ Line term :: rest) size buf
    = DataDone (buf +:+ joined ls) rest
    \/ (max < size + len (joined ls)
        /\ exists size' rest',
             readData max (map Line ls ++ Line term :: rest) size buf
             = DataTooLarge size' rest'
             /\ drain rest' = rest).
Proof.
  induction ls as [|l ls IH]; intros term rest size buf Hno Hterm Hsize Hfit.
  - left. cbn [map app readData]. rewrite Hterm.
    change (joined []) with "". now rewrite app_empty_r.
  - cbn [noTerminator forallb] in Hno. apply andb_true_iff in Hno as [Hl Hno].
    apply negb_true_iff in Hl.
    rewrite joined_cons, len_app in Hfit. rewrite joined_cons, len_app.
    pose proof (len_nonneg l). pose proof (len_nonneg (joined ls)).
    cbn [map app readData]. rewrite Hl.
    rewrite wrap64_small by lia.
    destruct (size + len l >? max) eqn:E.
    + right. rewrite Z.gtb_ltb in E. apply Z.ltb_lt in E. split; [lia|].
      exists (size + len l), (map Line ls ++ Line term :: rest).
      split; [reflexivity|]. apply drain_to_terminator; assumption.
    + destruct (IH term rest (size + len l) (buf +:+ l) Hno Hterm
                  ltac:(lia) ltac:(lia)) as [Hdone|[Hover Hlarge]].
      * left. rewrite Hdone. now rewrite app_assoc_s.
      * right. split; [lia|exact Hlarge].
Qed.

(** An accepted DATA reads: of an input that is not empty the data loop
    takes the first event at least. *)
Lemma dataCommand_consumes (env : Env) (w : World) (st : Session)
    (line : string) (rest : list ReadEvent) :
  rcptTo st <> [] ->
  rest <> [] ->
  (List.length (unread (dataCommand env w st line rest))
   < List.length rest)%nat.
Proof.
  intros Hr Hrest. unfold dataCommand. rewrite (rcptTo_nonempty st Hr).
  assert (Hread :
    match readData (MaxMessageSize (config env)) rest 0 "" with
    | DataReadErr r | DataDone _ r | DataTooLarge _ r =>
        (List.length r < List.length rest)%nat
    end).
  { destruct rest as [|[l| |] rest]; [contradiction| |cbn; lia|cbn; lia].
    cbn [readData].
    destruct (String.eqb (TrimSpace l) "."); [cbn; lia|].
    destruct (wrap64 (0 + len l) >? MaxMessageSize (config env));
      [cbn; lia|].
    pose proof (readData_unread (MaxMessageSize (config env)) rest
                  (wrap64 (0 + len l)) ("" +:+ l)) as H.
    destruct (readData _ rest _ _); cbn [List.length]; lia. }
  destruct (readData _ rest 0 "") as [r|buf r|size r].
  - exact Hread.
  - unfold deliver.
    destruct (parseSubjectBodyAndAttachments _ _ _); [|exact Hread].
    destruct (getCachedOAuth2Token _ _ _ _) as [[tok|e] w']; [|exact Hread].
    destruct (sendMailGraphAPI _ _); exact Hread.
  - pose proof (drain_unread r) as Hd. unfold continueLoop.
    repeat match goal with |- context [if ?c then _ else _] => destruct c end;
      cbn [unread]; lia.
Qed.

(** An accepted DATA reads the transmission: all of it up to and including
    the terminator, whether the message fits the limit or not; a message
    that fits goes to the delivery as the lines read. *)
Lemma dataCommand_reads (env : Env) (w : World) (st : Session)
    (line : string) (ls : list string) (term : string)
    (rest' : list ReadEvent) :
  rcptTo st <> [] ->
  noTerminator ls = true ->
  String.eqb (TrimSpace term) "." = true ->
  len (joined ls) < 2 ^ 63 ->
  unread (dataCommand env w st line (map Line ls ++ Line term :: rest'))
  = rest'
  /\ (len (joined ls) <= MaxMessageSize (config env) ->
      dataCommand env w st line (map Line ls ++ Line term :: rest')
      = deliver env w st (joined ls) rest').
Proof.
  intros Hr Hno Hterm Hfit. unfold dataCommand.
  rewrite (rcptTo_nonempty st Hr).
  destruct (readData_to_terminator (MaxMessageSize (config env)) ls term rest'
              0 "" Hno Hterm ltac:(lia) ltac:(lia))
    as [Hdone|[Hover (size' & r & Hlarge & Hdrain)]].
  - rewrite Hdone. change ("" +:+ joined ls) with (joined ls).
    split; [|reflexivity].
    unfold deliver.
    destruct (parseSubjectBodyAndAttachments _ _ _); [|reflexivity].
    destruct (getCachedOAuth2Token _ _ _ _) as [[tok|e] w']; [|reflexivity].
    destruct (sendMailGraphAPI _ _); reflexivity.
  - rewrite Hlarge, Hdrain. split; [|lia].
    unfold continueLoop.
    repeat match goal with |- context [if ?c then _ else _] => destruct c end;
      reflexivity.
Qed.

(** C5 (amended).  A DATA command is accepted, that is, answered with the
    354 prompt and followed by the reading of the message, exactly in the
    session states in which the client is authenticated and the recipient
    list is not empty.  In these states the 354 prompt is the first reply
    and the data loop reads: of an input that is not empty it takes at
    least the first event, and of a transmission that ends with a
    terminator it takes every line up to and including the terminator,
    whether the message fits the size limit or not; a message that fits
    goes to the delivery as the lines read.  DATA from a client that is
    not authenticated is answered with 530, and DATA without recipients
    with 503; in both cases nothing of the input after the command is read
    and the session is unchanged.  The sender address is not looked at. *)
Theorem data_accepted_iff_authenticated_with_recipient :
  forall (env : Env) (w : World) (st : Session) (raw : string)
         (rest : list ReadEvent),
    isCommand raw "DATA" = true ->
    (In prompt354 (replies (handleCommand env w st raw rest))
     <-> authenticated st = true /\ rcptTo st <> [])
    /\ (authenticated st = false ->
        handleCommand env w st raw rest
        = {| replies := [reply "530 5.7.0 Authentication required"];
             next := Continue; session := st; unread := rest; world := w |})
    /\ (authenticated st = true -> rcptTo st = [] ->
        handleCommand env w st raw rest
        = {| replies := [reply "503 5.5.1 No recipients specified"];
             next := Continue; session := st; unread := rest; world := w |})
    /\ (authenticated st = true -> rcptTo st <> [] ->
        (exists more,
           replies (handleCommand env w st raw rest) = prompt354 :: more)
        /\ (rest <> [] ->
            (List.length (unread (handleCommand env w st raw rest))
             < List.length rest)%nat)
        /\ forall (ls : list string) (term : string)
                  (rest' : list ReadEvent),
             rest = map Line ls ++ Line term :: rest' ->
             noTerminator ls = true ->
             String.eqb (TrimSpace term) "." = true ->
             len (joined ls) < 2 ^ 63 ->
             unread (handleCommand env w st raw rest) = rest'
             /\ (len (joined ls) <= MaxMessageSize (config env) ->
                 handleCommand env w st raw rest
                 = deliver env w st (joined ls) rest')).
Proof.
  intros env w st raw rest H. dispatch H.
  destruct (authenticated st) eqn:Ha; cbn [negb].
  - destruct (rcptTo st) as [|r l] eqn:Hr.
    + assert (E : dataCommand env w st (TrimRight raw CRLF) rest
                  = {| replies := [reply "503 5.5.1 No recipients specified"];
                       next := Continue; session := st; unread := rest;
                       world := w |}).
      { unfold dataCommand. rewrite Hr. reflexivity. }
      rewrite E. split; [split|split; [|split]].
      * intros [Hin|[]]. vm_compute in Hin. discriminate.
      * intros [_ Habs]. contradiction.
      * discriminate.
      * reflexivity.
      * intros _ Habs. contradiction.
    + assert (Hsome : rcptTo st <> []) by (rewrite Hr; discriminate).
      destruct (dataCommand_prompts env w st (TrimRight raw CRLF) rest Hsome)
        as [more E].
      split; [split|split; [|split]].
      * intros _. split; [reflexivity|discriminate].
      * intros _. rewrite E. left. reflexivity.
      * discriminate.
      * intros _ Habs. discriminate.
      * intros _ _. split; [exists more; exact E|]. split.
        -- intros Hrest. apply dataCommand_consumes; assumption.
        -- intros ls term rest' -> Hno Hterm Hfit.
           apply dataCommand_reads; assumption.
  - split; [split|split; [|split]].
    + intros [Hin|[]]. vm_compute in Hin. discriminate.
    + intros [Habs _]. discriminate.
    + reflexivity.
    + discriminate.
    + discriminate.
Qed.

(** A DATA command of an authenticated client with a recipient is accepted
    whatever the sender address is: the 354 prompt is written and the four
    lines of the transmission are read. *)
Lemma data_accepted_iff_authenticated_with_recipient_witness :
  isCommand ("DATA" +:+ CRLF) "DATA" = true /\
  (In prompt354
      (replies (handleCommand offline cold
                  (addRcpt (setMailFrom authed "a@b.c") "r@x.y")
                  ("DATA" +:+ CRLF) (lines ["Subject: Hi"; ""; "Hello."; "."])))
   <-> authenticated (addRcpt (setMailFrom authed "a@b.c") "r@x.y") = true
       /\ rcptTo (addRcpt (setMailFrom authed "a@b.c") "r@x.y") <> [])
  /\ unread (handleCommand offline cold
               (addRcpt (setMailFrom authed "a@b.c") "r@x.y")
               ("DATA" +:+ CRLF) (lines ["Subject: Hi"; ""; "Hello."; "."]))
     = [].
Proof.
  split; [reflexivity|].
  destruct (data_accepted_iff_authenticated_with_recipient offline cold
              (addRcpt (setMailFrom authed "a@b.c") "r@x.y")
              ("DATA" +:+ CRLF) (lines ["Subject: Hi"; ""; "Hello."; "."])
              eq_refl) as (Hiff & _ & _ & Hacc).
  split; [exact Hiff|].
  destruct (Hacc eq_refl ltac:(discriminate)) as (_ & _ & Hreads).
  exact (proj1 (Hreads
                  ["Subject: Hi" +:+ CRLF; "" +:+ CRLF; "Hello." +:+ CRLF]
                  ("." +:+ CRLF) [] eq_refl eq_refl eq_refl eq_refl)).
Defined.

(** C5 as stated fails: after AUTH, a RCPT TO without any MAIL FROM leaves
    the sender empty, and the DATA that follows is accepted, read to its
    terminator and delivered. *)
Lemma data_accepted_with_empty_sender :
  session (handleCommand (scripted 26214400 3600 "{..}" 202 "") cold authed
             ("RCPT TO:<r@x.y>" +:+ CRLF) [])
  = addRcpt authed "r@x.y"
  /\ authenticated (addRcpt authed "r@x.y") = true
  /\ mailFrom (addRcpt authed "r@x.y") = ""
  /\ replies (handleCommand (scripted 26214400 3600 "{..}" 202 "") cold
                (addRcpt authed "r@x.y") ("DATA" +:+ CRLF)
                (lines ["Subject: Hi"; ""; "Hello."; "."]))
     = [prompt354; reply "250 2.0.0 Ok: queued as graphapi"]
  /\ unread (handleCommand (scripted 26214400 3600 "{..}" 202 "") cold
               (addRcpt authed "r@x.y") ("DATA" +:+ CRLF)
               (lines ["Subject: Hi"; ""; "Hello."; "."]))
     = [].
Proof. repeat split; vm_compute; reflexivity. Qed.

(** ** DATA: a message over the size limit *)

(** Decides the prefix tests on a command line whose upper-cased text is
    known to begin with a verb. *)
Ltac settle t Hup :=
  unfold continueLoop, HasPrefix; rewrite ?Hup;
  repeat
    match goal with
    | |- context [String.prefix ?p (?v +:+ t)] =>
        first [ rewrite (prefix_of_app v t)
              | rewrite (prefix_clash p v t eq_refl) ]
    end;
  cbn [orb andb negb].

(** C3 (the code's replies to a message over the limit).  When the running
    byte count of an accepted DATA exceeds the limit, the handler writes
    the 552 reply, drains the input up to the terminator, clears the
    envelope and jumps to the label [continueLoop] with the DATA line still
    in hand: the line is none of QUIT, RSET and NOOP, so a second reply,
    [502 5.5.2 Command not implemented], follows the 552.  The session
    stays open and authenticated, and a MAIL FROM with an address is
    accepted next. *)
Theorem too_large_is_answered_552_then_502 :
  forall (env : Env) (w : World) (st : Session) (raw : string)
         (rest : list ReadEvent) (size : Z) (rest' : list ReadEvent),
    authenticated st = true ->
    isCommand raw "DATA" = true ->
    rcptTo st <> [] ->
    readData (MaxMessageSize (config env)) rest 0 "" = DataTooLarge size rest' ->
    handleCommand env w st raw rest
    = {| replies :=
           [prompt354;
            reply ("552 5.3.4 Message too large (max "
                   +:+ itoa (MaxMessageSize (config env)) +:+ " bytes)");
            reply "502 5.5.2 Command not implemented"];
         next := Continue;
         session := resetEnvelope st;
         unread := drain rest';
         world := w |}
    /\ authenticated (resetEnvelope st) = true
    /\ mailFrom (resetEnvelope st) = ""
    /\ rcptTo (resetEnvelope st) = []
    /\ forall (raw2 : string) (rest2 : list ReadEvent),
         isCommand raw2 "MAIL FROM:" = true ->
         extractAddress (TrimRight raw2 CRLF) <> "" ->
         handleCommand env w (resetEnvelope st) raw2 rest2
         = {| replies := [reply "250 2.1.0 Ok"];
              next := Continue;
              session := setMailFrom (resetEnvelope st)
                           (extractAddress (TrimRight raw2 CRLF));
              unread := rest2;
              world := w |}.
Proof.
  intros env w st raw rest size rest' Ha H Hr Hdata.
  split; [|split; [exact Ha|split; [reflexivity|split; [reflexivity|]]]].
  - dispatch H. rewrite Ha. cbn [negb].
    unfold dataCommand. rewrite (rcptTo_nonempty st Hr), Hdata.
    settle t Hup. reflexivity.
  - intros raw2 rest2 H2 Haddr. dispatch H2.
    cbn [authenticated resetEnvelope]. rewrite Ha. cbn [negb].
    cbn [mailFrom setMailFrom].
    destruct (String.eqb_spec (extractAddress (TrimRight raw2 CRLF)) "");
      [contradiction|reflexivity].
Qed.

(** The specification's second scenario: a limit of 10 bytes and a message
    of 20. *)
Lemma too_large_is_answered_552_then_502_witness :
  authenticated (addRcpt (setMailFrom authed "a@b.c") "r@x.y") = true /\
  isCommand ("DATA" +:+ CRLF) "DATA" = true /\
  rcptTo (addRcpt (setMailFrom authed "a@b.c") "r@x.y") <> [] /\
  readData (MaxMessageSize (config (scripted 10 3600 "{..}" 202 "")))
    (lines ["01234567890123456789"; "."; "MAIL FROM:<a@b.c>"]) 0 ""
  = DataTooLarge 22 (lines ["."; "MAIL FROM:<a@b.c>"]) /\
  handleCommand (scripted 10 3600 "{..}" 202 "") cold
    (addRcpt (setMailFrom authed "a@b.c") "r@x.y") ("DATA" +:+ CRLF)
    (lines ["01234567890123456789"; "."; "MAIL FROM:<a@b.c>"])
  = {| replies :=
         [prompt354;
          reply ("552 5.3.4 Message too large (max "
                 +:+ itoa (MaxMessageSize (config (scripted 10 3600 "{..}" 202 "")))
                 +:+ " bytes)");
          reply "502 5.5.2 Command not implemented"];
       next := Continue;
       session := resetEnvelope (addRcpt (setMailFrom authed "a@b.c") "r@x.y");
       unread := drain (lines ["."; "MAIL FROM:<a@b.c>"]);
       world := cold |}.
Proof.
  split; [reflexivity|]. split; [reflexivity|].
  split; [discriminate|]. split; [reflexivity|].
  apply (too_large_is_answered_552_then_502
           (scripted 10 3600 "{..}" 202 "") cold
           (addRcpt (setMailFrom authed "a@b.c") "r@x.y") ("DATA" +:+ CRLF)
           (lines ["01234567890123456789"; "."; "MAIL FROM:<a@b.c>"])
           22 (lines ["."; "MAIL FROM:<a@b.c>"]));
    [reflexivity | reflexivity | discriminate | reflexivity].
Defined.

(** ** AUTH PLAIN *)

(** C7 (the code has no AUTH PLAIN).  A line that begins with AUTH PLAIN,
    with or without an inline payload, matches no branch of the handler:
    before authentication it is answered [530 5.7.0 Authentication
    required], after it [502 5.5.2 Command not implemented].  No 334
    challenge is written, no further line is read, no token is requested,
    and the session, its login identifier included, is unchanged. *)
Theorem auth_plain_is_not_implemented :
  forall (env : Env) (w : World) (st : Session) (raw : string)
         (rest : list ReadEvent),
    isCommand raw "AUTH PLAIN" = true ->
    handleCommand env w st raw rest
    = {| replies :=
           [if authenticated st
            then reply "502 5.5.2 Command not implemented"
            else reply "530 5.7.0 Authentication required"];
         next := Continue; session := st; unread := rest; world := w |}.
Proof.
  intros env w st raw rest H. dispatch H.
  destruct (authenticated st); reflexivity.
Qed.

(** AUTH PLAIN with the inline payload of [user@ex.com] and [secret] on a
    new session. *)
Lemma auth_plain_is_not_implemented_witness :
  isCommand ("AUTH PLAIN AHVzZXJAZXguY29tAHNlY3JldA==" +:+ CRLF) "AUTH PLAIN"
  = true /\
  handleCommand offline cold newSession
    ("AUTH PLAIN AHVzZXJAZXguY29tAHNlY3JldA==" +:+ CRLF) []
  = {| replies := [reply "530 5.7.0 Authentication required"];
       next := Continue; session := newSession; unread := []; world := cold |}.
Proof.
  split; [reflexivity|].
  apply (auth_plain_is_not_implemented offline cold newSession
           ("AUTH PLAIN AHVzZXJAZXguY29tAHNlY3JldA==" +:+ CRLF) []).
  reflexivity.
Defined.

(** ** DATA: what follows the terminator *)

(** A turn that does not continue ends the command loop: nothing of the
    input left is read and nothing more is written. *)
Lemma commandLoop_stops (env : Env) (fuel : nat) (w : World) (st : Session)
    (raw : string) (rest : list ReadEvent) :
  next (handleCommand env w st raw rest) <> Continue ->
  commandLoop env (S fuel) w st (Line raw :: rest)
  = Some {| written := replies (handleCommand env w st raw rest);
            panicked := isPanicked (next (handleCommand env w st raw rest));
            after := world (handleCommand env w st raw rest) |}.
Proof.
  intros Hn. cbn [commandLoop ReadString].
  destruct (next (handleCommand env w st raw rest));
    [contradiction|reflexivity|reflexivity].
Qed.

(** An accepted DATA whose message ends with the terminator within the
    size limit goes on to the delivery. *)
Lemma handleCommand_deliver (env : Env) (w : World) (st : Session)
    (raw : string) (rest : list ReadEvent) (buf : string)
    (rest' : list ReadEvent) :
  authenticated st = true ->
  isCommand raw "DATA" = true ->
  rcptTo st <> [] ->
  readData (MaxMessageSize (config env)) rest 0 "" = DataDone buf rest' ->
  handleCommand env w st raw rest = deliver env w st buf rest'.
Proof.
  intros Ha H Hr Hdata. dispatch H. rewrite Ha. cbn [negb].
  unfold dataCommand. now rewrite (rcptTo_nonempty st Hr), Hdata.
Qed.

(** C10.  After the terminator of an accepted DATA, a message that fails
    to parse is answered 550 5.6.0, a token that cannot be obtained 451
    4.7.0, and a submission that fails 550 5.7.0; each of these replies is
    the last thing the handler writes, for it then returns and the
    connection is closed with the rest of the input unread.  The turn
    continues the session only when it has written the 250 reply, and a
    submission that succeeds does so: the handler writes 250, empties the
    envelope, keeps the login, and the command loop goes on with the line
    that follows the terminator. *)
Theorem failed_delivery_closes_the_connection :
  forall (env : Env) (w : World) (st : Session) (raw : string)
         (rest : list ReadEvent) (buf : string) (rest' : list ReadEvent),
    authenticated st = true ->
    isCommand raw "DATA" = true ->
    rcptTo st <> [] ->
    readData (MaxMessageSize (config env)) rest 0 "" = DataDone buf rest' ->
    let s := handleCommand env w st raw rest in
    let parse :=
      parseSubjectBodyAndAttachments (lib env)
        (StrictAttachments (config env)) (normalizeLineEndings buf) in
    let fetch := getCachedOAuth2Token env w (username st) (password st) in
    (forall e, parse = inr e ->
       replies s = [prompt354;
                    reply ("550 5.6.0 Message parsing failed: " +:+ e)]
       /\ next s = Return)
    /\ (forall parsed e, parse = inl parsed -> fst fetch = inr e ->
          replies s = [prompt354;
                       reply "451 4.7.0 Temporary authentication failure"]
          /\ next s = Return)
    /\ (forall parsed tok e, parse = inl parsed -> fst fetch = inl tok ->
          sendMailGraphAPI (config env)
            (graphEndpoint env (submission st tok parsed)) = SendErr e ->
          replies s = [prompt354;
                       reply ("550 5.7.0 Delivery failed: " +:+ e)]
          /\ next s = Return)
    /\ (next s = Continue <-> replies s = [prompt354; queued])
    /\ (next s = Continue -> session s = resetEnvelope st /\ unread s = rest')
    /\ (next s <> Continue ->
        forall fuel,
          commandLoop env (S fuel) w st (Line raw :: rest)
          = Some {| written := replies s;
                    panicked := isPanicked (next s);
                    after := world s |})
    /\ (forall parsed tok, parse = inl parsed -> fst fetch = inl tok ->
          sendMailGraphAPI (config env)
            (graphEndpoint env (submission st tok parsed)) = SendOk ->
          s = {| replies := [prompt354; queued];
                 next := Continue;
                 session := {| username := username st;
                               password := password st;
                               authenticated := true;
                               mailFrom := ""; rcptTo := [] |};
                 unread := rest';
                 world := snd fetch |}
          /\ forall fuel,
               commandLoop env (S fuel) w st (Line raw :: rest)
               = match commandLoop env fuel (snd fetch)
                         {| username := username st;
                            password := password st;
                            authenticated := true;
                            mailFrom := ""; rcptTo := [] |} rest' with
                 | Some r =>
                     Some {| written := [prompt354; queued] ++ written r;
                             panicked := panicked r; after := after r |}
                 | None => None
                 end).
Proof.
  intros env w st raw rest buf rest' Ha H Hr Hdata s parse fetch.
  assert (E : s = deliver env w st buf rest')
    by (apply handleCommand_deliver; assumption).
  split; [|split; [|split; [|split; [|split; [|split]]]]].
  - intros e He. rewrite E. unfold deliver. fold parse. rewrite He.
    split; reflexivity.
  - intros parsed e Hp Hf. rewrite E. unfold deliver. fold parse fetch.
    rewrite Hp. destruct fetch as [[tok|e'] w']; [discriminate|].
    split; reflexivity.
  - intros parsed tok e Hp Hf Hs. rewrite E. unfold deliver.
    fold parse fetch. rewrite Hp.
    destruct fetch as [[tok'|e'] w']; [|discriminate].
    cbn [fst] in Hf. injection Hf as ->. rewrite Hs.
    split; reflexivity.
  - rewrite E. unfold deliver. fold parse fetch.
    destruct parse as [parsed|e].
    + destruct fetch as [[tok|e] w'].
      * destruct (sendMailGraphAPI _ _); cbn [next replies];
          split; intros Hx; try discriminate; reflexivity.
      * cbn [next replies]. split; intros Hx; discriminate.
    + cbn [next replies]. split; intros Hx; discriminate.
  - rewrite E. unfold deliver. fold parse fetch.
    destruct parse as [parsed|e]; [|discriminate].
    destruct fetch as [[tok|e] w']; [|discriminate].
    destruct (sendMailGraphAPI _ _); cbn [next]; intros Hx;
      try discriminate.
    split; reflexivity.
  - intros Hn fuel. subst s. apply commandLoop_stops, Hn.
  - intros parsed tok Hp Hf Hs.
    assert (Eok : s = {| replies := [prompt354; queued];
                         next := Continue;
                         session := {| username := username st;
                                       password := password st;
                                       authenticated := true;
                                       mailFrom := ""; rcptTo := [] |};
                         unread := rest';
                         world := snd fetch |}).
    { rewrite E. unfold deliver. fold parse fetch. rewrite Hp.
      destruct fetch as [[tok'|e'] w']; [|discriminate].
      cbn [fst] in Hf. injection Hf as ->. rewrite Hs.
      unfold resetEnvelope, setMailFrom. cbn. now rewrite Ha. }
    split; [exact Eok|].
    intros fuel. cbn [commandLoop ReadString]. fold s. rewrite Eok.
    reflexivity.
Qed.

(** The DATA of a message that cannot be parsed, followed by a command
    that is never answered; and the DATA of a message that is delivered,
    followed by a QUIT that is. *)
Lemma failed_delivery_closes_the_connection_witness :
  authenticated (addRcpt (setMailFrom authed "a@b.c") "r@x.y") = true /\
  isCommand ("DATA" +:+ CRLF) "DATA" = true /\
  rcptTo (addRcpt (setMailFrom authed "a@b.c") "r@x.y") <> [] /\
  readData (MaxMessageSize (config offline))
    (lines ["no header"; "."; "NOOP"]) 0 ""
  = DataDone ("no header" +:+ CRLF) (lines ["NOOP"]) /\
  (replies (handleCommand offline cold
              (addRcpt (setMailFrom authed "a@b.c") "r@x.y")
              ("DATA" +:+ CRLF) (lines ["no header"; "."; "NOOP"]))
   = [prompt354;
      reply ("550 5.6.0 Message parsing failed: "
             +:+ "mail.ReadMessage failed: malformed MIME header line")]
   /\ next (handleCommand offline cold
              (addRcpt (setMailFrom authed "a@b.c") "r@x.y")
              ("DATA" +:+ CRLF) (lines ["no header"; "."; "NOOP"]))
      = Return) /\
  readData (MaxMessageSize (config (scripted 26214400 3600 "{..}" 202 "")))
    (lines ["Subject: Hi"; ""; "Hello."; "."; "QUIT"]) 0 ""
  = DataDone (joined ["Subject: Hi" +:+ CRLF; "" +:+ CRLF; "Hello." +:+ CRLF])
      (lines ["QUIT"]) /\
  option_map written
    (commandLoop (scripted 26214400 3600 "{..}" 202 "") 2 cold
       (addRcpt (setMailFrom authed "a@b.c") "r@x.y")
       (Line ("DATA" +:+ CRLF)
        :: lines ["Subject: Hi"; ""; "Hello."; "."; "QUIT"]))
  = Some [prompt354; queued; reply "221 2.0.0 Bye"].
Proof.
  split; [reflexivity|]. split; [reflexivity|].
  split; [discriminate|]. split; [reflexivity|].
  split.
  - apply (proj1 (failed_delivery_closes_the_connection offline cold
                    (addRcpt (setMailFrom authed "a@b.c") "r@x.y")
                    ("DATA" +:+ CRLF) (lines ["no header"; "."; "NOOP"])
                    ("no header" +:+ CRLF) (lines ["NOOP"])
                    eq_refl eq_refl ltac:(discriminate) eq_refl)).
    reflexivity.
  - split; [reflexivity|].
    destruct (failed_delivery_closes_the_connection
                (scripted 26214400 3600 "{..}" 202 "") cold
                (addRcpt (setMailFrom authed "a@b.c") "r@x.y")
                ("DATA" +:+ CRLF)
                (lines ["Subject: Hi"; ""; "Hello."; "."; "QUIT"])
                (joined ["Subject: Hi" +:+ CRLF; "" +:+ CRLF;
                         "Hello." +:+ CRLF])
                (lines ["QUIT"])
                eq_refl eq_refl ltac:(discriminate) eq_refl)
      as (_ & _ & _ & _ & _ & _ & Hok).
    edestruct Hok as [_ Hloop];
      [vm_compute; reflexivity | vm_compute; reflexivity
       | vm_compute; reflexivity |].
    rewrite (Hloop 1%nat). vm_compute. reflexivity.
Defined.

(** ** Addresses *)

Lemma prefix_one (c a : ascii) (s : string) :
  String.prefix (one c) (String a s) = if ascii_dec c a then true else false.
Proof.
  unfold one. cbn [String.prefix]. destruct (ascii_dec c a); [|reflexivity].
  destruct s; reflexivity.
Qed.

Lemma Index_lower (s sub : string) : -1 <= Index s sub.
Proof.
  induction s as [|a s IH]; cbn [Index].
  - destruct (String.prefix sub ""); lia.
  - destruct (String.prefix sub (String a s)); [lia|].
    destruct (Index s sub <? 0) eqn:E; [lia|]. apply Z.ltb_ge in E. lia.
Qed.

Lemma Index_one (c : ascii) (s : string) :
  0 <= Index s (one c) <-> occurs c s.
Proof.
  unfold occurs. induction s as [|a s IH].
  - cbn. split; [lia|tauto].
  - cbn [Index list_ascii_of_string In]. rewrite prefix_one.
    destruct (ascii_dec c a) as [->|Hne].
    + split; [auto|lia].
    + destruct (Index s (one c) <? 0) eqn:E.
      * apply Z.ltb_lt in E. split; [lia|].
        intros [Heq|Hin]; [congruence|]. apply IH in Hin. lia.
      * apply Z.ltb_ge in E. split; [|lia].
        intros _. right. apply IH. lia.
Qed.






Lemma substring_all (s : string) : String.substring 0 (String.length s) s = s.
Proof.
  induction s as [|x s IH]; [reflexivity|].
  cbn [String.length String.substring]. now rewrite IH.
Qed.

Lemma substring_head (a d : string) :
  String.substring 0 (String.length a) (a +:+ d) = a.
Proof.
  induction a as [|x a IH].
  - cbn [String.length]. destruct d; reflexivity.
  - rewrite app_cons. cbn [String.length String.substring]. now rewrite IH.
Qed.

Lemma substring_tail (a d : string) :
  String.substring (String.length a) (String.length d) (a +:+ d) = d.
Proof.
  induction a as [|x a IH].
  - cbn [String.length]. apply substring_all.
  - rewrite app_cons. cbn [String.length String.substring]. exact IH.
Qed.


Lemma slice_domain (a d : string) (c : ascii) :
  slice (a +:+ String c d) (len a + 1) (len (a +:+ String c d)) = d.
Proof.
  unfold slice. rewrite len_app.
  replace (len (String c d)) with (1 + len d)
    by (unfold len; cbn [String.length]; lia).
  replace (len a + (1 + len d) - (len a + 1)) with (len d) by lia.
  replace (len a + 1) with (len (a +:+ one c))
    by (rewrite len_app; reflexivity).
  unfold len. rewrite !Nat2Z.id.
  replace (a +:+ String c d) with ((a +:+ one c) +:+ d)
    by (rewrite app_assoc_s; reflexivity).
  apply substring_tail.
Qed.





(** The MAIL FROM branch tests the extracted address for emptiness only:
    a sender that [isValidEmail] rejects is accepted. *)
Lemma mail_from_is_not_validated :
  isValidEmail "nodomain" = false
  /\ handleCommand offline cold authed ("MAIL FROM:<nodomain>" +:+ CRLF) []
     = {| replies := [reply "250 2.1.0 Ok"]; next := Continue;
          session := setMailFrom authed "nodomain"; unread := [];
          world := cold |}.
Proof. split; reflexivity. Qed.

(** ** What upstream errors say *)

Lemma Index_app (x y z : string) : 0 <= Index (x +:+ y +:+ z) y.
Proof.
  induction x as [|a x IH].
  - change ("" +:+ y +:+ z) with (y +:+ z).
    destruct (y +:+ z) eqn:E; cbn [Index];
      rewrite <- E, prefix_of_app; lia.
  - rewrite app_cons. cbn [Index].
    destruct (String.prefix y (String a (x +:+ y +:+ z))); [lia|].
    destruct (Index (x +:+ y +:+ z) y <? 0) eqn:E; [|lia].
    apply Z.ltb_lt in E. lia.
Qed.

Lemma Contains_app (x y z : string) : Contains (x +:+ y +:+ z) y = true.
Proof. unfold Contains. apply Z.leb_le, Index_app. Qed.

Lemma deliveryFailed_contains (status : Z) (body : string) :
  Contains (deliveryFailed status body) body = true.
Proof.
  unfold deliveryFailed, reply.
  replace (("550 5.7.0 Delivery failed: Graph API error (status "
            +:+ itoa status +:+ "): " +:+ body) +:+ CRLF)
    with (("550 5.7.0 Delivery failed: Graph API error (status "
           +:+ itoa status +:+ "): ") +:+ body +:+ CRLF)
    by (now rewrite !app_assoc_s).
  apply Contains_app.
Qed.

(** C2 (the code passes upstream text on).  When the last response of
    Graph has a status of 300 or more, the reply the client receives is
    [550 5.7.0 Delivery failed: Graph API error (status N): ] followed by
    the whole body of that response, not a generic text.  When the token
    response has neither an error nor an access token, the error the cache
    returns ends with the whole body of the token response. *)
Theorem upstream_bodies_reach_the_error_text :
  (forall (env : Env) (w : World) (st : Session) (raw : string)
          (rest : list ReadEvent) (buf : string) (rest' : list ReadEvent)
          (parsed : Parsed) (tok : string) (w' : World) (resp : Response)
          (body : string),
      authenticated st = true ->
      isCommand raw "DATA" = true ->
      rcptTo st <> [] ->
      readData (MaxMessageSize (config env)) rest 0 "" = DataDone buf rest' ->
      parseSubjectBodyAndAttachments (lib env)
        (StrictAttachments (config env)) (normalizeLineEndings buf)
      = inl parsed ->
      getCachedOAuth2Token env w (username st) (password st) = (inl tok, w') ->
      requestErr (graphEndpoint env (submission st tok parsed)) = None ->
      doWithRetry (attempts (graphEndpoint env (submission st tok parsed)))
        (getRetryConfig (config env))
      = RetryReturn (Some resp) None ->
      StatusCode resp >= 300 ->
      ReadAll (Body resp) = inl body ->
      replies (handleCommand env w st raw rest)
      = [prompt354; deliveryFailed (StatusCode resp) body]
      /\ Contains (deliveryFailed (StatusCode resp) body) body = true)
  /\
  (forall (env : Env) (w : World) (user pass body : string)
          (result : tokenResult),
      cachedValid w user = None ->
      tokenEndpoint env user pass = TokenBody body ->
      Unmarshal (lib env) body = inl result ->
      Error result = "" ->
      AccessToken result = "" ->
      getCachedOAuth2Token env w user pass
      = (inr ("no access token in response, body: " +:+ body), w)
      /\ Contains ("no access token in response, body: " +:+ body) body = true).
Proof.
  split.
  - intros env w st raw rest buf rest' parsed tok w' resp body
      Ha H Hr Hdata Hp Hf Hreq Hretry Hstatus Hbody.
    split; [|apply deliveryFailed_contains].
    rewrite (handleCommand_deliver env w st raw rest buf rest' Ha H Hr Hdata).
    unfold deliver. rewrite Hp, Hf.
    unfold sendMailGraphAPI. rewrite Hreq, Hretry, Hbody.
    replace (StatusCode resp >=? 300) with true
      by (symmetry; rewrite Z.geb_leb; apply Z.leb_le; lia).
    reflexivity.
  - intros env w user pass body result Hc He Hu Herr Htok.
    split.
    + unfold getCachedOAuth2Token. rewrite Hc.
      unfold getOAuth2TokenWithExpiry. rewrite He, Hu, Herr, Htok.
      reflexivity.
    + rewrite <- (app_empty_r body) at 1. apply Contains_app.
Qed.

(** Graph answers 400 with a body; the token endpoint answers an empty
    JSON object. *)
Lemma upstream_bodies_reach_the_error_text_witness :
  replies (handleCommand (scripted 26214400 3600 "{..}" 400 "SECRET") cold
             (addRcpt (setMailFrom authed "a@b.c") "r@x.y") ("DATA" +:+ CRLF)
             (lines ["Subject: Hi"; ""; "Hello."; "."]))
  = [prompt354; deliveryFailed 400 "SECRET"]
  /\ getCachedOAuth2Token (scripted 26214400 3600 "{}" 400 "SECRET") cold
       "user@ex.com" "secret"
     = (inr ("no access token in response, body: " +:+ "{}"), cold).
Proof.
  split.
  - apply (proj1 upstream_bodies_reach_the_error_text
             (scripted 26214400 3600 "{..}" 400 "SECRET") cold
             (addRcpt (setMailFrom authed "a@b.c") "r@x.y") ("DATA" +:+ CRLF)
             (lines ["Subject: Hi"; ""; "Hello."; "."])
             ("Subject: Hi" +:+ CRLF +:+ CRLF +:+ "Hello." +:+ CRLF) []
             {| pSubject := ""; 
                pBody := "Subject: Hi" +:+ CRLF +:+ CRLF +:+ "Hello." +:+ CRLF;
                pIsHTML := false; pAttachments := [] |}
             "tok"
             {| TokenCache :=
                  <["user@ex.com" :=
                      {| token := "tok";
                         expiresAt := Now cold + cacheLifetime 3600 |}]>
                    (TokenCache cold);
                Now := Now cold |}
             {| StatusCode := 400; Body := readerOf "SECRET" |} "SECRET");
      try reflexivity; try discriminate.
  - apply (proj2 upstream_bodies_reach_the_error_text
             (scripted 26214400 3600 "{}" 400 "SECRET") cold
             "user@ex.com" "secret" "{}"
             {| AccessToken := ""; ExpiresIn := 3600;
                Error := ""; ErrorDesc := "" |});
      reflexivity.
Defined.

(** ** The expiry of a cached token *)

Lemma cacheLifetime_small (expiresIn : Z) :
  0 <= expiresIn < 2 ^ 32 -> cacheLifetime expiresIn = (expiresIn - 60) * Second.
Proof.
  intros H. unfold cacheLifetime, wrap64, Second.
  assert (E : (expiresIn - 60 + 2 ^ 63) mod 2 ^ 64 - 2 ^ 63 = expiresIn - 60).
  { rewrite Z.mod_small; lia. }
  rewrite E. rewrite Z.mod_small; lia.
Qed.

(** C4 (the code has no floor).  A token fetched with a lifetime of
    [expiresIn] seconds is stored with the expiry [now + (expiresIn - 60)
    seconds]: below 90 seconds of lifetime the stored expiry is less than
    30 seconds after the fetch, and below 60 seconds it is before it. *)
Theorem cached_expiry_is_lifetime_less_60s :
  forall (env : Env) (w : World) (user pass tok : string) (expiresIn : Z),
    cachedValid w user = None ->
    getOAuth2TokenWithExpiry env user pass = inl (tok, expiresIn) ->
    0 <= expiresIn < 2 ^ 32 ->
    exists entry : cachedToken,
      TokenCache (snd (getCachedOAuth2Token env w user pass)) !! user
      = Some entry
      /\ fst (getCachedOAuth2Token env w user pass) = inl tok
      /\ token entry = tok
      /\ expiresAt entry - Now w = (expiresIn - 60) * Second
      /\ (expiresIn < 90 -> expiresAt entry - Now w < 30 * Second)
      /\ (expiresIn < 60 -> expiresAt entry < Now w).
Proof.
  intros env w user pass tok expiresIn Hc Hf Hrange.
  unfold getCachedOAuth2Token. rewrite Hc, Hf. cbn [fst snd TokenCache].
  eexists. split; [apply lookup_insert_eq|].
  cbn [token expiresAt]. rewrite (cacheLifetime_small expiresIn Hrange).
  unfold Second. repeat split; lia.
Qed.

(** The specification's case: the server reports [expires_in = 10]. *)
Lemma cached_expiry_is_lifetime_less_60s_witness :
  cachedValid cold "user@ex.com" = None /\
  getOAuth2TokenWithExpiry (scripted 26214400 10 "{..}" 202 "")
    "user@ex.com" "secret" = inl ("tok", 10) /\
  0 <= 10 < 2 ^ 32 /\
  exists entry : cachedToken,
    TokenCache (snd (getCachedOAuth2Token (scripted 26214400 10 "{..}" 202 "")
                       cold "user@ex.com" "secret")) !! "user@ex.com"
    = Some entry
    /\ expiresAt entry - Now cold = (10 - 60) * Second
    /\ expiresAt entry - Now cold < 30 * Second.
Proof.
  split; [reflexivity|]. split; [reflexivity|]. split; [lia|].
  destruct (cached_expiry_is_lifetime_less_60s
              (scripted 26214400 10 "{..}" 202 "") cold
              "user@ex.com" "secret" "tok" 10 eq_refl eq_refl)
    as (entry & Hl & _ & _ & He & H30 & _); [lia|].
  exists entry. split; [exact Hl|]. split; [exact He|]. apply H30. lia.
Defined.

(** ** The walk over the parts of a multipart message *)

(** The walk takes its attachments from the parts it is given, those whose
    Content-Disposition begins with [attachment], and from nowhere else:
    it does not open a part. *)
Lemma walkParts_attachments (l : GoLib) (strict : bool)
    (parts : list NextPart) :
  forall (partCount : Z) (body : string) (isHTML : bool)
         (attachments : list Attachment) (body' : string) (isHTML' : bool)
         (attachments' : list Attachment),
    walkParts l strict parts partCount body isHTML attachments
    = inl (body', isHTML', attachments') ->
    forall a, In a attachments' ->
      In a attachments \/
      exists p, In (PartOk p) parts
                /\ HasPrefix (Get (PartHeader p) "Content-Disposition")
                     "attachment" = true
                /\ Filename a = attachmentFilename l p.
Proof.
  induction parts as [|[p|e] parts IH];
    intros partCount body isHTML attachments body' isHTML' attachments' Hw a Ha.
  - cbn in Hw. injection Hw as <- <- <-. now left.
  - cbn [walkParts] in Hw.
    destruct (partCount + 1 >? maxParts);
      [injection Hw as <- <- <-; now left|].
    destruct (HasPrefix (Get (PartHeader p) "Content-Disposition") "attachment")
      eqn:Hd.
    + destruct (decodeMessage l _ (PartBody p)) as [data|err].
      * match type of Hw with
        | (if ?c then _ else _) = _ => destruct c
        end.
        -- destruct (IH _ _ _ _ _ _ _ Hw a Ha) as [Hin|(q & Hq & Hq')];
             [now left|right; exists q; split; [now right|exact Hq']].
        -- destruct (IH _ _ _ _ _ _ _ Hw a Ha) as [Hin|(q & Hq & Hq')].
           ++ apply in_app_or in Hin as [Hin|[<-|[]]]; [now left|].
              right. exists p. split; [now left|]. split; [exact Hd|reflexivity].
           ++ right. exists q. split; [now right|exact Hq'].
      * destruct strict; [discriminate|].
        destruct (IH _ _ _ _ _ _ _ Hw a Ha) as [Hin|(q & Hq & Hq')];
          [now left|right; exists q; split; [now right|exact Hq']].
    + destruct (decodeMessage l _ (PartBody p)) as [data|err];
        destruct (IH _ _ _ _ _ _ _ Hw a Ha) as [Hin|(q & Hq & Hq')];
        try (now left); right; exists q; (split; [now right|exact Hq']).
  - cbn in Hw. injection Hw as <- <- <-. now left.
Qed.

(** C8 (the code does not recurse).  Given a part that is itself a
    multipart/mixed entity holding an attachment, the walk treats it as a
    body part: whatever the library functions compute, it yields no
    attachment, and the body of the message becomes the undecoded text of
    the inner entity, boundaries and part headers included. *)
Theorem nested_attachment_is_not_extracted :
  forall (l : GoLib) (strict : bool),
    walkParts l strict [PartOk Nested.innerPart] 0 "" false []
    = inl (Nested.innerText, false, []).
Proof. intros l strict. reflexivity. Qed.

(** ** The handler returns *)

Ltac split_ifs :=
  repeat match goal with
         | |- context [if ?c then _ else _] => destruct c
         | |- context [match ?x with _ => _ end] => destruct x
         end.



Lemma continueLoop_unread (pre : list string) (line : string) (st : Session)
    (rest : list ReadEvent) (w : World) :
  unread (continueLoop pre line st rest w) = rest.
Proof. unfold continueLoop. split_ifs; reflexivity. Qed.

Lemma deliver_unread (env : Env) (w : World) (st : Session) (buf : string)
    (rest : list ReadEvent) :
  unread (deliver env w st buf rest) = rest.
Proof. unfold deliver. split_ifs; reflexivity. Qed.

Lemma dataCommand_unread (env : Env) (w : World) (st : Session)
    (line : string) (rest : list ReadEvent) :
  (List.length (unread (dataCommand env w st line rest))
   <= List.length rest)%nat.
Proof.
  unfold dataCommand.
  destruct (Z.of_nat (List.length (rcptTo st)) =? 0); [cbn; lia|].
  pose proof (readData_unread (MaxMessageSize (config env)) rest 0 "") as H.
  destruct (readData _ rest 0 "") as [r|buf r|size r].
  - exact H.
  - now rewrite deliver_unread.
  - rewrite continueLoop_unread. pose proof (drain_unread r). lia.
Qed.

Lemma authVerify_unread (env : Env) (w : World) (st : Session)
    (pre : list string) (rest : list ReadEvent) :
  unread (authVerify env w st pre rest) = rest.
Proof. unfold authVerify. split_ifs; reflexivity. Qed.

Lemma authPassword_unread (env : Env) (w : World) (st : Session)
    (pre : list string) (rest : list ReadEvent) :
  (List.length (unread (authPassword env w st pre rest))
   <= List.length rest)%nat.
Proof.
  unfold authPassword, ReadString.
  destruct rest as [|[l| |] rest]; cbn [unread List.length]; try lia.
  destruct (decodeBase64WithError (lib env) (TrimSpace l)) as [p [e|]];
    [cbn; lia|].
  rewrite authVerify_unread. lia.
Qed.

Lemma authUsername_unread (env : Env) (w : World) (st : Session)
    (pre : list string) (userB64 : string) (rest : list ReadEvent) :
  (List.length (unread (authUsername env w st pre userB64 rest))
   <= List.length rest)%nat.
Proof.
  unfold authUsername.
  destruct (decodeBase64WithError (lib env) (TrimSpace userB64)) as [u [e|]];
    [cbn; lia|apply authPassword_unread].
Qed.

Lemma authLogin_unread (env : Env) (w : World) (st : Session)
    (line : string) (rest : list ReadEvent) :
  (List.length (unread (authLogin env w st line rest))
   <= List.length rest)%nat.
Proof.
  unfold authLogin.
  assert (Hprompt :
            (List.length
               (unread
                  match ReadString rest with
                  | (Line userB64, rest0) =>
                      authUsername env w st [reply "334 VXNlcm5hbWU6"]
                        userB64 rest0
                  | (_, rest0) =>
                      {| replies :=
                           [reply "334 VXNlcm5hbWU6"]
                           ++ [reply "421 4.7.0 Connection error during authentication"];
                         next := Return; session := st; unread := rest0;
                         world := w |}
                  end)
             <= List.length rest)%nat).
  { unfold ReadString. destruct rest as [|[l| |] rest];
      cbn [unread List.length]; try lia.
    pose proof (authUsername_unread env w st [reply "334 VXNlcm5hbWU6"] l rest).
    lia. }
  destruct (Fields line) as [|f1 [|f2 [|f3 [|f4 fs]]]]; try exact Hprompt.
  apply authUsername_unread.
Qed.

Lemma handleCommand_unread (env : Env) (w : World) (st : Session)
    (line : string) (rest : list ReadEvent) :
  (List.length (unread (handleCommand env w st line rest))
   <= List.length rest)%nat.
Proof.
  unfold handleCommand.
  repeat match goal with
         | |- context [if ?c then _ else _] => destruct c
         end;
    cbn [unread]; try lia;
    first [ apply authLogin_unread
          | apply dataCommand_unread
          | rewrite continueLoop_unread; lia ].
Qed.

Lemma commandLoop_returns (env : Env) (fuel : nat) :
  forall (w : World) (st : Session) (input : list ReadEvent),
    (List.length input < fuel)%nat ->
    exists r, commandLoop env fuel w st input = Some r.
Proof.
  induction fuel as [|fuel IH]; intros w st input Hlen; [lia|].
  cbn [commandLoop]. unfold ReadString.
  destruct input as [|[l| |] input]; try (eexists; reflexivity).
  destruct (next (handleCommand env w st l input));
    try (eexists; reflexivity).
  pose proof (handleCommand_unread env w st l input) as Hu.
  cbn [List.length] in Hlen.
  destruct (IH (world (handleCommand env w st l input))
               (session (handleCommand env w st l input))
               (unread (handleCommand env w st l input))) as [r Hr]; [lia|].
  rewrite Hr. eexists; reflexivity.
Qed.

(** Whatever the client sends and the upstream services answer, the
    handler ends, and the first thing it wrote is the greeting. *)
Lemma handleSMTPConnection_returns (env : Env) (w : World)
    (input : list ReadEvent) :
  exists r, handleSMTPConnection env w input = Some r
            /\ exists more, written r = reply "220 SMTP Relay Ready" :: more.
Proof.
  unfold handleSMTPConnection.
  destruct (commandLoop_returns env (S (List.length input)) w newSession input)
    as [r Hr]; [lia|].
  rewrite Hr. eexists. split; [reflexivity|]. eexists; reflexivity.
Qed.

(** * Further properties of the code *)

(** ** The retry executor *)

Lemma retryLoop_agree (cfg : RetryConfig) (up1 up2 : Z -> Attempt) (n : nat) :
  forall (attempt : Z) (resp : option Response) (lastErr : option string),
    (forall a, attempt <= a < attempt + Z.of_nat n -> up1 a = up2 a) ->
    retryLoop cfg up1 n attempt resp lastErr
    = retryLoop cfg up2 n attempt resp lastErr.
Proof.
  induction n as [|n IH]; intros attempt resp lastErr Hagree; [reflexivity|].
  cbn [retryLoop]. rewrite <- (Hagree attempt) by lia.
  assert (Hrest : forall r e,
             retryLoop cfg up1 n (attempt + 1) r e
             = retryLoop cfg up2 n (attempt + 1) r e).
  { intros r e. apply IH. intros a Ha. apply Hagree. lia. }
  destruct (up1 attempt) as [cd nr [e|r]]; cbn [newRequestErr doResult ctxDone];
    rewrite ?Hrest; reflexivity.
Qed.

(** X1.  The executor makes at most [MaxAttempts] attempts: what it returns does
    not depend on what the network would do at a later attempt. *)
Theorem doWithRetry_stops_at_MaxAttempts :
  forall (cfg : RetryConfig) (up1 up2 : Z -> Attempt),
    (forall a, 0 <= a < MaxAttempts cfg -> up1 a = up2 a) ->
    doWithRetry up1 cfg = doWithRetry up2 cfg.
Proof.
  intros cfg up1 up2 Hagree. unfold doWithRetry.
  apply retryLoop_agree. intros a Ha. apply Hagree. lia.
Qed.

Lemma retryLoop_response (cfg : RetryConfig) (up : Z -> Attempt) (n : nat) :
  forall (attempt : Z) (resp : option Response) (lastErr : option string)
         (r : option Response),
    retryLoop cfg up n attempt resp lastErr = RetryReturn r None ->
    (lastErr = None /\ resp = r /\ n = O)
    \/ exists a r',
         attempt <= a < attempt + Z.of_nat n
         /\ r = Some r'
         /\ doResult (up a) = DoResp r'
         /\ isRetryableStatus (StatusCode r') (RetryableStatus cfg) = false.
Proof.
  induction n as [|n IH]; intros attempt resp lastErr r H.
  - cbn in H. injection H as <- ->. now left.
  - right. cbn [retryLoop] in H.
    assert (Hsend :
              match newRequestErr (up attempt) with
              | Some e =>
                  RetryReturn None (Some ("failed to create request: " +:+ e))
              | None =>
                  match doResult (up attempt) with
                  | DoErr e => retryLoop cfg up n (attempt + 1) None (Some e)
                  | DoResp r0 =>
                      if negb (isRetryableStatus (StatusCode r0)
                                 (RetryableStatus cfg))
                      then RetryReturn (Some r0) None
                      else retryLoop cfg up n (attempt + 1) (Some r0)
                             (Some ("retryable status: "
                                    +:+ itoa (StatusCode r0)))
                  end
              end = RetryReturn r None ->
              exists a r',
                attempt <= a < attempt + Z.of_nat (S n)
                /\ r = Some r'
                /\ doResult (up a) = DoResp r'
                /\ isRetryableStatus (StatusCode r') (RetryableStatus cfg)
                   = false).
    { intros Hs. destruct (newRequestErr (up attempt)); [discriminate|].
      destruct (doResult (up attempt)) as [e|r0] eqn:Hdo.
      - destruct (IH _ _ _ _ Hs) as [(Habs & _)|(a & r' & Ha & Hr)];
          [discriminate|].
        exists a, r'. split; [lia|exact Hr].
      - destruct (isRetryableStatus (StatusCode r0) (RetryableStatus cfg))
          eqn:Hst; cbn [negb] in Hs.
        + destruct (IH _ _ _ _ Hs) as [(Habs & _)|(a & r' & Ha & Hr)];
            [discriminate|].
          exists a, r'. split; [lia|exact Hr].
        + injection Hs as <-. exists attempt, r0.
          split; [lia|]. split; [reflexivity|]. split; [exact Hdo|exact Hst]. }
    destruct (attempt >? 0); [|exact (Hsend H)].
    destruct (Z.quot (backoffOf cfg attempt) 4 <=? 0); [discriminate|].
    destruct (ctxDone (up attempt)); [discriminate|exact (Hsend H)].
Qed.

(** X2.  A response the executor returns without an error was received at one
    of the attempts it may make and has a status that is not retryable; and
    it returns neither a response nor an error only when it may make no
    attempt at all. *)
Theorem doWithRetry_returns_a_final_response :
  forall (cfg : RetryConfig) (up : Z -> Attempt) (r : option Response),
    doWithRetry up cfg = RetryReturn r None ->
    (r = None /\ MaxAttempts cfg <= 0)
    \/ exists a r',
         0 <= a < MaxAttempts cfg
         /\ r = Some r'
         /\ doResult (up a) = DoResp r'
         /\ isRetryableStatus (StatusCode r') (RetryableStatus cfg) = false.
Proof.
  intros cfg up r H. unfold doWithRetry in H.
  destruct (retryLoop_response cfg up _ _ _ _ _ H)
    as [(_ & <- & Hn)|(a & r' & Ha & Hr)].
  - left. split; [reflexivity|]. lia.
  - right. exists a, r'. split; [lia|exact Hr].
Qed.

Lemma doWithRetry_stops_at_MaxAttempts_witness :
  (forall a, 0 <= a < MaxAttempts (getRetryConfig defaults) ->
             (fun _ : Z => unreachable) a
             = (fun b : Z =>
                  if b <? 3 then unreachable
                  else {| ctxDone := None; newRequestErr := None;
                          doResult := DoResp {| StatusCode := 202;
                                                Body := readerOf "" |} |}) a)
  /\ doWithRetry (fun _ : Z => unreachable) (getRetryConfig defaults)
     = doWithRetry
         (fun b : Z =>
            if b <? 3 then unreachable
            else {| ctxDone := None; newRequestErr := None;
                    doResult := DoResp {| StatusCode := 202;
                                          Body := readerOf "" |} |})
         (getRetryConfig defaults).
Proof.
  assert (H : forall a, 0 <= a < MaxAttempts (getRetryConfig defaults) ->
                        (fun _ : Z => unreachable) a
                        = (fun b : Z =>
                             if b <? 3 then unreachable
                             else {| ctxDone := None; newRequestErr := None;
                                     doResult :=
                                       DoResp {| StatusCode := 202;
                                                 Body := readerOf "" |} |}) a).
  { intros a Ha. cbn in Ha. cbv beta.
    destruct (a <? 3) eqn:E; [reflexivity|]. apply Z.ltb_ge in E. lia. }
  split; [exact H|].
  apply (doWithRetry_stops_at_MaxAttempts (getRetryConfig defaults) _ _ H).
Defined.

(** Graph answers 503 and then 202. *)
Lemma doWithRetry_returns_a_final_response_witness :
  doWithRetry
    (fun b : Z =>
       {| ctxDone := None; newRequestErr := None;
          doResult := DoResp {| StatusCode := if b =? 0 then 503 else 202;
                                Body := readerOf "" |} |})
    (getRetryConfig defaults)
  = RetryReturn (Some {| StatusCode := 202; Body := readerOf "" |}) None
  /\ ((Some {| StatusCode := 202; Body := readerOf "" |} = None
       /\ MaxAttempts (getRetryConfig defaults) <= 0)
      \/ exists a r',
           0 <= a < MaxAttempts (getRetryConfig defaults)
           /\ Some {| StatusCode := 202; Body := readerOf "" |} = Some r'
           /\ doResult
                ((fun b : Z =>
                    {| ctxDone := None; newRequestErr := None;
                       doResult :=
                         DoResp {| StatusCode := if b =? 0 then 503 else 202;
                                   Body := readerOf "" |} |}) a)
              = DoResp r'
           /\ isRetryableStatus (StatusCode r')
                (RetryableStatus (getRetryConfig defaults)) = false).
Proof.
  split; [reflexivity|].
  apply (doWithRetry_returns_a_final_response (getRetryConfig defaults)
           (fun b : Z =>
              {| ctxDone := None; newRequestErr := None;
                 doResult := DoResp {| StatusCode := if b =? 0 then 503 else 202;
                                       Body := readerOf "" |} |})).
  reflexivity.
Defined.

Lemma retryLoop_goesOn (cfg : RetryConfig) (up : Z -> Attempt) (k m : nat) :
  forall (attempt : Z) (resp : option Response) (lastErr : option string),
    (forall b, attempt <= b < attempt + Z.of_nat k -> goesOn cfg up b = true) ->
    retryLoop cfg up (k + m) attempt resp lastErr
    = retryLoop cfg up m (attempt + Z.of_nat k)
        (match k with
         | O => resp
         | S _ => keptResponse (up (attempt + Z.of_nat k - 1))
         end)
        (match k with
         | O => lastErr
         | S _ => Some (keptError (up (attempt + Z.of_nat k - 1)))
         end).
Proof.
  induction k as [|k IH]; intros attempt resp lastErr Hon.
  - cbn [Nat.add]. now rewrite Z.add_0_r.
  - cbn [Nat.add retryLoop].
    pose proof (Hon attempt ltac:(lia)) as H0. unfold goesOn in H0.
    apply andb_true_iff in H0 as [H0 Hdo].
    apply andb_true_iff in H0 as [Hwait Hreq].
    destruct (newRequestErr (up attempt)); [discriminate|].
    assert (Hnext : forall r e,
               retryLoop cfg up (k + m) (attempt + 1) r e
               = retryLoop cfg up m (attempt + Z.of_nat (S k))
                   (match k with
                    | O => r
                    | S _ => keptResponse (up (attempt + Z.of_nat (S k) - 1))
                    end)
                   (match k with
                    | O => e
                    | S _ => Some (keptError (up (attempt + Z.of_nat (S k) - 1)))
                    end)).
    { intros r e. rewrite (IH (attempt + 1) r e)
        by (intros b Hb; apply Hon; lia).
      replace (attempt + 1 + Z.of_nat k) with (attempt + Z.of_nat (S k))
        by lia.
      reflexivity. }
    assert (Hsend :
              match doResult (up attempt) with
              | DoErr e => retryLoop cfg up (k + m) (attempt + 1) None (Some e)
              | DoResp r =>
                  if negb (isRetryableStatus (StatusCode r)
                             (RetryableStatus cfg))
                  then RetryReturn (Some r) None
                  else retryLoop cfg up (k + m) (attempt + 1) (Some r)
                         (Some ("retryable status: " +:+ itoa (StatusCode r)))
              end
              = retryLoop cfg up m (attempt + Z.of_nat (S k))
                  (keptResponse (up (attempt + Z.of_nat (S k) - 1)))
                  (Some (keptError (up (attempt + Z.of_nat (S k) - 1))))).
    { unfold keptResponse, keptError.
      destruct (doResult (up attempt)) as [e|r] eqn:Hd.
      - rewrite Hnext. destruct k as [|k'].
        + replace (attempt + Z.of_nat 1 - 1) with attempt by lia.
          now rewrite Hd.
        + reflexivity.
      - rewrite Hdo. cbn [negb]. rewrite Hnext. destruct k as [|k'].
        + replace (attempt + Z.of_nat 1 - 1) with attempt by lia.
          now rewrite Hd.
        + reflexivity. }
    destruct (attempt >? 0); [|exact Hsend].
    cbn [negb orb] in Hwait. apply andb_true_iff in Hwait as [Hj Hc].
    apply negb_true_iff in Hj. rewrite Hj.
    destruct (ctxDone (up attempt)); [discriminate|exact Hsend].
Qed.

(** X3.  When every attempt fails in a way that asks for another one, the
    executor gives up after [MaxAttempts] attempts with the error of the
    last one: the network error, or the retryable status it answered. *)
Theorem doWithRetry_gives_up_with_the_last_error :
  forall (cfg : RetryConfig) (up : Z -> Attempt),
    1 <= MaxAttempts cfg ->
    (forall b, 0 <= b < MaxAttempts cfg -> goesOn cfg up b = true) ->
    doWithRetry up cfg
    = RetryReturn (keptResponse (up (MaxAttempts cfg - 1)))
        (Some (keptError (up (MaxAttempts cfg - 1)))).
Proof.
  intros cfg up Hmax Hon. unfold doWithRetry.
  replace (Z.to_nat (MaxAttempts cfg)) with (Z.to_nat (MaxAttempts cfg) + 0)%nat
    by lia.
  rewrite retryLoop_goesOn by (intros b Hb; apply Hon; lia).
  destruct (Z.to_nat (MaxAttempts cfg)) eqn:E; [lia|].
  rewrite <- E. rewrite Z2Nat.id by lia. reflexivity.
Qed.

(** Three attempts, all answered 503. *)
Lemma doWithRetry_gives_up_with_the_last_error_witness :
  1 <= MaxAttempts (getRetryConfig defaults)
  /\ (forall b, 0 <= b < MaxAttempts (getRetryConfig defaults) ->
        goesOn (getRetryConfig defaults)
          (fun _ : Z =>
             {| ctxDone := None; newRequestErr := None;
                doResult := DoResp {| StatusCode := 503;
                                      Body := readerOf "busy" |} |}) b = true)
  /\ doWithRetry
       (fun _ : Z =>
          {| ctxDone := None; newRequestErr := None;
             doResult := DoResp {| StatusCode := 503;
                                   Body := readerOf "busy" |} |})
       (getRetryConfig defaults)
     = RetryReturn (Some {| StatusCode := 503; Body := readerOf "busy" |})
         (Some "retryable status: 503").
Proof.
  assert (Hon : forall b, 0 <= b < MaxAttempts (getRetryConfig defaults) ->
                  goesOn (getRetryConfig defaults)
                    (fun _ : Z =>
                       {| ctxDone := None; newRequestErr := None;
                          doResult := DoResp {| StatusCode := 503;
                                                Body := readerOf "busy" |} |}) b
                  = true).
  { intros b Hb. cbn in Hb.
    assert (Hcases : b = 0 \/ b = 1 \/ b = 2) by lia.
    destruct Hcases as [ -> | [ -> | -> ] ]; reflexivity. }
  split; [cbn; lia|]. split; [exact Hon|].
  apply (doWithRetry_gives_up_with_the_last_error (getRetryConfig defaults) _
           ltac:(cbn; lia) Hon).
Defined.

(** X4.  A wait whose quarter is not positive makes [rand.Int63n] panic: when
    the attempts before attempt [a] all ask for another one and the backoff
    before [a] is below four nanoseconds, the executor panics instead of
    making attempt [a]. *)
Theorem doWithRetry_panics_on_a_backoff_that_is_not_positive :
  forall (cfg : RetryConfig) (up : Z -> Attempt) (a : Z),
    1 <= a < MaxAttempts cfg ->
    (forall b, 0 <= b < a -> goesOn cfg up b = true) ->
    backoffOf cfg a < 4 ->
    doWithRetry up cfg = RetryPanic.
Proof.
  intros cfg up a Ha Hon Hback. unfold doWithRetry.
  replace (Z.to_nat (MaxAttempts cfg))
    with (Z.to_nat a + S (Z.to_nat (MaxAttempts cfg - a - 1)))%nat by lia.
  rewrite retryLoop_goesOn by (intros b Hb; apply Hon; lia).
  rewrite Z2Nat.id by lia. rewrite Z.add_0_l. cbn [retryLoop].
  rewrite gtb_true by lia.
  replace (Z.quot (backoffOf cfg a) 4 <=? 0) with true; [reflexivity|].
  symmetry. apply Z.leb_le.
  destruct (Z_lt_le_dec (backoffOf cfg a) 0) as [Hneg|Hpos].
  - pose proof (Z.quot_opp_l (- backoffOf cfg a) 4 ltac:(lia)) as Hq.
    rewrite Z.opp_involutive in Hq.
    pose proof (Z.quot_pos (- backoffOf cfg a) 4 ltac:(lia) ltac:(lia)). lia.
  - rewrite Z.quot_small by lia. lia.
Qed.

Lemma forallb_range (f : Z -> bool) (n : nat) :
  forallb f (map Z.of_nat (seq 0 n)) = true ->
  forall b, 0 <= b < Z.of_nat n -> f b = true.
Proof.
  intros H b Hb. rewrite forallb_forall in H. apply H.
  apply in_map_iff. exists (Z.to_nat b). split; [lia|].
  apply in_seq. lia.
Qed.

(** With the default delay of 500 ms and 37 attempts allowed, the backoff
    before attempt 36 overflows to a negative duration. *)
Lemma doWithRetry_panics_on_a_backoff_that_is_not_positive_witness :
  1 <= 36 < MaxAttempts
             (getRetryConfig
                {| FallbackSMTPuser := ""; FallbackSMTPpass := "";
                   MaxMessageSize := 26214400; StrictAttachments := false;
                   RetryAttempts := 37; RetryInitialDelay := 500 |})
  /\ backoffOf
       (getRetryConfig
          {| FallbackSMTPuser := ""; FallbackSMTPpass := "";
             MaxMessageSize := 26214400; StrictAttachments := false;
             RetryAttempts := 37; RetryInitialDelay := 500 |}) 36 < 4
  /\ doWithRetry (fun _ : Z => unreachable)
       (getRetryConfig
          {| FallbackSMTPuser := ""; FallbackSMTPpass := "";
             MaxMessageSize := 26214400; StrictAttachments := false;
             RetryAttempts := 37; RetryInitialDelay := 500 |})
     = RetryPanic.
Proof.
  split; [cbn; lia|]. split; [vm_compute; reflexivity|].
  apply (doWithRetry_panics_on_a_backoff_that_is_not_positive _ _ 36).
  - cbn; lia.
  - apply (forallb_range _ 36). vm_compute. reflexivity.
  - vm_compute. reflexivity.
Defined.

(** X5.  Before attempt [attempt] the executor waits for the initial backoff
    doubled [attempt - 1] times, or for the ceiling if that is less, as long
    as the doubled value fits 63 bits. *)
Theorem backoff_doubles_up_to_the_ceiling :
  forall (cfg : RetryConfig) (attempt : Z),
    1 <= attempt ->
    0 <= InitialBackoff cfg ->
    InitialBackoff cfg * 2 ^ (attempt - 1) < 2 ^ 63 ->
    backoffOf cfg attempt
    = Z.min (InitialBackoff cfg * 2 ^ (attempt - 1)) (MaxBackoff cfg).
Proof.
  intros cfg attempt Ha Hinit Hfit. unfold backoffOf.
  assert (Hpow : 0 < 2 ^ (attempt - 1)) by (apply Z.pow_pos_nonneg; lia).
  assert (Hprod : wrap64 (InitialBackoff cfg * wrap64 (2 ^ (attempt - 1)))
                  = InitialBackoff cfg * 2 ^ (attempt - 1)).
  { destruct (Z.eq_dec (InitialBackoff cfg) 0) as [E|E].
    - rewrite E. reflexivity.
    - rewrite (wrap64_small (2 ^ (attempt - 1))) by nia.
      apply wrap64_small. nia. }
  rewrite Hprod.
  destruct (InitialBackoff cfg * 2 ^ (attempt - 1) >? MaxBackoff cfg) eqn:E.
  - rewrite Z.gtb_ltb in E. apply Z.ltb_lt in E. lia.
  - rewrite Z.gtb_ltb in E. apply Z.ltb_ge in E. lia.
Qed.

(** An initial delay of 100 ms: 200 ms before the third attempt. *)
Lemma backoff_doubles_up_to_the_ceiling_witness :
  1 <= 2
  /\ 0 <= InitialBackoff
            (getRetryConfig
               {| FallbackSMTPuser := ""; FallbackSMTPpass := "";
                  MaxMessageSize := 26214400; StrictAttachments := false;
                  RetryAttempts := 3; RetryInitialDelay := 100 |})
  /\ backoffOf
       (getRetryConfig
          {| FallbackSMTPuser := ""; FallbackSMTPpass := "";
             MaxMessageSize := 26214400; StrictAttachments := false;
             RetryAttempts := 3; RetryInitialDelay := 100 |}) 2
     = Z.min (100 * Millisecond * 2 ^ (2 - 1)) (10 * Second).
Proof.
  split; [lia|]. split; [vm_compute; discriminate|].
  apply (backoff_doubles_up_to_the_ceiling
           (getRetryConfig
              {| FallbackSMTPuser := ""; FallbackSMTPpass := "";
                 MaxMessageSize := 26214400; StrictAttachments := false;
                 RetryAttempts := 3; RetryInitialDelay := 100 |}) 2).
  - lia.
  - vm_compute. discriminate.
  - vm_compute. reflexivity.
Defined.

(** ** The Graph submitter *)


(** X6.  The submitter reports success only when the first request could be
    built and one of the attempts it may make was answered with a status
    below 300. *)
Theorem sendMailGraphAPI_succeeds_on_a_status_below_300 :
  forall (config : tConfig) (up : GraphUpstream),
    sendMailGraphAPI config up = SendOk ->
    requestErr up = None
    /\ exists a resp,
         0 <= a < RetryAttempts config
         /\ doResult (attempts up a) = DoResp resp
         /\ StatusCode resp < 300.
Proof.
  intros config up. unfold sendMailGraphAPI.
  destruct (requestErr up); [discriminate|].
  destruct (doWithRetry (attempts up) (getRetryConfig config))
    as [|r e] eqn:Hretry; [discriminate|].
  destruct e as [e|]; [destruct r; discriminate|].
  destruct (doWithRetry_returns_a_final_response _ _ _ Hretry)
    as [(-> & _)|(a & r' & Ha & -> & Hdo & _)]; [discriminate|].
  intros H. split; [reflexivity|].
  exists a, r'. split; [exact Ha|]. split; [exact Hdo|].
  destruct (StatusCode r' >=? 300) eqn:E.
  - destruct (ReadAll (Body r')); discriminate.
  - rewrite Z.geb_leb in E. apply Z.leb_gt in E. exact E.
Qed.

(** Graph answers 503 and then 202. *)
Lemma sendMailGraphAPI_succeeds_on_a_status_below_300_witness :
  sendMailGraphAPI defaults
    {| requestErr := None;
       attempts :=
         fun b : Z =>
           {| ctxDone := None; newRequestErr := None;
              doResult := DoResp {| StatusCode := if b =? 0 then 503 else 202;
                                    Body := readerOf "" |} |} |}
  = SendOk
  /\ exists a resp,
       0 <= a < RetryAttempts defaults
       /\ doResult
            (attempts
               {| requestErr := None;
                  attempts :=
                    fun b : Z =>
                      {| ctxDone := None; newRequestErr := None;
                         doResult :=
                           DoResp {| StatusCode := if b =? 0 then 503 else 202;
                                     Body := readerOf "" |} |} |} a)
          = DoResp resp
       /\ StatusCode resp < 300.
Proof.
  split; [reflexivity|].
  apply (sendMailGraphAPI_succeeds_on_a_status_below_300 defaults
           {| requestErr := None;
              attempts :=
                fun b : Z =>
                  {| ctxDone := None; newRequestErr := None;
                     doResult :=
                       DoResp {| StatusCode := if b =? 0 then 503 else 202;
                                 Body := readerOf "" |} |} |}).
  reflexivity.
Defined.

(** ** The configuration loader *)

Lemma setDefaults_retry_attempts (c : Loader.tConfigFile) :
  1 <= Loader.retry_attempts (Loader.setDefaults c).
Proof.
  cbn. destruct (Loader.retry_attempts c <? 1) eqn:E; [lia|].
  apply Z.ltb_ge in E. exact E.
Qed.

(** X7.  The defaults leave no zero where the program needs a value and at
    least one attempt; a configuration that is already so is not changed,
    negative sizes and delays included. *)
Theorem setDefaults_fills_the_gaps :
  forall c : Loader.tConfigFile,
    (Loader.max_message_size (Loader.setDefaults c) <> 0
     /\ Loader.max_connections (Loader.setDefaults c) <> 0
     /\ Loader.connection_timeout (Loader.setDefaults c) <> 0
     /\ 1 <= Loader.retry_attempts (Loader.setDefaults c)
     /\ Loader.retry_initial_delay (Loader.setDefaults c) <> 0)
    /\ (Loader.max_message_size c <> 0 ->
        Loader.max_connections c <> 0 ->
        Loader.connection_timeout c <> 0 ->
        1 <= Loader.retry_attempts c ->
        Loader.retry_initial_delay c <> 0 ->
        Loader.setDefaults c = c)
    /\ Loader.setDefaults (Loader.setDefaults c) = Loader.setDefaults c.
Proof.
  intros c.
  assert (Hinv : Loader.max_message_size (Loader.setDefaults c) <> 0
                 /\ Loader.max_connections (Loader.setDefaults c) <> 0
                 /\ Loader.connection_timeout (Loader.setDefaults c) <> 0
                 /\ 1 <= Loader.retry_attempts (Loader.setDefaults c)
                 /\ Loader.retry_initial_delay (Loader.setDefaults c) <> 0).
  { cbn. repeat split;
      match goal with
      | |- context [if ?t then _ else _] => destruct t eqn:E
      end; try lia;
      first [ apply Z.eqb_neq in E; exact E | apply Z.ltb_ge in E; exact E ]. }
  assert (Hid : forall d : Loader.tConfigFile,
             Loader.max_message_size d <> 0 ->
             Loader.max_connections d <> 0 ->
             Loader.connection_timeout d <> 0 ->
             1 <= Loader.retry_attempts d ->
             Loader.retry_initial_delay d <> 0 ->
             Loader.setDefaults d = d).
  { intros d H1 H2 H3 H4 H5. unfold Loader.setDefaults.
    apply Z.eqb_neq in H1, H2, H3, H5. rewrite H1, H2, H3, H5.
    replace (Loader.retry_attempts d <? 1) with false
      by (symmetry; apply Z.ltb_ge; lia).
    destruct d; reflexivity. }
  split; [exact Hinv|]. split; [apply Hid|].
  destruct Hinv as (H1 & H2 & H3 & H4 & H5). now apply Hid.
Qed.

(** A file without the stability keys gets the defaults; a negative delay
    is kept. *)
Lemma setDefaults_fills_the_gaps_witness :
  Loader.setDefaults
    {| Loader.log := ""; Loader.log_level := "info";
       Loader.listen_addr := "127.0.0.1:2526";
       Loader.oauth2_config :=
         {| Loader.client_id := "id"; Loader.client_secret := "s";
            Loader.tenant_id := "t";
            Loader.scopes := ["https://graph.microsoft.com/.default"] |};
       Loader.fallback_smtp_user := ""; Loader.fallback_smtp_pass := "";
       Loader.save_to_sent := false;
       Loader.max_message_size := 0; Loader.max_connections := 0;
       Loader.connection_timeout := 0; Loader.strict_attachments := false;
       Loader.retry_attempts := 0; Loader.retry_initial_delay := -1 |}
  = {| Loader.log := ""; Loader.log_level := "info";
       Loader.listen_addr := "127.0.0.1:2526";
       Loader.oauth2_config :=
         {| Loader.client_id := "id"; Loader.client_secret := "s";
            Loader.tenant_id := "t";
            Loader.scopes := ["https://graph.microsoft.com/.default"] |};
       Loader.fallback_smtp_user := ""; Loader.fallback_smtp_pass := "";
       Loader.save_to_sent := false;
       Loader.max_message_size := 26214400; Loader.max_connections := 100;
       Loader.connection_timeout := 300; Loader.strict_attachments := false;
       Loader.retry_attempts := 3; Loader.retry_initial_delay := -1 |}
  /\ 1 <= Loader.retry_attempts
            (Loader.setDefaults
               {| Loader.log := ""; Loader.log_level := "info";
                  Loader.listen_addr := "127.0.0.1:2526";
                  Loader.oauth2_config :=
                    {| Loader.client_id := "id"; Loader.client_secret := "s";
                       Loader.tenant_id := "t";
                       Loader.scopes :=
                         ["https://graph.microsoft.com/.default"] |};
                  Loader.fallback_smtp_user := "";
                  Loader.fallback_smtp_pass := "";
                  Loader.save_to_sent := false;
                  Loader.max_message_size := 0; Loader.max_connections := 0;
                  Loader.connection_timeout := 0;
                  Loader.strict_attachments := false;
                  Loader.retry_attempts := 0;
                  Loader.retry_initial_delay := -1 |}).
Proof.
  split; [reflexivity|].
  apply (setDefaults_fills_the_gaps
           {| Loader.log := ""; Loader.log_level := "info";
              Loader.listen_addr := "127.0.0.1:2526";
              Loader.oauth2_config :=
                {| Loader.client_id := "id"; Loader.client_secret := "s";
                   Loader.tenant_id := "t";
                   Loader.scopes := ["https://graph.microsoft.com/.default"] |};
              Loader.fallback_smtp_user := ""; Loader.fallback_smtp_pass := "";
              Loader.save_to_sent := false;
              Loader.max_message_size := 0; Loader.max_connections := 0;
              Loader.connection_timeout := 0;
              Loader.strict_attachments := false;
              Loader.retry_attempts := 0;
              Loader.retry_initial_delay := -1 |}).
Defined.

(** X8.  With a configuration that went through the defaults the executor makes
    at least one attempt, so the submitter never meets a nil response: it
    panics only when the executor does, in the jitter. *)
Theorem loaded_configuration_panics_in_the_jitter_only :
  forall (c : Loader.tConfigFile) (up : GraphUpstream),
    sendMailGraphAPI (Loader.forSMTP (Loader.setDefaults c)) up = SendPanic ->
    doWithRetry (attempts up)
      (getRetryConfig (Loader.forSMTP (Loader.setDefaults c)))
    = RetryPanic.
Proof.
  intros c up. unfold sendMailGraphAPI.
  destruct (requestErr up); [discriminate|].
  destruct (doWithRetry (attempts up)
              (getRetryConfig (Loader.forSMTP (Loader.setDefaults c))))
    as [|r e] eqn:Hretry; [reflexivity|].
  destruct e as [e|]; [destruct r; discriminate|].
  destruct (doWithRetry_returns_a_final_response _ _ _ Hretry)
    as [(-> & Hmax)|(a & r' & Ha & -> & Hdo & _)].
  - exfalso. pose proof (setDefaults_retry_attempts c) as H.
    cbn in Hmax. cbn in H. lia.
  - destruct (StatusCode r' >=? 300); [|discriminate].
    destruct (ReadAll (Body r')); discriminate.
Qed.

(** A delay of -1 ms in the file: the first retry panics. *)
Lemma loaded_configuration_panics_in_the_jitter_only_witness :
  sendMailGraphAPI
    (Loader.forSMTP
       (Loader.setDefaults
          {| Loader.log := ""; Loader.log_level := "";
             Loader.listen_addr := "";
             Loader.oauth2_config :=
               {| Loader.client_id := ""; Loader.client_secret := "";
                  Loader.tenant_id := ""; Loader.scopes := [] |};
             Loader.fallback_smtp_user := ""; Loader.fallback_smtp_pass := "";
             Loader.save_to_sent := false;
             Loader.max_message_size := 0; Loader.max_connections := 0;
             Loader.connection_timeout := 0;
             Loader.strict_attachments := false;
             Loader.retry_attempts := 0;
             Loader.retry_initial_delay := -1 |}))
    {| requestErr := None; attempts := fun _ => unreachable |}
  = SendPanic
  /\ doWithRetry (fun _ => unreachable)
       (getRetryConfig
          (Loader.forSMTP
             (Loader.setDefaults
                {| Loader.log := ""; Loader.log_level := "";
                   Loader.listen_addr := "";
                   Loader.oauth2_config :=
                     {| Loader.client_id := ""; Loader.client_secret := "";
                        Loader.tenant_id := ""; Loader.scopes := [] |};
                   Loader.fallback_smtp_user := "";
                   Loader.fallback_smtp_pass := "";
                   Loader.save_to_sent := false;
                   Loader.max_message_size := 0; Loader.max_connections := 0;
                   Loader.connection_timeout := 0;
                   Loader.strict_attachments := false;
                   Loader.retry_attempts := 0;
                   Loader.retry_initial_delay := -1 |})))
     = RetryPanic.
Proof.
  split; [reflexivity|].
  apply (loaded_configuration_panics_in_the_jitter_only _
           {| requestErr := None; attempts := fun _ => unreachable |}).
  reflexivity.
Defined.

(** ** The token cache *)

Lemma cachedValid_after_store (cache : gmap string cachedToken)
    (user tok : string) (expiry now : Time) :
  cachedValid
    {| TokenCache := <[user := {| token := tok; expiresAt := expiry |}]> cache;
       Now := now |} user
  = if now <? expiry then Some tok else None.
Proof.
  unfold cachedValid. cbn [TokenCache Now].
  rewrite lookup_insert_eq. reflexivity.
Qed.

(** X9.  A token fetched at [Now w] with a lifetime of [expiresIn] seconds is
    served from the cache at every instant before [Now w + (expiresIn - 60)
    s] and at no other: a lookup at or after that instant misses, and for a
    lifetime of 60 s or less the stored token is never served. *)
Theorem fetched_token_is_served_until_60s_before_its_expiry :
  forall (env : Env) (w : World) (user pass tok : string) (expiresIn : Z)
         (later : Time),
    cachedValid w user = None ->
    getOAuth2TokenWithExpiry env user pass = inl (tok, expiresIn) ->
    0 <= expiresIn < 2 ^ 32 ->
    cachedValid
      {| TokenCache := TokenCache (snd (getCachedOAuth2Token env w user pass));
         Now := later |} user
    = if later <? Now w + (expiresIn - 60) * Second then Some tok else None.
Proof.
  intros env w user pass tok expiresIn later Hc Hf Hrange.
  unfold getCachedOAuth2Token. rewrite Hc, Hf. cbn [snd TokenCache].
  rewrite cachedValid_after_store.
  now rewrite (cacheLifetime_small expiresIn Hrange).
Qed.

(** A token granted for an hour, looked up half an hour later. *)
Lemma fetched_token_is_served_until_60s_before_its_expiry_witness :
  cachedValid cold "user@ex.com" = None
  /\ getOAuth2TokenWithExpiry (scripted 26214400 3600 "{..}" 202 "")
       "user@ex.com" "secret" = inl ("tok", 3600)
  /\ 0 <= 3600 < 2 ^ 32
  /\ cachedValid
       {| TokenCache :=
            TokenCache
              (snd (getCachedOAuth2Token (scripted 26214400 3600 "{..}" 202 "")
                      cold "user@ex.com" "secret"));
          Now := Now cold + 1800 * Second |} "user@ex.com"
     = if Now cold + 1800 * Second <? Now cold + (3600 - 60) * Second
       then Some "tok" else None.
Proof.
  split; [reflexivity|]. split; [reflexivity|]. split; [lia|].
  apply (fetched_token_is_served_until_60s_before_its_expiry
           (scripted 26214400 3600 "{..}" 202 "") cold
           "user@ex.com" "secret" "tok" 3600 (Now cold + 1800 * Second));
    [reflexivity | reflexivity | lia].
Defined.

(** X10.  A call of the cache changes at most the entry of its user, and that
    only when it fetched a token; it leaves the clock alone, and a call that
    returns an error leaves the whole cache as it was. *)
Theorem getCachedOAuth2Token_touches_its_user_only :
  forall (env : Env) (w : World) (user pass : string),
    Now (snd (getCachedOAuth2Token env w user pass)) = Now w
    /\ (forall other, other <> user ->
          TokenCache (snd (getCachedOAuth2Token env w user pass)) !! other
          = TokenCache w !! other)
    /\ (forall e, fst (getCachedOAuth2Token env w user pass) = inr e ->
          snd (getCachedOAuth2Token env w user pass) = w)
    /\ (forall t, cachedValid w user = Some t ->
          getCachedOAuth2Token env w user pass = (inl t, w)).
Proof.
  intros env w user pass. unfold getCachedOAuth2Token.
  destruct (cachedValid w user) as [t|] eqn:Hc.
  - cbn [fst snd]. repeat split; try reflexivity; try discriminate.
    intros t' [= <-]. reflexivity.
  - destruct (getOAuth2TokenWithExpiry env user pass) as [[tok expiresIn]|err].
    + cbn [fst snd Now TokenCache]. repeat split; try discriminate.
      intros other Hne. apply lookup_insert_ne. congruence.
    + cbn [fst snd]. repeat split; try reflexivity; discriminate.
Qed.

Lemma getOAuth2TokenWithExpiry_token (env : Env) (user pass tok : string)
    (expiresIn : Z) :
  getOAuth2TokenWithExpiry env user pass = inl (tok, expiresIn) ->
  tok <> "".
Proof.
  unfold getOAuth2TokenWithExpiry.
  destruct (tokenEndpoint env user pass) as [e|e|e|body]; try discriminate.
  destruct (Unmarshal (lib env) body) as [result|e]; [|discriminate].
  destruct (negb (String.eqb (Error result) "")); [discriminate|].
  destruct (String.eqb_spec (AccessToken result) "") as [E|E];
    [discriminate|].
  intros [= <- _]. exact E.
Qed.

(** X11.  The cache never takes in an empty token and never returns one: if no
    entry holds an empty token before a call, none does after it, and a
    token the call returns is not empty. *)
Theorem getCachedOAuth2Token_keeps_tokens_non_empty :
  forall (env : Env) (w : World) (user pass : string),
    noEmptyToken (TokenCache w) ->
    noEmptyToken (TokenCache (snd (getCachedOAuth2Token env w user pass)))
    /\ forall t, fst (getCachedOAuth2Token env w user pass) = inl t -> t <> "".
Proof.
  intros env w user pass Hinv. unfold getCachedOAuth2Token.
  destruct (cachedValid w user) as [t|] eqn:Hc.
  - cbn [fst snd]. split; [exact Hinv|]. intros t' [= <-].
    unfold cachedValid in Hc.
    destruct (TokenCache w !! user) as [entry|] eqn:Hl; [|discriminate].
    destruct (Now w <? expiresAt entry); [|discriminate].
    injection Hc as <-. exact (Hinv user entry Hl).
  - destruct (getOAuth2TokenWithExpiry env user pass)
      as [[tok expiresIn]|err] eqn:Hf.
    + pose proof (getOAuth2TokenWithExpiry_token _ _ _ _ _ Hf) as Htok.
      cbn [fst snd TokenCache]. split.
      * intros u entry Hl. destruct (decide (u = user)) as [->|Hne].
        -- rewrite lookup_insert_eq in Hl. injection Hl as <-. exact Htok.
        -- rewrite lookup_insert_ne in Hl by congruence.
           exact (Hinv u entry Hl).
      * intros t [= <-]. exact Htok.
    + cbn [fst snd]. split; [exact Hinv|]. discriminate.
Qed.

Lemma getCachedOAuth2Token_keeps_tokens_non_empty_witness :
  noEmptyToken (TokenCache cold)
  /\ noEmptyToken
       (TokenCache
          (snd (getCachedOAuth2Token (scripted 26214400 3600 "{..}" 202 "")
                  cold "user@ex.com" "secret"))).
Proof.
  assert (H : noEmptyToken (TokenCache cold)).
  { intros u entry Hl. cbn in Hl. rewrite lookup_empty in Hl. discriminate. }
  split; [exact H|].
  apply (getCachedOAuth2Token_keeps_tokens_non_empty
           (scripted 26214400 3600 "{..}" 202 "") cold
           "user@ex.com" "secret" H).
Defined.

(** A fetch for one user leaves the entry of another as it is. *)
Lemma getCachedOAuth2Token_touches_its_user_only_witness :
  "other@ex.com" <> "user@ex.com"
  /\ TokenCache
       (snd (getCachedOAuth2Token (scripted 26214400 3600 "{..}" 202 "")
               {| TokenCache :=
                    {[ "other@ex.com" :=
                         {| token := "t0"; expiresAt := Now cold + Second |} ]};
                  Now := Now cold |}
               "user@ex.com" "secret")) !! "other@ex.com"
     = Some {| token := "t0"; expiresAt := Now cold + Second |}.
Proof.
  split; [discriminate|].
  rewrite (proj1 (proj2 (getCachedOAuth2Token_touches_its_user_only
                           (scripted 26214400 3600 "{..}" 202 "")
                           {| TokenCache :=
                                {[ "other@ex.com" :=
                                     {| token := "t0";
                                        expiresAt := Now cold + Second |} ]};
                              Now := Now cold |}
                           "user@ex.com" "secret"))
             "other@ex.com" ltac:(discriminate)).
  reflexivity.
Defined.

(** ** The cleanup of the token cache *)

Lemma cleanup_fold (now : Time) (cache0 : gmap string cachedToken) (d0 : Z)
    (m : gmap string cachedToken) :
  let r :=
    map_fold
      (fun key tok acc =>
         if now >? expiresAt tok then (delete key (fst acc), snd acc + 1)
         else acc)
      (cache0, d0) m in
  (forall key,
     fst r !! key
     = match m !! key with
       | Some tok => if now >? expiresAt tok then None else cache0 !! key
       | None => cache0 !! key
       end)
  /\ snd r = d0 + Z.of_nat (expiredEntries now m).
Proof.
  cbv zeta.
  apply (map_fold_weak_ind
           (fun r m =>
              (forall key,
                 fst r !! key
                 = match m !! key with
                   | Some tok =>
                       if now >? expiresAt tok then None else cache0 !! key
                   | None => cache0 !! key
                   end)
              /\ snd r = d0 + Z.of_nat (expiredEntries now m))).
  - split.
    + intros key. now rewrite lookup_empty.
    + unfold expiredEntries. rewrite map_filter_empty, map_size_empty.
      cbn [snd]. lia.
  - intros i x m0 r Hi [Hl Hd]. unfold expiredEntries in *.
    destruct (now >? expiresAt x) eqn:E.
    + assert (Hlt : expiresAt x < now)
        by (rewrite Z.gtb_ltb in E; apply Z.ltb_lt in E; exact E).
      cbn [fst snd]. split.
      * intros key. destruct (decide (key = i)) as [->|Hne].
        -- now rewrite lookup_delete_eq, lookup_insert_eq, E.
        -- rewrite lookup_delete_ne, lookup_insert_ne by congruence.
           apply Hl.
      * rewrite map_filter_insert_True by exact Hlt.
        rewrite map_size_insert_None
          by (apply map_lookup_filter_None; left; exact Hi).
        lia.
    + assert (Hge : ~ expiresAt x < now)
        by (rewrite Z.gtb_ltb in E; apply Z.ltb_ge in E; lia).
      split.
      * intros key. destruct (decide (key = i)) as [->|Hne].
        -- rewrite lookup_insert_eq, E. rewrite Hl, Hi. reflexivity.
        -- rewrite lookup_insert_ne by congruence. apply Hl.
      * rewrite map_filter_insert_not'
          by (first [ exact Hge | intros y Hy; rewrite Hi in Hy; discriminate ]).
        exact Hd.
Qed.

(** X12.  One tick of the cleanup deletes exactly the entries that [now] is
    after and returns their number.  What the cache serves at that instant
    is not changed: every deleted entry had expired. *)
Theorem cleanupTick_deletes_the_expired_entries :
  forall (now : Time) (cache : gmap string cachedToken),
    (forall key,
       fst (cleanupTick now cache) !! key
       = match cache !! key with
         | Some tok => if now >? expiresAt tok then None else Some tok
         | None => None
         end)
    /\ snd (cleanupTick now cache) = Z.of_nat (expiredEntries now cache)
    /\ forall user,
         cachedValid {| TokenCache := fst (cleanupTick now cache); Now := now |}
           user
         = cachedValid {| TokenCache := cache; Now := now |} user.
Proof.
  intros now cache.
  destruct (cleanup_fold now cache 0 cache) as [Hl Hd].
  fold (cleanupTick now cache) in Hl, Hd.
  assert (Hlookup : forall key,
             fst (cleanupTick now cache) !! key
             = match cache !! key with
               | Some tok => if now >? expiresAt tok then None else Some tok
               | None => None
               end).
  { intros key. rewrite Hl. destruct (cache !! key) as [tok|]; reflexivity. }
  split; [exact Hlookup|]. split; [rewrite Hd; lia|].
  intros user. unfold cachedValid. cbn [TokenCache Now]. rewrite Hlookup.
  destruct (cache !! user) as [tok|]; [|reflexivity].
  destruct (now >? expiresAt tok) eqn:E; [|reflexivity].
  rewrite Z.gtb_ltb in E. apply Z.ltb_lt in E.
  replace (now <? expiresAt tok) with false
    by (symmetry; apply Z.ltb_ge; lia).
  reflexivity.
Qed.

(** ** The session: authentication *)

Lemma authVerify_effect (env : Env) (w : World) (st : Session)
    (pre : list string) (rest : list ReadEvent) :
  mailFrom (session (authVerify env w st pre rest)) = mailFrom st
  /\ rcptTo (session (authVerify env w st pre rest)) = rcptTo st
  /\ (authenticated (session (authVerify env w st pre rest))
      = authenticated st
      \/ (authenticated (session (authVerify env w st pre rest)) = true
          /\ next (authVerify env w st pre rest) = Continue
          /\ exists tok,
               fst (getCachedOAuth2Token env w
                      (username (session (authVerify env w st pre rest)))
                      (password (session (authVerify env w st pre rest))))
               = inl tok
               /\ replies (authVerify env w st pre rest) = pre ++ [ok235])).
Proof.
  unfold authVerify.
  destruct ((String.eqb (username st) "" || String.eqb (password st) "")
            && (String.eqb (FallbackSMTPuser (config env)) ""
                || String.eqb (FallbackSMTPpass (config env)) ""));
    [cbn; auto|].
  set (st' := if String.eqb (username st) "" || String.eqb (password st) ""
              then setPassword
                     (setUsername st (FallbackSMTPuser (config env)))
                     (FallbackSMTPpass (config env))
              else st).
  assert (Hst : mailFrom st' = mailFrom st /\ rcptTo st' = rcptTo st
                /\ authenticated st' = authenticated st).
  { subst st'. destruct (String.eqb (username st) "" || _); cbn; auto. }
  destruct Hst as (Hm & Hr & Ha).
  destruct (getCachedOAuth2Token env w (username st') (password st'))
    as [[tok|e] w'] eqn:Htok; cbn [session next replies].
  - split; [exact Hm|]. split; [exact Hr|]. right.
    split; [reflexivity|]. split; [reflexivity|].
    exists tok. cbn [username password setAuthenticated].
    rewrite Htok. split; reflexivity.
  - split; [exact Hm|]. split; [exact Hr|]. left. exact Ha.
Qed.

Lemma authLogin_effect (env : Env) (w : World) (st : Session)
    (line : string) (rest : list ReadEvent) :
  authEffect env w st (authLogin env w st line rest).
Proof.
  assert (Hverify : forall st0 pre r,
             mailFrom st0 = mailFrom st -> rcptTo st0 = rcptTo st ->
             authenticated st0 = authenticated st ->
             authEffect env w st (authVerify env w st0 pre r)).
  { intros st0 pre r Hm Hr Ha.
    destruct (authVerify_effect env w st0 pre r) as (Hm' & Hr' & H).
    split; [congruence|]. split; [congruence|].
    destruct H as [H|(H1 & H2 & tok & H3 & H4)]; [left; congruence|].
    right. split; [exact H1|]. split; [exact H2|]. exists tok, pre.
    split; assumption. }
  assert (Hsame : forall out n st0 r w0,
             mailFrom st0 = mailFrom st -> rcptTo st0 = rcptTo st ->
             authenticated st0 = authenticated st ->
             authEffect env w st
               {| replies := out; next := n; session := st0; unread := r;
                  world := w0 |}).
  { intros out n st0 r w0 Hm Hr Ha. split; [exact Hm|]. split; [exact Hr|].
    left. exact Ha. }
  assert (Hpass : forall st0 pre r,
             mailFrom st0 = mailFrom st -> rcptTo st0 = rcptTo st ->
             authenticated st0 = authenticated st ->
             authEffect env w st (authPassword env w st0 pre r)).
  { intros st0 pre r Hm Hr Ha. unfold authPassword, ReadString.
    destruct r as [|[l| |] r]; try (apply Hsame; assumption).
    destruct (decodeBase64WithError (lib env) (TrimSpace l)) as [p [e|]].
    - apply Hsame; assumption.
    - apply Hverify; assumption. }
  assert (Huser : forall pre u r,
             authEffect env w st (authUsername env w st pre u r)).
  { intros pre u r. unfold authUsername.
    destruct (decodeBase64WithError (lib env) (TrimSpace u)) as [x [e|]].
    - apply Hsame; reflexivity.
    - apply Hpass; reflexivity. }
  unfold authLogin, ReadString.
  destruct (Fields line) as [|f1 [|f2 [|f3 [|f4 fs]]]];
    try apply Huser;
    (destruct rest as [|[l| |] rest];
     [apply Hsame; reflexivity | apply Huser
     | apply Hsame; reflexivity | apply Hsame; reflexivity]).
Qed.

Lemma continueLoop_session (pre : list string) (line : string)
    (st : Session) (rest : list ReadEvent) (w : World) :
  session (continueLoop pre line st rest w) = st
  \/ session (continueLoop pre line st rest w) = resetEnvelope st.
Proof. unfold continueLoop. split_ifs; auto. Qed.

Lemma deliver_session (env : Env) (w : World) (st : Session) (buf : string)
    (rest : list ReadEvent) :
  session (deliver env w st buf rest) = st
  \/ session (deliver env w st buf rest) = resetEnvelope st.
Proof. unfold deliver. split_ifs; auto. Qed.

Lemma dataCommand_session (env : Env) (w : World) (st : Session)
    (line : string) (rest : list ReadEvent) :
  session (dataCommand env w st line rest) = st
  \/ session (dataCommand env w st line rest) = resetEnvelope st.
Proof.
  unfold dataCommand.
  destruct (Z.of_nat (List.length (rcptTo st)) =? 0); [now left|].
  destruct (readData _ rest 0 "") as [r|buf r|size r].
  - now left.
  - apply deliver_session.
  - right. destruct (continueLoop_session
                       [prompt354;
                        reply ("552 5.3.4 Message too large (max "
                               +:+ itoa (MaxMessageSize (config env))
                               +:+ " bytes)")]
                       line (resetEnvelope st) (drain r) w) as [-> | ->];
      reflexivity.
Qed.

(** What one turn of the command loop does to a session. *)
Lemma handleCommand_effect (env : Env) (w : World) (st : Session)
    (line : string) (rest : list ReadEvent) :
  authEffect env w st (handleCommand env w st line rest)
  \/ (authenticated st = true
      /\ username (session (handleCommand env w st line rest)) = username st
      /\ password (session (handleCommand env w st line rest)) = password st
      /\ authenticated (session (handleCommand env w st line rest)) = true
      /\ (session (handleCommand env w st line rest) = resetEnvelope st
          \/ rcptTo (session (handleCommand env w st line rest)) = rcptTo st
          \/ (mailFrom (session (handleCommand env w st line rest))
              = mailFrom st
              /\ exists a,
                   isValidEmail a = true
                   /\ rcptTo (session (handleCommand env w st line rest))
                      = rcptTo st ++ [a]))).
Proof.
  assert (Hsame : forall out n r w0,
             authEffect env w st
               {| replies := out; next := n; session := st; unread := r;
                  world := w0 |}).
  { intros. split; [reflexivity|]. split; [reflexivity|]. now left. }
  unfold handleCommand.
  destruct (len line >? 512); [left; apply Hsame|].
  destruct (String.eqb (TrimRight line CRLF) ""); [left; apply Hsame|].
  destruct (HasPrefix (ToUpper (TrimRight line CRLF)) "EHLO"
            || HasPrefix (ToUpper (TrimRight line CRLF)) "HELO");
    [left; apply Hsame|].
  destruct (HasPrefix (ToUpper (TrimRight line CRLF)) "AUTH LOGIN");
    [left; apply authLogin_effect|].
  destruct (authenticated st) eqn:Ha; cbn [negb]; [|left; apply Hsame].
  right. split; [reflexivity|].
  destruct (HasPrefix (ToUpper (TrimRight line CRLF)) "MAIL FROM:").
  { destruct (String.eqb _ ""); cbn; rewrite Ha; auto 10. }
  destruct (HasPrefix (ToUpper (TrimRight line CRLF)) "RCPT TO:").
  { destruct (String.eqb (extractAddress (TrimRight line CRLF)) ""
              || negb (isValidEmail (extractAddress (TrimRight line CRLF))))
      eqn:E; cbn [session]; [rewrite Ha; auto 10|].
    apply orb_false_iff in E as [_ E]. apply negb_false_iff in E.
    cbn. rewrite Ha. repeat split; try reflexivity.
    right. right. split; [reflexivity|].
    exists (extractAddress (TrimRight line CRLF)). split; [exact E|reflexivity]. }
  destruct (HasPrefix (ToUpper (TrimRight line CRLF)) "DATA").
  { destruct (dataCommand_session env w st (TrimRight line CRLF) rest)
      as [-> | ->]; cbn; rewrite Ha; auto 10. }
  destruct (continueLoop_session [] (TrimRight line CRLF) st rest w)
    as [-> | ->]; cbn; rewrite Ha; auto 10.
Qed.

(** X13.  A session becomes authenticated in one way only: by a turn that
    obtained a token for the user name and password the session then
    holds, answered 235 and continues.  No turn clears the flag. *)
Theorem authentication_needs_a_token :
  forall (env : Env) (w : World) (st : Session) (line : string)
         (rest : list ReadEvent),
    (authenticated st = false ->
     authenticated (session (handleCommand env w st line rest)) = true ->
     next (handleCommand env w st line rest) = Continue
     /\ exists tok pre,
          fst (getCachedOAuth2Token env w
                 (username (session (handleCommand env w st line rest)))
                 (password (session (handleCommand env w st line rest))))
          = inl tok
          /\ replies (handleCommand env w st line rest) = pre ++ [ok235])
    /\ (authenticated st = true ->
        authenticated (session (handleCommand env w st line rest)) = true).
Proof.
  intros env w st line rest.
  destruct (handleCommand_effect env w st line rest)
    as [(_ & _ & [Hsame|(Ht & Hn & tok & pre & Htok & Hrep)])
       |(Ha & _ & _ & Ht & _)].
  - split; intros H1; [intros H2|]; congruence.
  - split; [|intros _; exact Ht].
    intros _ _. split; [exact Hn|]. exists tok, pre. split; assumption.
  - split; [intros H; congruence|intros _; exact Ht].
Qed.

Example base64_of_the_examples :
  Login.base64Decode "dXNlckBleC5jb20=" = inl "user@ex.com"
  /\ Login.base64Decode "c2VjcmV0" = inl "secret"
  /\ Login.base64Decode "d3Jvbmc=" = inl "wrong"
  /\ Login.base64Decode "" = inl "".
Proof. repeat split; reflexivity. Qed.

(** AUTH LOGIN of [user@ex.com] on a new session. *)
Lemma authentication_needs_a_token_witness :
  authenticated newSession = false
  /\ authenticated
       (session
          (handleCommand (Login.open "user@ex.com" "secret" "" "") cold
             newSession ("AUTH LOGIN" +:+ CRLF)
             (lines ["dXNlckBleC5jb20="; "c2VjcmV0"]))) = true
  /\ next
       (handleCommand (Login.open "user@ex.com" "secret" "" "") cold
          newSession ("AUTH LOGIN" +:+ CRLF)
          (lines ["dXNlckBleC5jb20="; "c2VjcmV0"])) = Continue.
Proof.
  split; [reflexivity|]. split; [reflexivity|].
  apply (proj1 (authentication_needs_a_token
                  (Login.open "user@ex.com" "secret" "" "") cold
                  newSession ("AUTH LOGIN" +:+ CRLF)
                  (lines ["dXNlckBleC5jb20="; "c2VjcmV0"]))
           eq_refl eq_refl).
Defined.

(** X14.  The session invariants: the recipients of a session all passed the
    validity check, and as long as the client is not authenticated the
    envelope is empty. *)
Theorem reachable_sessions_have_a_sound_envelope :
  forall (env : Env) (st : Session),
    reachable env st ->
    Forall (fun a => isValidEmail a = true) (rcptTo st)
    /\ (authenticated st = false -> mailFrom st = "" /\ rcptTo st = []).
Proof.
  intros env st H. induction H as [|st w line rest _ [IHv IHe] _].
  - split; [constructor|]. intros _. split; reflexivity.
  - destruct (handleCommand_effect env w st line rest)
      as [(Hm & Hr & Hauth)|(Ha & _ & _ & Ht & Henv)].
    + rewrite Hm, Hr. split; [exact IHv|].
      intros Hf. apply IHe.
      destruct Hauth as [Hsame|(Ht & _)]; congruence.
    + split; [|intros Hf; congruence].
      destruct Henv as [-> |[-> |(_ & a & Hv & ->)]].
      * constructor.
      * exact IHv.
      * apply Forall_app. split; [exact IHv|]. constructor; [exact Hv|constructor].
Qed.

(** After AUTH LOGIN and two RCPT TO, one of them invalid. *)
Lemma reachable_sessions_have_a_sound_envelope_witness :
  reachable (Login.open "user@ex.com" "secret" "" "")
    (session
       (handleCommand (Login.open "user@ex.com" "secret" "" "") cold
          (session
             (handleCommand (Login.open "user@ex.com" "secret" "" "") cold
                (session
                   (handleCommand (Login.open "user@ex.com" "secret" "" "")
                      cold newSession ("AUTH LOGIN" +:+ CRLF)
                      (lines ["dXNlckBleC5jb20="; "c2VjcmV0"])))
                ("RCPT TO:<r@x.y>" +:+ CRLF) []))
          ("RCPT TO:<nodomain>" +:+ CRLF) []))
  /\ Forall (fun a => isValidEmail a = true) ["r@x.y"].
Proof.
  assert (H : reachable (Login.open "user@ex.com" "secret" "" "")
                (session
                   (handleCommand (Login.open "user@ex.com" "secret" "" "")
                      cold
                      (session
                         (handleCommand
                            (Login.open "user@ex.com" "secret" "" "") cold
                            (session
                               (handleCommand
                                  (Login.open "user@ex.com" "secret" "" "")
                                  cold newSession ("AUTH LOGIN" +:+ CRLF)
                                  (lines ["dXNlckBleC5jb20="; "c2VjcmV0"])))
                            ("RCPT TO:<r@x.y>" +:+ CRLF) []))
                      ("RCPT TO:<nodomain>" +:+ CRLF) []))).
  { apply reachable_turn; [|reflexivity].
    apply reachable_turn; [|reflexivity].
    apply reachable_turn; [|reflexivity].
    apply reachable_new. }
  split; [exact H|].
  exact (proj1 (reachable_sessions_have_a_sound_envelope _ _ H)).
Defined.

(** The AUTH LOGIN exchange with prompts, up to the verification of the
    decoded values. *)
Lemma auth_login_reaches_verify (env : Env) (w : World) (st : Session)
    (rest : list ReadEvent) (userB64 passB64 user pass : string) :
  DecodeString (lib env) (TrimSpace userB64) = inl user ->
  DecodeString (lib env) (TrimSpace passB64) = inl pass ->
  handleCommand env w st ("AUTH LOGIN" +:+ CRLF)
    (Line userB64 :: Line passB64 :: rest)
  = authVerify env w (setPassword (setUsername st user) pass)
      ([reply "334 VXNlcm5hbWU6"] ++ [reply "334 UGFzc3dvcmQ6"]) rest.
Proof.
  intros Hu Hp.
  assert (H : isCommand ("AUTH LOGIN" +:+ CRLF) "AUTH LOGIN" = true)
    by reflexivity.
  dispatch H.
  change (TrimRight ("AUTH LOGIN" +:+ CRLF) CRLF) with "AUTH LOGIN".
  unfold authLogin. change (Fields "AUTH LOGIN") with ["AUTH"; "LOGIN"].
  cbn [ReadString]. unfold authUsername, decodeBase64WithError.
  rewrite Hu. unfold authPassword. cbn [ReadString].
  unfold decodeBase64WithError. rewrite Hp. reflexivity.
Qed.

(** X15.  While the cache holds a token of a user that has not expired, AUTH
    LOGIN under that user name succeeds with any password that is not
    empty: the token endpoint is not asked and the world is unchanged. *)
Theorem cached_token_admits_any_password :
  forall (env : Env) (w : World) (st : Session) (rest : list ReadEvent)
         (userB64 passB64 user pass t : string),
    DecodeString (lib env) (TrimSpace userB64) = inl user ->
    DecodeString (lib env) (TrimSpace passB64) = inl pass ->
    user <> "" ->
    pass <> "" ->
    cachedValid w user = Some t ->
    handleCommand env w st ("AUTH LOGIN" +:+ CRLF)
      (Line userB64 :: Line passB64 :: rest)
    = {| replies := [reply "334 VXNlcm5hbWU6"; reply "334 UGFzc3dvcmQ6"; ok235];
         next := Continue;
         session := {| username := user; password := pass;
                       authenticated := true;
                       mailFrom := mailFrom st; rcptTo := rcptTo st |};
         unread := rest; world := w |}.
Proof.
  intros env w st rest userB64 passB64 user pass t Hu Hp Hune Hpne Hc.
  rewrite (auth_login_reaches_verify env w st rest userB64 passB64 user pass
             Hu Hp).
  unfold authVerify. cbn [username password setUsername setPassword].
  destruct (String.eqb_spec user ""); [contradiction|].
  destruct (String.eqb_spec pass ""); [contradiction|].
  cbn [orb andb].
  change (username (setPassword (setUsername st user) pass)) with user.
  change (password (setPassword (setUsername st user) pass)) with pass.
  unfold getCachedOAuth2Token. rewrite Hc. reflexivity.
Qed.

(** The endpoint grants tokens for the password [secret] only; with a
    token of the user in the cache, the password [wrong] is accepted. *)
Lemma cached_token_admits_any_password_witness :
  getOAuth2TokenWithExpiry (Login.open "user@ex.com" "secret" "" "")
    "user@ex.com" "wrong" = inr "token request failed: invalid_grant"
  /\ cachedValid
       {| TokenCache :=
            {[ "user@ex.com" :=
                 {| token := "tok"; expiresAt := Now cold + 3540 * Second |} ]};
          Now := Now cold |} "user@ex.com" = Some "tok"
  /\ replies
       (handleCommand (Login.open "user@ex.com" "secret" "" "")
          {| TokenCache :=
               {[ "user@ex.com" :=
                    {| token := "tok";
                       expiresAt := Now cold + 3540 * Second |} ]};
             Now := Now cold |}
          newSession ("AUTH LOGIN" +:+ CRLF)
          [Line ("dXNlckBleC5jb20=" +:+ CRLF); Line ("d3Jvbmc=" +:+ CRLF)])
     = [reply "334 VXNlcm5hbWU6"; reply "334 UGFzc3dvcmQ6"; ok235].
Proof.
  split; [reflexivity|]. split; [reflexivity|].
  rewrite (cached_token_admits_any_password
             (Login.open "user@ex.com" "secret" "" "")
             {| TokenCache :=
                  {[ "user@ex.com" :=
                       {| token := "tok";
                          expiresAt := Now cold + 3540 * Second |} ]};
                Now := Now cold |}
             newSession [] ("dXNlckBleC5jb20=" +:+ CRLF) ("d3Jvbmc=" +:+ CRLF)
             "user@ex.com" "wrong" "tok");
    try reflexivity; discriminate.
Defined.

(** X16.  When the decoded user name or password is empty, the values the
    client sent are dropped: without both fallback credentials configured
    the reply is 535 and the handler returns; with them the token is
    requested for the fallback pair and, when it is obtained, the session
    is authenticated as the fallback user. *)
Theorem empty_credentials_fall_back :
  forall (env : Env) (w : World) (st : Session) (rest : list ReadEvent)
         (userB64 passB64 user pass : string),
    DecodeString (lib env) (TrimSpace userB64) = inl user ->
    DecodeString (lib env) (TrimSpace passB64) = inl pass ->
    user = "" \/ pass = "" ->
    (FallbackSMTPuser (config env) = "" \/ FallbackSMTPpass (config env) = "" ->
     handleCommand env w st ("AUTH LOGIN" +:+ CRLF)
       (Line userB64 :: Line passB64 :: rest)
     = {| replies := [reply "334 VXNlcm5hbWU6"; reply "334 UGFzc3dvcmQ6";
                      reply "535 5.7.8 Authentication credentials invalid"];
          next := Return;
          session := setPassword (setUsername st user) pass;
          unread := rest; world := w |})
    /\ (FallbackSMTPuser (config env) <> "" ->
        FallbackSMTPpass (config env) <> "" ->
        forall tok w',
          getCachedOAuth2Token env w (FallbackSMTPuser (config env))
            (FallbackSMTPpass (config env)) = (inl tok, w') ->
          handleCommand env w st ("AUTH LOGIN" +:+ CRLF)
            (Line userB64 :: Line passB64 :: rest)
          = {| replies := [reply "334 VXNlcm5hbWU6"; reply "334 UGFzc3dvcmQ6";
                           ok235];
               next := Continue;
               session := {| username := FallbackSMTPuser (config env);
                             password := FallbackSMTPpass (config env);
                             authenticated := true;
                             mailFrom := mailFrom st; rcptTo := rcptTo st |};
               unread := rest; world := w' |}).
Proof.
  intros env w st rest userB64 passB64 user pass Hu Hp Hempty.
  rewrite (auth_login_reaches_verify env w st rest userB64 passB64 user pass
             Hu Hp).
  unfold authVerify.
  change (username (setPassword (setUsername st user) pass)) with user.
  change (password (setPassword (setUsername st user) pass)) with pass.
  assert (Hmiss : String.eqb user "" || String.eqb pass "" = true).
  { destruct Hempty as [-> | ->]; [reflexivity|apply orb_true_r]. }
  rewrite Hmiss. cbn [andb]. split.
  - intros Hfb.
    assert (E : String.eqb (FallbackSMTPuser (config env)) ""
                || String.eqb (FallbackSMTPpass (config env)) "" = true).
    { destruct Hfb as [-> | ->]; [reflexivity|apply orb_true_r]. }
    rewrite E. reflexivity.
  - intros Hfu Hfp tok w' Htok.
    destruct (String.eqb_spec (FallbackSMTPuser (config env)) "");
      [contradiction|].
    destruct (String.eqb_spec (FallbackSMTPpass (config env)) "");
      [contradiction|].
    cbn [orb].
    change (username
              (setPassword
                 (setUsername (setPassword (setUsername st user) pass)
                    (FallbackSMTPuser (config env)))
                 (FallbackSMTPpass (config env))))
      with (FallbackSMTPuser (config env)).
    change (password
              (setPassword
                 (setUsername (setPassword (setUsername st user) pass)
                    (FallbackSMTPuser (config env)))
                 (FallbackSMTPpass (config env))))
      with (FallbackSMTPpass (config env)).
    rewrite Htok. reflexivity.
Qed.

(** A client that sends [alice@ex.com] with an empty password is logged in
    as the fallback user. *)
Lemma empty_credentials_fall_back_witness :
  DecodeString (lib (Login.open "fallback@ex.com" "fbpass"
                       "fallback@ex.com" "fbpass"))
    (TrimSpace ("YWxpY2VAZXguY29t" +:+ CRLF)) = inl "alice@ex.com"
  /\ DecodeString (lib (Login.open "fallback@ex.com" "fbpass"
                          "fallback@ex.com" "fbpass"))
       (TrimSpace CRLF) = inl ""
  /\ session
       (handleCommand
          (Login.open "fallback@ex.com" "fbpass" "fallback@ex.com" "fbpass")
          cold newSession ("AUTH LOGIN" +:+ CRLF)
          [Line ("YWxpY2VAZXguY29t" +:+ CRLF); Line CRLF])
     = {| username := "fallback@ex.com"; password := "fbpass";
          authenticated := true; mailFrom := ""; rcptTo := [] |}.
Proof.
  split; [reflexivity|]. split; [reflexivity|].
  rewrite (proj2 (empty_credentials_fall_back
                    (Login.open "fallback@ex.com" "fbpass"
                       "fallback@ex.com" "fbpass")
                    cold newSession [] ("YWxpY2VAZXguY29t" +:+ CRLF) CRLF
                    "alice@ex.com" "" eq_refl eq_refl (or_intror eq_refl))
             ltac:(discriminate) ltac:(discriminate) "tok"
             (snd (getCachedOAuth2Token
                     (Login.open "fallback@ex.com" "fbpass"
                        "fallback@ex.com" "fbpass")
                     cold "fallback@ex.com" "fbpass")) eq_refl).
  reflexivity.
Defined.

(** AUTH LOGIN with prompts of [user@ex.com] and [secret]. *)
Lemma auth_login_authenticates_witness :
  DecodeString (lib (Login.open "user@ex.com" "secret" "" ""))
    (TrimSpace ("dXNlckBleC5jb20=" +:+ CRLF)) = inl "user@ex.com"
  /\ DecodeString (lib (Login.open "user@ex.com" "secret" "" ""))
       (TrimSpace ("c2VjcmV0" +:+ CRLF)) = inl "secret"
  /\ session
       (handleCommand (Login.open "user@ex.com" "secret" "" "") cold
          newSession ("AUTH LOGIN" +:+ CRLF)
          [Line ("dXNlckBleC5jb20=" +:+ CRLF); Line ("c2VjcmV0" +:+ CRLF)])
     = authed.
Proof.
  split; [reflexivity|]. split; [reflexivity|].
  rewrite (auth_login_authenticates
             (Login.open "user@ex.com" "secret" "" "") cold newSession []
             ("dXNlckBleC5jb20=" +:+ CRLF) ("c2VjcmV0" +:+ CRLF)
             "user@ex.com" "secret" "tok"
             (snd (getCachedOAuth2Token
                     (Login.open "user@ex.com" "secret" "" "") cold
                     "user@ex.com" "secret")));
    try reflexivity; discriminate.
Defined.

(** X18.  AUTH LOGIN with the user name on the command line: the handler goes
    straight to the password prompt and reads one line. *)
Theorem auth_login_with_inline_user_name :
  forall (env : Env) (w : World) (st : Session) (raw : string)
         (rest : list ReadEvent) (f1 f2 userB64 passB64 user pass tok : string)
         (w' : World),
    isCommand raw "AUTH LOGIN" = true ->
    Fields (TrimRight raw CRLF) = [f1; f2; userB64] ->
    DecodeString (lib env) (TrimSpace userB64) = inl user ->
    DecodeString (lib env) (TrimSpace passB64) = inl pass ->
    user <> "" ->
    pass <> "" ->
    getCachedOAuth2Token env w user pass = (inl tok, w') ->
    handleCommand env w st raw (Line passB64 :: rest)
    = {| replies := [reply "334 UGFzc3dvcmQ6"; ok235];
         next := Continue;
         session := {| username := user; password := pass;
                       authenticated := true;
                       mailFrom := mailFrom st; rcptTo := rcptTo st |};
         unread := rest; world := w' |}.
Proof.
  intros env w st raw rest f1 f2 userB64 passB64 user pass tok w'
    H Hf Hu Hp Hune Hpne Htok.
  dispatch H. unfold authLogin. rewrite Hf.
  unfold authUsername, decodeBase64WithError. rewrite Hu.
  unfold authPassword. cbn [ReadString].
  unfold decodeBase64WithError. rewrite Hp. unfold authVerify.
  cbn [username password setUsername setPassword].
  destruct (String.eqb_spec user ""); [contradiction|].
  destruct (String.eqb_spec pass ""); [contradiction|].
  cbn [orb andb].
  change (username (setPassword (setUsername st user) pass)) with user.
  change (password (setPassword (setUsername st user) pass)) with pass.
  rewrite Htok. reflexivity.
Qed.

Lemma auth_login_with_inline_user_name_witness :
  isCommand ("auth login dXNlckBleC5jb20=" +:+ CRLF) "AUTH LOGIN" = true
  /\ Fields (TrimRight ("auth login dXNlckBleC5jb20=" +:+ CRLF) CRLF)
     = ["auth"; "login"; "dXNlckBleC5jb20="]
  /\ handleCommand (Login.open "user@ex.com" "secret" "" "") cold newSession
       ("auth login dXNlckBleC5jb20=" +:+ CRLF) [Line ("c2VjcmV0" +:+ CRLF)]
     = {| replies := [reply "334 UGFzc3dvcmQ6"; ok235];
          next := Continue;
          session := {| username := "user@ex.com"; password := "secret";
                        authenticated := true;
                        mailFrom := mailFrom newSession;
                        rcptTo := rcptTo newSession |};
          unread := [];
          world := snd (getCachedOAuth2Token
                          (Login.open "user@ex.com" "secret" "" "") cold
                          "user@ex.com" "secret") |}.
Proof.
  split; [reflexivity|]. split; [reflexivity|].
  apply (auth_login_with_inline_user_name
           (Login.open "user@ex.com" "secret" "" "") cold newSession
           ("auth login dXNlckBleC5jb20=" +:+ CRLF) []
           "auth" "login" "dXNlckBleC5jb20=" ("c2VjcmV0" +:+ CRLF)
           "user@ex.com" "secret" "tok");
    try reflexivity; discriminate.
Defined.

(** ** The session: commands *)

(** X19.  Before authentication the mail commands and QUIT, RSET and NOOP alike
    are answered 530; the session, the input and the world are left as
    they are, so a QUIT does not end the connection. *)
Theorem commands_before_authentication_are_answered_530 :
  forall (env : Env) (w : World) (st : Session) (raw verb : string)
         (rest : list ReadEvent),
    In verb ["MAIL FROM:"; "RCPT TO:"; "DATA"; "QUIT"; "RSET"; "NOOP"] ->
    isCommand raw verb = true ->
    authenticated st = false ->
    handleCommand env w st raw rest
    = {| replies := [reply "530 5.7.0 Authentication required"];
         next := Continue; session := st; unread := rest; world := w |}.
Proof.
  intros env w st raw verb rest Hin H Ha.
  cbn [In] in Hin.
  destruct Hin as [<-|[<-|[<-|[<-|[<-|[<-|[]]]]]]];
    dispatch H; rewrite Ha; reflexivity.
Qed.

Lemma commands_before_authentication_are_answered_530_witness :
  In "QUIT" ["MAIL FROM:"; "RCPT TO:"; "DATA"; "QUIT"; "RSET"; "NOOP"]
  /\ isCommand ("quit" +:+ CRLF) "QUIT" = true
  /\ authenticated newSession = false
  /\ handleCommand offline cold newSession ("quit" +:+ CRLF) []
     = {| replies := [reply "530 5.7.0 Authentication required"];
          next := Continue; session := newSession; unread := [];
          world := cold |}.
Proof.
  assert (Hin : In "QUIT"
                  ["MAIL FROM:"; "RCPT TO:"; "DATA"; "QUIT"; "RSET"; "NOOP"])
    by (cbn; tauto).
  split; [exact Hin|]. split; [reflexivity|]. split; [reflexivity|].
  apply (commands_before_authentication_are_answered_530 offline cold
           newSession ("quit" +:+ CRLF) "QUIT" [] Hin eq_refl eq_refl).
Defined.

(** X20.  After authentication QUIT is answered 221 and ends the command loop
    with the rest of the input unread; RSET empties the envelope and NOOP
    changes nothing, both answered 250, and neither touches the login. *)
Theorem quit_rset_noop_after_authentication :
  forall (env : Env) (w : World) (st : Session) (raw : string)
         (rest : list ReadEvent),
    authenticated st = true ->
    (isCommand raw "QUIT" = true ->
     forall fuel,
       commandLoop env (S fuel) w st (Line raw :: rest)
       = Some {| written := [reply "221 2.0.0 Bye"]; panicked := false;
                 after := w |})
    /\ (isCommand raw "RSET" = true ->
        handleCommand env w st raw rest
        = {| replies := [reply "250 2.0.0 Ok"]; next := Continue;
             session := {| username := username st; password := password st;
                           authenticated := true;
                           mailFrom := ""; rcptTo := [] |};
             unread := rest; world := w |})
    /\ (isCommand raw "NOOP" = true ->
        handleCommand env w st raw rest
        = {| replies := [reply "250 2.0.0 Ok"]; next := Continue;
             session := st; unread := rest; world := w |}).
Proof.
  intros env w st raw rest Ha. split; [|split]; intros H.
  - intros fuel. cbn [commandLoop ReadString].
    assert (E : handleCommand env w st raw rest
                = {| replies := [reply "221 2.0.0 Bye"]; next := Return;
                     session := st; unread := rest; world := w |}).
    { dispatch H. rewrite Ha. reflexivity. }
    rewrite E. reflexivity.
  - dispatch H. rewrite Ha. cbn [negb]. unfold resetEnvelope.
    rewrite Ha. reflexivity.
  - dispatch H. rewrite Ha. reflexivity.
Qed.

Lemma quit_rset_noop_after_authentication_witness :
  authenticated authed = true
  /\ isCommand ("QUIT" +:+ CRLF) "QUIT" = true
  /\ commandLoop offline 1 cold authed
       (Line ("QUIT" +:+ CRLF) :: lines ["NOOP"])
     = Some {| written := [reply "221 2.0.0 Bye"]; panicked := false;
               after := cold |}.
Proof.
  split; [reflexivity|]. split; [reflexivity|].
  apply (proj1 (quit_rset_noop_after_authentication offline cold authed
                  ("QUIT" +:+ CRLF) (lines ["NOOP"]) eq_refl) eq_refl 0%nat).
Defined.

(** ** DATA: the input after a message over the limit *)


Lemma readData_over_the_limit (max : Z) (ls : list string) :
  forall (term : string) (rest : list ReadEvent) (size : Z) (buf : string),
    noTerminator ls = true ->
    String.eqb (TrimSpace term) "." = true ->
    0 <= size <= max ->
    max < size + len (joined ls) < 2 ^ 63 ->
    exists size' rest',
      readData max (map Line ls ++ Line term :: rest) size buf
      = DataTooLarge size' rest'
      /\ drain rest' = rest.
Proof.
  induction ls as [|l ls IH]; intros term rest size buf Hno Hterm Hsize Hover.
  - change (len (joined [])) with 0 in Hover. lia.
  - cbn [noTerminator forallb] in Hno. apply andb_true_iff in Hno as [Hl Hno].
    apply negb_true_iff in Hl.
    rewrite joined_cons, len_app in Hover.
    pose proof (len_nonneg l). pose proof (len_nonneg (joined ls)).
    cbn [map app readData]. rewrite Hl.
    rewrite wrap64_small by lia.
    destruct (size + len l >? max) eqn:E.
    + exists (size + len l), (map Line ls ++ Line term :: rest).
      split; [reflexivity|]. apply drain_to_terminator; assumption.
    + rewrite Z.gtb_ltb in E. apply Z.ltb_ge in E.
      apply IH; [exact Hno | exact Hterm | lia | lia].
Qed.

(** X21.  After a message over the size limit the handler is in step with the
    client again: whichever line crossed the limit, the next line it reads
    as a command is the one that follows the terminator of the message. *)
Theorem too_large_message_is_skipped_to_its_terminator :
  forall (env : Env) (w : World) (st : Session) (raw : string)
         (ls : list string) (term : string) (rest : list ReadEvent),
    authenticated st = true ->
    isCommand raw "DATA" = true ->
    rcptTo st <> [] ->
    noTerminator ls = true ->
    String.eqb (TrimSpace term) "." = true ->
    0 <= MaxMessageSize (config env) < len (joined ls) ->
    len (joined ls) < 2 ^ 63 ->
    unread (handleCommand env w st raw (map Line ls ++ Line term :: rest))
    = rest
    /\ next (handleCommand env w st raw (map Line ls ++ Line term :: rest))
       = Continue.
Proof.
  intros env w st raw ls term rest Ha H Hr Hno Hterm Hmax Hlen.
  destruct (readData_over_the_limit (MaxMessageSize (config env)) ls term rest
              0 "" Hno Hterm ltac:(lia) ltac:(lia))
    as (size' & rest' & Hdata & Hdrain).
  dispatch H. rewrite Ha. cbn [negb].
  unfold dataCommand. rewrite (rcptTo_nonempty st Hr), Hdata.
  settle t Hup. cbn [unread next]. split; [exact Hdrain|reflexivity].
Qed.

(** A limit of 10 bytes, a message of three lines, then a NOOP. *)
Lemma too_large_message_is_skipped_to_its_terminator_witness :
  noTerminator ["01234" +:+ CRLF; "56789" +:+ CRLF; "more" +:+ CRLF] = true
  /\ 0 <= MaxMessageSize (config (scripted 10 3600 "{..}" 202 ""))
     < len (joined ["01234" +:+ CRLF; "56789" +:+ CRLF; "more" +:+ CRLF])
  /\ unread
       (handleCommand (scripted 10 3600 "{..}" 202 "") cold
          (addRcpt (setMailFrom authed "a@b.c") "r@x.y") ("DATA" +:+ CRLF)
          (map Line ["01234" +:+ CRLF; "56789" +:+ CRLF; "more" +:+ CRLF]
           ++ Line ("." +:+ CRLF) :: lines ["NOOP"]))
     = lines ["NOOP"].
Proof.
  split; [reflexivity|]. split; [vm_compute; split; [discriminate|reflexivity]|].
  apply (too_large_message_is_skipped_to_its_terminator
           (scripted 10 3600 "{..}" 202 "") cold
           (addRcpt (setMailFrom authed "a@b.c") "r@x.y") ("DATA" +:+ CRLF)
           ["01234" +:+ CRLF; "56789" +:+ CRLF; "more" +:+ CRLF]
           ("." +:+ CRLF) (lines ["NOOP"]));
    try reflexivity; try discriminate.
  - vm_compute. split; [discriminate|reflexivity].
Defined.

(** ** Addresses: what [extractAddress] takes from a line *)

Lemma occurs_app (c : ascii) (a d : string) :
  occurs c (a +:+ d) <-> occurs c a \/ occurs c d.
Proof.
  unfold occurs. induction a as [|x a IH].
  - cbn. tauto.
  - rewrite app_cons. cbn [list_ascii_of_string In]. rewrite IH. tauto.
Qed.

Lemma Index_first (c : ascii) (a d : string) :
  ~ occurs c a -> Index (a +:+ String c d) (one c) = len a.
Proof.
  unfold occurs. induction a as [|x a IH]; intros Hno.
  - change ("" +:+ String c d) with (String c d). cbn [Index].
    rewrite prefix_one. destruct (ascii_dec c c); [reflexivity|congruence].
  - rewrite app_cons. cbn [Index]. rewrite prefix_one.
    cbn [list_ascii_of_string In] in Hno.
    destruct (ascii_dec c x) as [->|_]; [tauto|].
    rewrite IH by tauto. pose proof (len_nonneg a).
    destruct (len a <? 0) eqn:E; [apply Z.ltb_lt in E; lia|].
    unfold len. cbn [String.length]. lia.
Qed.

Lemma Index_absent (c : ascii) (s : string) :
  ~ occurs c s -> Index s (one c) = -1.
Proof.
  intros Hno. pose proof (Index_lower s (one c)).
  destruct (Z_lt_le_dec (Index s (one c)) 0) as [|Hge]; [lia|].
  apply Index_one in Hge. contradiction.
Qed.

Lemma substring_middle (a m z : string) :
  String.substring (String.length a) (String.length m) (a +:+ m +:+ z) = m.
Proof.
  induction a as [|x a IH].
  - change ("" +:+ m +:+ z) with (m +:+ z). apply substring_head.
  - rewrite app_cons. cbn [String.length String.substring]. exact IH.
Qed.

(** X22.  With angle brackets, the address is the text between the first [<]
    and the first [>] of the line: what precedes the brackets and the
    parameters that follow them are left out. *)
Theorem extractAddress_takes_what_the_brackets_hold :
  forall before addr after : string,
    ~ occurs "<" before ->
    ~ occurs ">" before ->
    ~ occurs ">" addr ->
    extractAddress (before +:+ "<" +:+ addr +:+ ">" +:+ after) = addr.
Proof.
  intros before addr after Hlt Hgt Hgt'. unfold extractAddress.
  cbv zeta.
  assert (Hstart : Index (before +:+ "<" +:+ addr +:+ ">" +:+ after) "<"
                   = len before)
    by apply (Index_first "<" before (addr +:+ ">" +:+ after) Hlt).
  assert (Hend : Index (before +:+ "<" +:+ addr +:+ ">" +:+ after) ">"
                 = len before + 1 + len addr).
  { replace (before +:+ "<" +:+ addr +:+ ">" +:+ after)
      with ((before +:+ "<" +:+ addr) +:+ String ">" after)
      by (change (String ">" after) with (">" +:+ after);
          now rewrite !app_assoc_s).
    transitivity (len (before +:+ "<" +:+ addr)).
    - apply (Index_first ">" (before +:+ "<" +:+ addr) after).
      rewrite !occurs_app. intros [H|[H|H]]; try contradiction.
      cbn in H. destruct H as [H|[]]. discriminate.
    - rewrite !len_app. change (len "<") with 1. lia. }
  rewrite Hstart, Hend.
  pose proof (len_nonneg before). pose proof (len_nonneg addr).
  replace (len before =? -1) with false by (symmetry; apply Z.eqb_neq; lia).
  replace (len before + 1 + len addr =? -1) with false
    by (symmetry; apply Z.eqb_neq; lia).
  rewrite gtb_true by lia. cbn [negb andb].
  unfold slice.
  replace (len before + 1 + len addr - (len before + 1)) with (len addr)
    by lia.
  replace (len before + 1) with (len (before +:+ "<"))
    by (rewrite len_app; reflexivity).
  unfold len. rewrite !Nat2Z.id.
  replace (before +:+ "<" +:+ addr +:+ ">" +:+ after)
    with ((before +:+ "<") +:+ addr +:+ (">" +:+ after))
    by (now rewrite !app_assoc_s).
  apply substring_middle.
Qed.

(** A MAIL FROM with a SIZE parameter. *)
Lemma extractAddress_takes_what_the_brackets_hold_witness :
  ~ occurs "<" "MAIL FROM:"
  /\ ~ occurs ">" "MAIL FROM:"
  /\ ~ occurs ">" "a@b.c"
  /\ extractAddress ("MAIL FROM:" +:+ "<" +:+ "a@b.c" +:+ ">" +:+ " SIZE=12345")
     = "a@b.c".
Proof.
  assert (H1 : ~ occurs "<" "MAIL FROM:") by (cbn; intuition discriminate).
  assert (H2 : ~ occurs ">" "MAIL FROM:") by (cbn; intuition discriminate).
  assert (H3 : ~ occurs ">" "a@b.c") by (cbn; intuition discriminate).
  split; [exact H1|]. split; [exact H2|]. split; [exact H3|].
  apply (extractAddress_takes_what_the_brackets_hold
           "MAIL FROM:" "a@b.c" " SIZE=12345" H1 H2 H3).
Defined.

(** X23.  Without a [<] in the line, the address is all that follows the first
    colon, with the white space around it removed and nothing else: the
    parameters of the command stay in the address. *)
Theorem extractAddress_without_brackets_keeps_the_parameters :
  forall verb text : string,
    ~ occurs ":" verb ->
    ~ occurs "<" verb ->
    ~ occurs "<" text ->
    extractAddress (verb +:+ ":" +:+ text) = TrimSpace text.
Proof.
  intros verb text Hcolon Hlt Hlt'. unfold extractAddress. cbv zeta.
  assert (Hstart : Index (verb +:+ ":" +:+ text) "<" = -1).
  { apply (Index_absent "<" (verb +:+ ":" +:+ text)).
    rewrite !occurs_app. intros [H|[H|H]]; try contradiction.
    cbn in H. destruct H as [H|[]]. discriminate. }
  rewrite Hstart. cbn [Z.eqb negb andb]. unfold SplitN2.
  assert (Hcut : Index (verb +:+ ":" +:+ text) ":" = len verb)
    by apply (Index_first ":" verb text Hcolon).
  rewrite Hcut.
  pose proof (len_nonneg verb).
  replace (len verb <? 0) with false by (symmetry; apply Z.ltb_ge; lia).
  f_equal. apply (slice_domain verb text ":").
Qed.

(** A RCPT TO without brackets and with a parameter: the parameter is
    part of the address, and the address passes the validity check. *)
Lemma extractAddress_without_brackets_keeps_the_parameters_witness :
  ~ occurs ":" "RCPT TO"
  /\ ~ occurs "<" "RCPT TO"
  /\ ~ occurs "<" " r@x.y NOTIFY=NEVER"
  /\ extractAddress ("RCPT TO" +:+ ":" +:+ " r@x.y NOTIFY=NEVER")
     = TrimSpace " r@x.y NOTIFY=NEVER"
  /\ TrimSpace " r@x.y NOTIFY=NEVER" = "r@x.y NOTIFY=NEVER"
  /\ isValidEmail "r@x.y NOTIFY=NEVER" = true.
Proof.
  assert (H1 : ~ occurs ":" "RCPT TO") by (cbn; intuition discriminate).
  assert (H2 : ~ occurs "<" "RCPT TO") by (cbn; intuition discriminate).
  assert (H3 : ~ occurs "<" " r@x.y NOTIFY=NEVER")
    by (cbn; intuition discriminate).
  split; [exact H1|]. split; [exact H2|]. split; [exact H3|].
  split; [|split; reflexivity].
  apply (extractAddress_without_brackets_keeps_the_parameters
           "RCPT TO" " r@x.y NOTIFY=NEVER" H1 H2 H3).
Defined.

(** ** DATA: the line endings of the message handed to the parser *)

Lemma crlf_pass_pair (s : string) :
  ReplaceAll (String "013" (String "010" s)) CRLF LF
  = String "010" (ReplaceAll s CRLF LF).
Proof.
  unfold ReplaceAll.
  change CRLF with (String "013" (String "010" EmptyString)).
  change LF with (String "010" EmptyString).
  cbn [replaceFrom String.prefix String.length Nat.sub].
  destruct (ascii_dec "013" "013"); [|congruence].
  destruct (ascii_dec "010" "010"); [|congruence].
  destruct s; reflexivity.
Qed.

Lemma prefix_CRLF (c : ascii) (s : string) :
  String.prefix CRLF (String c s)
  = Ascii.eqb c "013"
    && match s with
       | String d _ => Ascii.eqb d "010"
       | EmptyString => false
       end.
Proof.
  change CRLF with (String "013" (String "010" EmptyString)).
  cbn [String.prefix].
  destruct (ascii_dec "013" c) as [<-|Hc].
  - change (Ascii.eqb "013" "013") with true. cbn [andb].
    destruct s as [|d s]; [reflexivity|]. cbn [String.prefix].
    destruct (ascii_dec "010" d) as [<-|Hd].
    + destruct s; reflexivity.
    + destruct (Ascii.eqb_spec d "010"); [congruence|reflexivity].
  - destruct (Ascii.eqb_spec c "013"); [congruence|reflexivity].
Qed.

Lemma crlf_pass_other (c : ascii) (s : string) :
  String.prefix CRLF (String c s) = false ->
  ReplaceAll (String c s) CRLF LF = String c (ReplaceAll s CRLF LF).
Proof.
  intros H. unfold ReplaceAll. cbn [replaceFrom]. now rewrite H.
Qed.

Lemma byte_pass (old : ascii) (new : string) (c : ascii) (s : string) :
  ReplaceAll (String c s) (one old) new
  = (if Ascii.eqb c old then new else one c) +:+ ReplaceAll s (one old) new.
Proof.
  unfold ReplaceAll. cbn [replaceFrom]. rewrite prefix_one.
  destruct (ascii_dec old c) as [->|Hne].
  - now rewrite Ascii.eqb_refl.
  - destruct (Ascii.eqb_spec c old) as [->|_]; [congruence|reflexivity].
Qed.

Lemma later_passes (c : ascii) (s : string) :
  ReplaceAll (ReplaceAll (String c s) CR LF) LF CRLF
  = (if Ascii.eqb c "013" || Ascii.eqb c "010" then CRLF else one c)
    +:+ ReplaceAll (ReplaceAll s CR LF) LF CRLF.
Proof.
  change CR with (one "013"). change LF with (one "010").
  rewrite (byte_pass "013" (one "010") c s).
  destruct (Ascii.eqb c "013") eqn:Hcr.
  - change (one "010" +:+ ReplaceAll s (one "013") (one "010"))
      with (String "010" (ReplaceAll s (one "013") (one "010"))).
    rewrite byte_pass. reflexivity.
  - change (one c +:+ ReplaceAll s (one "013") (one "010"))
      with (String c (ReplaceAll s (one "013") (one "010"))).
    rewrite byte_pass. reflexivity.
Qed.

Lemma normalize_steps (s : string) :
  normalizeLineEndings s = crlfLines s
  /\ forall c, normalizeLineEndings (String c s) = crlfLines (String c s).
Proof.
  unfold normalizeLineEndings.
  induction s as [|d s [IH0 IH1]].
  - split; [reflexivity|]. intros c.
    rewrite crlf_pass_other by (rewrite prefix_CRLF; apply andb_false_r).
    rewrite later_passes. cbn [crlfLines].
    destruct (Ascii.eqb c "013"); [reflexivity|].
    destruct (Ascii.eqb c "010"); reflexivity.
  - split; [apply IH1|]. intros c.
    destruct (Ascii.eqb_spec c "013") as [->|Hcr].
    + destruct (Ascii.eqb_spec d "010") as [->|Hlf].
      * rewrite crlf_pass_pair, later_passes. cbn [crlfLines].
        change (Ascii.eqb "013" "013") with true.
        change (Ascii.eqb "010" "010") with true.
        change (Ascii.eqb "010" "013" || true) with true.
        cbv iota. now rewrite IH0.
      * rewrite crlf_pass_other.
        2:{ rewrite prefix_CRLF.
            destruct (Ascii.eqb_spec d "010"); [congruence|reflexivity]. }
        rewrite later_passes. change (Ascii.eqb "013" "013") with true.
        cbn [orb]. rewrite IH1.
        change (crlfLines (String "013" (String d s)))
          with (if Ascii.eqb d "010" then CRLF +:+ crlfLines s
                else CRLF +:+ crlfLines (String d s)).
        destruct (Ascii.eqb_spec d "010"); [congruence|reflexivity].
    + rewrite crlf_pass_other.
      2:{ rewrite prefix_CRLF.
          destruct (Ascii.eqb_spec c "013"); [congruence|reflexivity]. }
      rewrite later_passes, IH1.
      change (crlfLines (String c (String d s)))
        with (if Ascii.eqb c "013"
              then if Ascii.eqb d "010" then CRLF +:+ crlfLines s
                   else CRLF +:+ crlfLines (String d s)
              else if Ascii.eqb c "010"
                   then CRLF +:+ crlfLines (String d s)
                   else String c (crlfLines (String d s))).
      destruct (Ascii.eqb_spec c "013"); [congruence|].
      cbn [orb]. destruct (Ascii.eqb c "010"); reflexivity.
Qed.

Lemma crlfLines_steps (s : string) :
  crlfLines (crlfLines s) = crlfLines s
  /\ forall c, crlfLines (crlfLines (String c s)) = crlfLines (String c s).
Proof.
  assert (Hpair : forall t,
             crlfLines (CRLF +:+ t) = CRLF +:+ crlfLines t) by reflexivity.
  induction s as [|d s [IH0 IH1]].
  - split; [reflexivity|]. intros c. cbn [crlfLines].
    destruct (Ascii.eqb c "013") eqn:Hcr; [reflexivity|].
    destruct (Ascii.eqb c "010") eqn:Hlf; [reflexivity|].
    cbn [crlfLines]. now rewrite Hcr, Hlf.
  - split; [apply IH1|]. intros c.
    change (crlfLines (String c (String d s)))
      with (if Ascii.eqb c "013"
            then if Ascii.eqb d "010" then CRLF +:+ crlfLines s
                 else CRLF +:+ crlfLines (String d s)
            else if Ascii.eqb c "010"
                 then CRLF +:+ crlfLines (String d s)
                 else String c (crlfLines (String d s))).
    destruct (Ascii.eqb c "013") eqn:Hcr.
    + destruct (Ascii.eqb d "010"); rewrite Hpair; [now rewrite IH0|].
      now rewrite IH1.
    + destruct (Ascii.eqb c "010") eqn:Hlf.
      * rewrite Hpair. now rewrite IH1.
      * set (t := crlfLines (String d s)) in *.
        assert (Hstep : crlfLines (String c t) = String c (crlfLines t)).
        { destruct t; cbn [crlfLines]; now rewrite Hcr, Hlf. }
        rewrite Hstep. unfold t. now rewrite IH1.
Qed.

(** X24.  The three replacements of the DATA branch (CR LF to LF, CR to LF, LF
    to CR LF) write every line break of the message as CR LF, be it a
    CR LF, a CR alone or an LF alone, and leave every other byte as it
    is. *)
Theorem normalizeLineEndings_writes_every_break_as_CRLF :
  forall msg : string, normalizeLineEndings msg = crlfLines msg.
Proof. intros msg. apply (normalize_steps msg). Qed.

(** X25.  Normalising twice is normalising once: a message with CR LF line
    endings reaches the parser as it is. *)
Theorem normalizeLineEndings_is_idempotent :
  forall msg : string,
    normalizeLineEndings (normalizeLineEndings msg)
    = normalizeLineEndings msg.
Proof.
  intros msg.
  rewrite (proj1 (normalize_steps (normalizeLineEndings msg))).
  rewrite (proj1 (normalize_steps msg)).
  apply (crlfLines_steps msg).
Qed.

(** ** The parts of a multipart message *)

Lemma room_none (n : Z) :
  (n + 1 >? maxParts) = true -> Z.to_nat (maxParts - n) = O.
Proof. unfold maxParts. intros H. apply Z.gtb_lt in H. lia. Qed.

Lemma room_some (n : Z) :
  (n + 1 >? maxParts) = false ->
  Z.to_nat (maxParts - n) = S (Z.to_nat (maxParts - (n + 1))).
Proof.
  unfold maxParts. intros H.
  assert (n + 1 <= 100) by (destruct (Z.gtb_spec (n + 1) 100); [discriminate|lia]).
  lia.
Qed.

Lemma defaulted_type_is_not_empty (ctype : string) :
  String.eqb
    (if String.eqb ctype "" then "application/octet-stream" else ctype) ""
  = false.
Proof. destruct (String.eqb ctype "") eqn:E; [reflexivity|exact E]. Qed.

Lemma lastBody_cons (l : GoLib) (body : string) (p : Part)
    (ps : list Part) :
  lastBody l body (p :: ps)
  = lastBody l match bodyOf l p with
               | Some (content, _) => content
               | None => body
               end ps.
Proof. reflexivity. Qed.

Lemma anyHTML_cons (l : GoLib) (p : Part) (ps : list Part) :
  anyHTML l (p :: ps)
  = match bodyOf l p with
    | Some (_, html) => html
    | None => false
    end || anyHTML l ps.
Proof. reflexivity. Qed.

Lemma attachments_cons (l : GoLib) (p : Part) (ps : list Part) :
  omap (attachmentOf l) (p :: ps)
  = match attachmentOf l p with
    | Some a => a :: omap (attachmentOf l) ps
    | None => omap (attachmentOf l) ps
    end.
Proof. reflexivity. Qed.

(** X26.  Without strict mode the walk over the parts does not fail.  Of the
    parts it handles (those before the first failure of [NextPart], 100
    at most) the body is that of the last part which is no attachment and
    decodes, the HTML flag is set when it was or when such a part has a
    Content-Type with html in it, and the attachments are those parts
    with an attachment disposition that decode to a non-empty content
    under a non-empty file name, in their order. *)
Theorem walkParts_without_strict_mode :
  forall (l : GoLib) (parts : list NextPart) (partCount : Z)
         (body : string) (isHTML : bool) (attachments : list Attachment),
    walkParts l false parts partCount body isHTML attachments
    = inl (lastBody l body
             (partsRead parts (Z.to_nat (maxParts - partCount))),
           isHTML
           || anyHTML l (partsRead parts (Z.to_nat (maxParts - partCount))),
           attachments
           ++ omap (attachmentOf l)
                (partsRead parts (Z.to_nat (maxParts - partCount)))).
Proof.
  intros l parts.
  induction parts as [|[p|e] parts IH]; intros n body isHTML atts.
  - cbn. now rewrite orb_false_r, app_nil_r.
  - cbn [walkParts].
    destruct (n + 1 >? maxParts) eqn:Hcap.
    + rewrite (room_none n Hcap). cbn. now rewrite orb_false_r, app_nil_r.
    + rewrite (room_some n Hcap). cbn [partsRead].
      rewrite lastBody_cons, anyHTML_cons, attachments_cons.
      remember (bodyOf l p) as bo eqn:Hbo.
      remember (attachmentOf l p) as ao eqn:Hao.
      unfold bodyOf in Hbo. unfold attachmentOf in Hao.
      revert Hbo Hao.
      destruct (HasPrefix (Get (PartHeader p) "Content-Disposition")
                  "attachment").
      * destruct (decodeMessage l _ (PartBody p)) as [data|err].
        -- rewrite defaulted_type_is_not_empty, orb_false_r.
           destruct (String.eqb (attachmentFilename l p) ""
                     || (len data =? 0)); intros -> ->; rewrite IH.
           ++ reflexivity.
           ++ now rewrite <- app_assoc.
        -- intros -> ->. rewrite IH. reflexivity.
      * destruct (decodeMessage l _ (PartBody p)) as [data|err];
          intros -> ->; rewrite IH; [|reflexivity].
        destruct (Contains _ "html"); destruct isHTML; reflexivity.
  - cbn. now rewrite orb_false_r, app_nil_r.
Qed.

(** X27.  Strict mode changes the walk in one way: if an attachment among the
    parts handled does not decode, the walk returns the error of the
    first such attachment; otherwise it returns what it returns without
    strict mode. *)
Theorem walkParts_in_strict_mode :
  forall (l : GoLib) (parts : list NextPart) (partCount : Z)
         (body : string) (isHTML : bool) (attachments : list Attachment),
    walkParts l true parts partCount body isHTML attachments
    = match firstFailure l
              (partsRead parts (Z.to_nat (maxParts - partCount))) with
      | Some e => inr e
      | None => walkParts l false parts partCount body isHTML attachments
      end.
Proof.
  intros l parts.
  induction parts as [|[p|e] parts IH]; intros n body isHTML atts.
  - reflexivity.
  - cbn [walkParts].
    destruct (n + 1 >? maxParts) eqn:Hcap.
    + rewrite (room_none n Hcap). reflexivity.
    + rewrite (room_some n Hcap). cbn [partsRead firstFailure].
      unfold decodeFailure.
      destruct (HasPrefix (Get (PartHeader p) "Content-Disposition")
                  "attachment").
      * destruct (decodeMessage l _ (PartBody p)) as [data|err].
        -- destruct (String.eqb (attachmentFilename l p) "" || _ || _);
             apply IH.
        -- reflexivity.
      * destruct (decodeMessage l _ (PartBody p)) as [data|err]; apply IH.
  - reflexivity.
Qed.

(** ** The errors of the message parser *)

Lemma walkParts_error (l : GoLib) (strict : bool) (parts : list NextPart) :
  forall (partCount : Z) (body : string) (isHTML : bool)
         (attachments : list Attachment) (err : string),
    walkParts l strict parts partCount body isHTML attachments = inr err ->
    strict = true /\ HasPrefix err "failed to decode attachment " = true.
Proof.
  induction parts as [|[p|e] parts IH];
    intros n body isHTML atts err; [discriminate| |discriminate].
  cbn [walkParts].
  destruct (n + 1 >? maxParts); [discriminate|].
  destruct (HasPrefix (Get (PartHeader p) "Content-Disposition")
              "attachment").
  - destruct (decodeMessage l _ (PartBody p)) as [data|e].
    + destruct (String.eqb (attachmentFilename l p) "" || _ || _);
        apply IH.
    + destruct strict; [|apply IH].
      intros [= <-]. split; [reflexivity|]. apply prefix_of_app.
  - destruct (decodeMessage l _ (PartBody p)) as [data|e]; apply IH.
Qed.

(** X28.  The parser fails in three ways only: the message is not one
    [mail.ReadMessage] reads, the body of a message that is not taken as
    multipart does not decode, or, in strict mode only, an attachment
    does not decode. *)
Theorem parseSubjectBodyAndAttachments_fails_in_three_ways :
  forall (l : GoLib) (strict : bool) (msg err : string),
    parseSubjectBodyAndAttachments l strict msg = inr err ->
    HasPrefix err "mail.ReadMessage failed: " = true
    \/ HasPrefix err "failed to decode message body: failed to read part: "
       = true
    \/ (strict = true
        /\ HasPrefix err "failed to decode attachment " = true).
Proof.
  intros l strict msg err. unfold parseSubjectBodyAndAttachments.
  cbv zeta.
  destruct (ReadMessage l _) as [[header mbody]|e].
  2:{ intros [= <-]. left. apply prefix_of_app. }
  assert (Hfallback :
    forall c,
      match decodeMessage l c mbody with
      | inl dataContent =>
          inl {| pSubject :=
                   match DecodeHeader l (Get header "Subject") with
                   | Some subject => subject
                   | None => Get header "Subject"
                   end;
                 pBody := dataContent;
                 pIsHTML :=
                   Contains (ToLower (Get header "Content-Type")) "html";
                 pAttachments := [] |}
      | inr e => inr ("failed to decode message body: " +:+ e)
      end = inr err ->
      HasPrefix err "failed to decode message body: failed to read part: "
      = true).
  { intros c. unfold decodeMessage.
    destruct (if String.eqb c "base64" then _ else _) as [content|e];
      [discriminate|].
    intros [= <-].
    apply (prefix_of_app
             "failed to decode message body: failed to read part: " e). }
  destruct (ParseMediaType l _) as [[mediaType params]|].
  2:{ intros H. right. left. exact (Hfallback _ H). }
  destruct (HasPrefix mediaType "multipart/").
  2:{ intros H. right. left. exact (Hfallback _ H). }
  destruct (walkParts l strict _ 0 "" _ []) as [[[body isHTML] atts]|e]
    eqn:Hwalk; [discriminate|].
  intros [= <-]. right. right. exact (walkParts_error _ _ _ _ _ _ _ _ Hwalk).
Qed.

(** A message that [mail.ReadMessage] refuses. *)
Lemma parseSubjectBodyAndAttachments_fails_in_three_ways_witness :
  parseSubjectBodyAndAttachments Examples.failingLib false "Subject"
  = inr "mail.ReadMessage failed: malformed MIME header line"
  /\ (HasPrefix "mail.ReadMessage failed: malformed MIME header line"
        "mail.ReadMessage failed: " = true
      \/ HasPrefix "mail.ReadMessage failed: malformed MIME header line"
           "failed to decode message body: failed to read part: " = true
      \/ (false = true
          /\ HasPrefix "mail.ReadMessage failed: malformed MIME header line"
               "failed to decode attachment " = true)).
Proof.
  split; [reflexivity|].
  apply (parseSubjectBodyAndAttachments_fails_in_three_ways
           Examples.failingLib false "Subject"
           "mail.ReadMessage failed: malformed MIME header line").
  reflexivity.
Defined.
